(** * The application menu of the editor: recently used documents and
      per-window menu snapshots (src/main/menu/index.js)

    A shallow embedding of the class [AppMenu], of the two helpers
    [updateMenuItem] and [updateMenuItemSafe], and of the exported
    [getMenuItemById], [updateLineEndingMenu] and [updateAutoSaveMenu].  The
    JavaScript code mutates the file system, Electron's menu objects and the
    fields of [this]; the embedding threads one explicit [State] through a
    state-and-exception monad, so a thrown exception keeps the mutations
    made before it.

    Not embedded: [updateThemeMenu], which walks the items of a submenu,
    with or without ids, while a menu object is here the map from ids to
    items; and [_listenForIpcMain], which only registers the two methods on
    the recent documents as listeners. *)

From Stdlib Require Import ZArith String Ascii List Bool Lia.
From stdpp Require Import base option list gmap strings pretty.

Local Open Scope Z_scope.

#[local] Set Default Proof Using "Type".

(** ** Values of the host *)

(** A JavaScript exception, by constructor. [SystemError] is a Node.js
    file-system failure and carries its code. *)
Inductive exn :=
| TypeError (msg : string)
| SyntaxError (msg : string)
| Error (msg : string)
| SystemError (code : string).

(** What [log.error] receives: an exception object or a message. *)
Inductive logged :=
| LogExn (e : exn)
| LogMsg (msg : string).

(** The result of [JSON.parse]. A number is kept as its literal. *)
#[local] Unset Elimination Schemes.
Inductive json :=
| JNull
| JBool (b : bool)
| JNumber (lit : string)
| JString (s : string)
| JArray (items : list json)
| JObject (members : list (string * json)).
#[local] Set Elimination Schemes.

(** A node of the file system. *)
Inductive node :=
| File (content : string)
| Dir.

(** An item of an Electron menu: the two mutable flags the module touches. *)
Record MenuItem := mkItem { checked : bool; enabled : bool }.

(** An Electron [Menu], seen through [getMenuItemById]. *)
Abbreviation Menu := (gmap string MenuItem).

(** A reference to a [Menu] object: an index in the store of menus. Two
    holders of the same reference see each other's mutations. *)
Abbreviation ref := nat (only parsing).

Definition set_checked (b : bool) (it : MenuItem) : MenuItem :=
  {| checked := b; enabled := enabled it |}.

Definition set_enabled (b : bool) (it : MenuItem) : MenuItem :=
  {| checked := checked it; enabled := b |}.

(** ** Arrays *)

(** [Array.prototype.indexOf] on an array of strings: the first index
    holding [x], or [-1]. *)
Fixpoint indexOf_from (l : list string) (x : string) (i : Z) : Z :=
  match l with
  | [] => -1
  | y :: t => if String.eqb y x then i else indexOf_from t x (i + 1)
  end.

Definition indexOf (l : list string) (x : string) : Z := indexOf_from l x 0.

(** [l.splice(start, count)]: the array left after the removal. *)
Definition splice {A} (l : list A) (start count : nat) : list A :=
  take start l ++ drop (start + count) l.

(** ** The JavaScript [Map] of window menus: insertion ordered *)

Section JsMap.
Context {V : Type}.

Fixpoint Map_get (k : Z) (m : list (Z * V)) : option V :=
  match m with
  | [] => None
  | (k', v) :: t => if Z.eqb k' k then Some v else Map_get k t
  end.

(** [m.set(k, v)]: an existing key keeps its place, a new one goes last. *)
Fixpoint Map_set (k : Z) (v : V) (m : list (Z * V)) : list (Z * V) :=
  match m with
  | [] => [(k, v)]
  | (k', v') :: t => if Z.eqb k' k then (k, v) :: t else (k', v') :: Map_set k v t
  end.

Fixpoint Map_delete (k : Z) (m : list (Z * V)) : list (Z * V) :=
  match m with
  | [] => []
  | (k', v') :: t => if Z.eqb k' k then Map_delete k t else (k', v') :: Map_delete k t
  end.

End JsMap.

(** ** The state the module reads and writes *)

(** One entry of [windowMenus]: the object [{ shortcutMap, menu }] that
    [buildDefaultMenu] returns. A field holds [None] for [null]. *)
Record WindowMenu {ShortcutMap : Type} := mkWindowMenu {
  shortcutMap : option ShortcutMap;
  menu : option ref
}.
Arguments WindowMenu : clear implicits.
Arguments mkWindowMenu {ShortcutMap} _ _.

Record State {Keybindings Preferences ShortcutMap : Type} := mkState {
  (* fields of the AppMenu instance *)
  _preferences : Preferences;
  _keybindings : Keybindings;
  activeWindowId : Z;
  windowMenus : list (Z * WindowMenu ShortcutMap);
  (* Electron *)
  menus : list Menu;                 (* the Menu objects built so far *)
  applicationMenu : option ref;      (* Menu.getApplicationMenu() *)
  nativeRecentDocuments : list string;  (* app.addRecentDocument *)
  keyHandlers : list (Z * option ShortcutMap); (* registerKeyHandlers calls *)
  (* the file system, the calls of fs.writeFileSync, and electron-log *)
  files : gmap string node;
  writes : list (string * string);
  errorLog : list logged
}.
Arguments State : clear implicits.
Arguments mkState {Keybindings Preferences ShortcutMap} _ _ _ _ _ _ _ _ _ _ _.

(** ** The monad: state, and exceptions that keep the state *)

Inductive outcome (A : Type) :=
| Ok (a : A)
| Throw (e : exn).
Arguments Ok {A} a.
Arguments Throw {A} e.

Definition M (S A : Type) : Type := S -> outcome A * S.

Definition ret {S A} (a : A) : M S A := fun s => (Ok a, s).

Definition bind {S A B} (c : M S A) (k : A -> M S B) : M S B :=
  fun s => match c s with
           | (Ok a, s') => k a s'
           | (Throw e, s') => (Throw e, s')
           end.

Definition throw {S A} (e : exn) : M S A := fun s => (Throw e, s).

(** [try { c } catch (err) { h err }]. *)
Definition try_catch {S A} (c : M S A) (h : exn -> M S A) : M S A :=
  fun s => match c s with
           | (Ok a, s') => (Ok a, s')
           | (Throw e, s') => h e s'
           end.

Definition get {S} : M S S := fun s => (Ok s, s).
Definition gets {S A} (f : S -> A) : M S A := fun s => (Ok (f s), s).
Definition modify {S} (f : S -> S) : M S unit := fun s => (Ok tt, f s).

Notation "'let*' x ':=' c 'in' k" := (bind c (fun x => k))
  (at level 10, x pattern, c at level 100, k at level 200).
Notation "'do' c 'then' k" := (bind c (fun _ => k))
  (at level 10, c at level 100, k at level 200).

(** ** Field updates of [State] *)

Section Setters.
Context {K P SM : Type}.
Implicit Type s : State K P SM.

Definition set_activeWindowId (v : Z) s : State K P SM :=
  mkState (_preferences s) (_keybindings s) v (windowMenus s) (menus s)
    (applicationMenu s) (nativeRecentDocuments s) (keyHandlers s) (files s)
    (writes s) (errorLog s).

Definition set_windowMenus (v : list (Z * WindowMenu SM)) s : State K P SM :=
  mkState (_preferences s) (_keybindings s) (activeWindowId s) v (menus s)
    (applicationMenu s) (nativeRecentDocuments s) (keyHandlers s) (files s)
    (writes s) (errorLog s).

Definition set_menus (v : list Menu) s : State K P SM :=
  mkState (_preferences s) (_keybindings s) (activeWindowId s) (windowMenus s) v
    (applicationMenu s) (nativeRecentDocuments s) (keyHandlers s) (files s)
    (writes s) (errorLog s).

Definition set_applicationMenu (v : option ref) s : State K P SM :=
  mkState (_preferences s) (_keybindings s) (activeWindowId s) (windowMenus s)
    (menus s) v (nativeRecentDocuments s) (keyHandlers s) (files s)
    (writes s) (errorLog s).

Definition set_nativeRecentDocuments (v : list string) s : State K P SM :=
  mkState (_preferences s) (_keybindings s) (activeWindowId s) (windowMenus s)
    (menus s) (applicationMenu s) v (keyHandlers s) (files s)
    (writes s) (errorLog s).

Definition set_keyHandlers (v : list (Z * option SM)) s : State K P SM :=
  mkState (_preferences s) (_keybindings s) (activeWindowId s) (windowMenus s)
    (menus s) (applicationMenu s) (nativeRecentDocuments s) v (files s)
    (writes s) (errorLog s).

Definition set_files (v : gmap string node) s : State K P SM :=
  mkState (_preferences s) (_keybindings s) (activeWindowId s) (windowMenus s)
    (menus s) (applicationMenu s) (nativeRecentDocuments s) (keyHandlers s) v
    (writes s) (errorLog s).

Definition set_writes (v : list (string * string)) s : State K P SM :=
  mkState (_preferences s) (_keybindings s) (activeWindowId s) (windowMenus s)
    (menus s) (applicationMenu s) (nativeRecentDocuments s) (keyHandlers s)
    (files s) v (errorLog s).

Definition set_errorLog (v : list logged) s : State K P SM :=
  mkState (_preferences s) (_keybindings s) (activeWindowId s) (windowMenus s)
    (menus s) (applicationMenu s) (nativeRecentDocuments s) (keyHandlers s)
    (files s) (writes s) v.

End Setters.

(** Modelled from the spec: the helpers [isFile(path)] and
    [isDirectory(path)] of ../filesystem, which are not part of the sources
    at hand; they are existence checks on the file system. *)
Definition is_file (fs : gmap string node) (p : string) : bool :=
  match fs !! p with Some (File _) => true | _ => false end.

Definition is_directory (fs : gmap string node) (p : string) : bool :=
  match fs !! p with Some Dir => true | _ => false end.

Definition exists_path (fs : gmap string node) (p : string) : bool :=
  is_file fs p || is_directory fs p.

(** [needle] occurs in [s]: what a regular expression made of one literal
    tests. *)
Definition contains (needle s : string) : bool :=
  match String.index 0 needle s with Some _ => true | None => false end.

(** The ids of the toggle items the module copies between menus. *)
Definition sourceCodeModeMenuItem : string := "sourceCodeModeMenuItem".
Definition typewriterModeMenuItem : string := "typewriterModeMenuItem".
Definition focusModeMenuItem : string := "focusModeMenuItem".
Definition sideBarMenuItem : string := "sideBarMenuItem".
Definition tabBarMenuItem : string := "tabBarMenuItem".

Definition FILE_NAME : string := "recently-used-documents.json".
Definition MAX_RECENTLY_USED_DOCUMENTS : nat := 12.

(** ** The class [AppMenu] *)

Section AppMenu.
Context {Keybindings Preferences Template ShortcutMap : Type}.

(** The host and the collaborators the module imports. *)
Variable platform : string.                 (* process.platform *)
Variable userDataPath : string.             (* the constructor's argument *)
Variable path_join : string -> string -> string.
Variable JSON_parse : string -> option json.  (* None: a SyntaxError *)
Variable JSON_stringify : list string -> string. (* JSON.stringify(l, null, 2) *)
Variable configureMenu : Keybindings -> Preferences -> list string -> Template.
                                            (* ../menu/templates *)
Variable buildFromTemplate : Template -> Menu.  (* the content of the Menu built *)
Variable parseMenu : Template -> ShortcutMap.   (* ../keyboard/shortcutHandler *)

Abbreviation St := (State Keybindings Preferences ShortcutMap).
Abbreviation Op := (M St).

(** The fields the constructor computes once; [isOsxOrWindows] is
    [/darwin|win32/.test(process.platform)]. *)
Definition RECENTS_PATH : string := path_join userDataPath FILE_NAME.
Definition isOsxOrWindows : bool := contains "darwin" platform || contains "win32" platform.
Definition isOsx : bool := String.eqb platform "darwin".

(** [new AppMenu(preferences, keybindings, userDataPath)] in the world [w]:
    no active window, no window menu. *)
Definition constructor (preferences : Preferences) (keybindings : Keybindings)
    (w : St) : St :=
  mkState preferences keybindings (-1) [] (menus w) (applicationMenu w)
    (nativeRecentDocuments w) (keyHandlers w) (files w) (writes w) (errorLog w).

(** *** File system, log and Electron primitives *)

Definition isFile (p : string) : Op bool := gets (fun s => is_file (files s) p).

Definition isDirectory (p : string) : Op bool :=
  gets (fun s => is_directory (files s) p).

Definition readFileSync (p : string) : Op string :=
  fun s => match files s !! p with
           | Some (File c) => (Ok c, s)
           | Some Dir => (Throw (SystemError "EISDIR"), s)
           | None => (Throw (SystemError "ENOENT"), s)
           end.

(** Modelled from the spec: the helper [ensureDirSync] of ../filesystem
    ("the directory is created if absent before any write"), which is not
    part of the sources at hand. *)
Definition ensureDirSync (d : string) : Op unit :=
  modify (fun s => match files s !! d with
                   | None => set_files (<[d := Dir]> (files s)) s
                   | Some _ => s
                   end).

(** The write is recorded in [writes]. Failures of the host's disk are not
    part of the model. *)
Definition writeFileSync (p content : string) : Op unit :=
  modify (fun s => set_writes (writes s ++ [(p, content)])
                     (set_files (<[p := File content]> (files s)) s)).

Definition log_error (e : logged) : Op unit :=
  modify (fun s => set_errorLog (errorLog s ++ [e]) s).

Definition app_addRecentDocument (p : string) : Op unit :=
  modify (fun s => set_nativeRecentDocuments (nativeRecentDocuments s ++ [p]) s).

Definition app_clearRecentDocuments : Op unit :=
  modify (set_nativeRecentDocuments []).

Definition Menu_getApplicationMenu : Op (option ref) := gets applicationMenu.

Definition Menu_setApplicationMenu (m : option ref) : Op unit :=
  modify (set_applicationMenu m).

(** [Menu.buildFromTemplate]: a new Menu object. *)
Definition Menu_buildFromTemplate (t : Template) : Op ref :=
  fun s => (Ok (length (menus s)), set_menus (menus s ++ [buildFromTemplate t]) s).

Definition registerKeyHandlers (windowId : Z) (sm : option ShortcutMap) : Op unit :=
  modify (fun s => set_keyHandlers (keyHandlers s ++ [(windowId, sm)]) s).

(** The item [id] of the menu object [m] in state [s], if both exist. *)
Definition item_at (s : St) (m : ref) (id : string) : option MenuItem :=
  match menus s !! m with
  | Some mn => mn !! id
  | None => None
  end.

(** [m.getMenuItemById(id)]: a reference to the item, or [None] for null.
    Calling it on null throws. *)
Definition getMenuItemById (m : option ref) (id : string) : Op (option (ref * string)) :=
  match m with
  | None => throw (TypeError "Cannot read property 'getMenuItemById' of null")
  | Some r => gets (fun s => match item_at s r id with
                             | Some _ => Some (r, id)
                             | None => None
                             end)
  end.

(** [item.checked] *)
Definition read_checked (item : option (ref * string)) : Op bool :=
  match item with
  | None => throw (TypeError "Cannot read property 'checked' of null")
  | Some (r, id) =>
      gets (fun s => match item_at s r id with
                     | Some it => checked it
                     | None => false
                     end)
  end.

Definition alter_item (f : MenuItem -> MenuItem) (r : ref) (id : string) (s : St) : St :=
  set_menus (alter (alter f id) r (menus s)) s.

(** [item.checked = v] *)
Definition write_checked (item : option (ref * string)) (v : bool) : Op unit :=
  match item with
  | None => throw (TypeError "Cannot set property 'checked' of null")
  | Some (r, id) => modify (alter_item (set_checked v) r id)
  end.

(** [item.enabled = v] *)
Definition write_enabled (item : option (ref * string)) (v : bool) : Op unit :=
  match item with
  | None => throw (TypeError "Cannot set property 'enabled' of null")
  | Some (r, id) => modify (alter_item (set_enabled v) r id)
  end.

(** *** The two helpers at the end of the file *)

Definition updateMenuItem (oldMenus newMenus : option ref) (id : string) : Op unit :=
  let* oldItem := getMenuItemById oldMenus id in
  let* newItem := getMenuItemById newMenus id in
  let* v := read_checked oldItem in
  write_checked newItem v.

Definition updateMenuItemSafe (oldMenus newMenus : option ref) (id : string)
    (defaultValue : bool) : Op unit :=
  let* checked :=
    match oldMenus with
    | Some _ =>
        let* oldItem := getMenuItemById oldMenus id in
        match oldItem with
        | Some _ => read_checked oldItem
        | None => ret defaultValue
        end
    | None => ret defaultValue
    end in
  let* newItem := getMenuItemById newMenus id in
  write_checked newItem checked.

(** *** Recently used documents *)

(** The filter callback [f => f && (isFile(f) || isDirectory(f))] on one
    parsed entry: the path when the entry is kept. An entry that is not a
    string names nothing on the file system, so both checks fail for it. *)
Definition keep_entry (fs : gmap string node) (f : json) : option string :=
  match f with
  | JString p =>
      if negb (String.eqb p "") && (is_file fs p || is_directory fs p)
      then Some p else None
  | _ => None
  end.

(** [parsed.filter(...)]: only an array has the method. *)
Definition filter_existing (parsed : json) : Op (list string) :=
  match parsed with
  | JArray items => gets (fun s => omap (keep_entry (files s)) items)
  | _ => throw (TypeError "filter is not a function")
  end.

Definition parse (text : string) : Op json :=
  match JSON_parse text with
  | Some v => ret v
  | None => throw (SyntaxError "Unexpected token in JSON")
  end.

(** The trailing [if (length > MAX) splice(MAX, length - MAX)]. *)
Definition truncate (l : list string) : list string :=
  if (MAX_RECENTLY_USED_DOCUMENTS <? length l)%nat
  then splice l MAX_RECENTLY_USED_DOCUMENTS (length l - MAX_RECENTLY_USED_DOCUMENTS)
  else l.

Definition getRecentlyUsedDocuments : Op (list string) :=
  let* present := isFile RECENTS_PATH in
  if negb present then ret []
  else
    try_catch
      (let* text := readFileSync RECENTS_PATH in
       let* parsed := parse text in
       let* recentDocuments := filter_existing parsed in
       ret (truncate recentDocuments))
      (fun err => do log_error (LogExn err) then ret []).

(** Lines 40-52 of [addRecentlyUsedDocument]: the array [recentDocuments]
    after the splice, unshift and splice, and the final [needSave]. *)
Definition moveToFront (recentDocuments : list string) (filePath : string)
    : list string * bool :=
  let index := indexOf recentDocuments filePath in
  let needSave := negb (index =? 0) in
  let recentDocuments :=
    if 0 <? index then splice recentDocuments (Z.to_nat index) 1
    else recentDocuments in
  let recentDocuments :=
    if negb (index =? 0) then filePath :: recentDocuments
    else recentDocuments in
  if (MAX_RECENTLY_USED_DOCUMENTS <? length recentDocuments)%nat
  then (splice recentDocuments MAX_RECENTLY_USED_DOCUMENTS
          (length recentDocuments - MAX_RECENTLY_USED_DOCUMENTS), true)
  else (recentDocuments, needSave).

(** *** Window menus *)

Definition buildDefaultMenu (createShortcutMap : bool)
    (recentUsedDocuments : option (list string)) : Op (WindowMenu ShortcutMap) :=
  let* recentUsedDocuments :=
    match recentUsedDocuments with
    | Some l => ret l
    | None => getRecentlyUsedDocuments
    end in
  let* keybindings := gets _keybindings in
  let* preferences := gets _preferences in
  let menuTemplate := configureMenu keybindings preferences recentUsedDocuments in
  let* menu := Menu_buildFromTemplate menuTemplate in
  let shortcutMap := if createShortcutMap then Some (parseMenu menuTemplate) else None in
  ret (mkWindowMenu shortcutMap (Some menu)).

(** The callback of [this.windowMenus.forEach] in [updateAppMenu], run on
    the entry at position [i], which holds [value] under [key]. *)
Definition rebuildWindowMenu (recentUsedDocuments : list string) (i : nat)
    (value : WindowMenu ShortcutMap) (key : Z) : Op unit :=
  let oldMenu := menu value in
  let* built := buildDefaultMenu false (Some recentUsedDocuments) in
  let newMenu := menu built in
  do updateMenuItem oldMenu newMenu sourceCodeModeMenuItem then
  do updateMenuItem oldMenu newMenu typewriterModeMenuItem then
  do updateMenuItem oldMenu newMenu focusModeMenuItem then
  do updateMenuItem oldMenu newMenu sideBarMenuItem then
  do updateMenuItem oldMenu newMenu tabBarMenuItem then
  do modify (fun s => set_windowMenus
       (<[i := (key, mkWindowMenu (shortcutMap value) newMenu)]> (windowMenus s)) s) then
  let* activeWindowId := gets activeWindowId in
  if activeWindowId =? key then Menu_setApplicationMenu newMenu else ret tt.

(** [forEach] over the entries from position [i] on, [n] of them. *)
Fixpoint forEach_windowMenus (f : nat -> WindowMenu ShortcutMap -> Z -> Op unit)
    (i n : nat) : Op unit :=
  match n with
  | O => ret tt
  | S n' =>
      let* entry := gets (fun s => windowMenus s !! i) in
      match entry with
      | Some (key, value) => do f i value key then forEach_windowMenus f (S i) n'
      | None => ret tt
      end
  end.

Definition updateAppMenu (recentUsedDocuments : option (list string)) : Op unit :=
  let* recentUsedDocuments :=
    match recentUsedDocuments with
    | Some l => ret l
    | None => getRecentlyUsedDocuments
    end in
  let* count := gets (fun s => length (windowMenus s)) in
  forEach_windowMenus (rebuildWindowMenu recentUsedDocuments) 0 count.

Definition addRecentlyUsedDocument (filePath : string) : Op unit :=
  do (if isOsxOrWindows then app_addRecentDocument filePath else ret tt) then
  if isOsx then ret tt
  else
    let* recentDocuments := getRecentlyUsedDocuments in
    let '(recentDocuments, needSave) := moveToFront recentDocuments filePath in
    do updateAppMenu (Some recentDocuments) then
    if needSave
    then do ensureDirSync userDataPath then
         writeFileSync RECENTS_PATH (JSON_stringify recentDocuments)
    else ret tt.

Definition clearRecentlyUsedDocuments : Op unit :=
  do (if isOsxOrWindows then app_clearRecentDocuments else ret tt) then
  if isOsx then ret tt
  else
    let recentDocuments := [] in
    do updateAppMenu (Some recentDocuments) then
    let json := JSON_stringify recentDocuments in
    do ensureDirSync userDataPath then
    writeFileSync RECENTS_PATH json.

Definition addEditorMenu (windowId : Z) : Op unit :=
  let* built := buildDefaultMenu true None in
  do modify (fun s => set_windowMenus (Map_set windowId built (windowMenus s)) s) then
  let* stored := gets (fun s => Map_get windowId (windowMenus s)) in
  match stored with
  | None => throw (TypeError "Cannot destructure property 'menu' of undefined")
  | Some (mkWindowMenu shortcutMap menu) =>
      let* currentMenu := Menu_getApplicationMenu in
      do updateMenuItemSafe currentMenu menu sourceCodeModeMenuItem false then
      do updateMenuItemSafe currentMenu menu typewriterModeMenuItem false then
      let* sourceItem := getMenuItemById menu sourceCodeModeMenuItem in
      let* isSourceMode := read_checked sourceItem in
      do (if isSourceMode
          then
            let* typewriterModeItem := getMenuItemById menu typewriterModeMenuItem in
            let* focusModeItem := getMenuItemById menu focusModeMenuItem in
            do write_enabled typewriterModeItem false then
            write_enabled focusModeItem false
          else ret tt) then
      registerKeyHandlers windowId shortcutMap
  end.

Definition removeWindowMenu (windowId : Z) : Op unit :=
  let* activeWindowId := gets activeWindowId in
  do modify (fun s => set_windowMenus (Map_delete windowId (windowMenus s)) s) then
  if activeWindowId =? windowId then modify (set_activeWindowId (-1)) else ret tt.

(** The destructuring [const { menu } = this.windowMenus.get(windowId)]
    throws when the map has no entry: [get] then returns undefined. *)
Definition getWindowMenuById (windowId : Z) : Op ref :=
  let* stored := gets (fun s => Map_get windowId (windowMenus s)) in
  match stored with
  | None => throw (TypeError "Cannot destructure property 'menu' of undefined")
  | Some value =>
      match menu value with
      | None =>
          do log_error (LogMsg ("getWindowMenuById: Cannot find window menu for id "
                                ++ pretty windowId ++ ".")) then
          throw (Error ("Cannot find window menu for id " ++ pretty windowId ++ "."))
      | Some m => ret m
      end
  end.

Definition setActiveWindow (windowId : Z) : Op unit :=
  let* activeWindowId := gets activeWindowId in
  if negb (activeWindowId =? windowId)
  then
    let* m := getWindowMenuById windowId in
    do Menu_setApplicationMenu (Some m) then
    modify (set_activeWindowId windowId)
  else ret tt.

(** *** Indicators of the visible menu *)

Definition alwaysOnTopMenuItem : string := "alwaysOnTopMenuItem".
Definition crlfLineEndingMenuEntry : string := "crlfLineEndingMenuEntry".
Definition lfLineEndingMenuEntry : string := "lfLineEndingMenuEntry".
Definition autoSaveMenuItem : string := "autoSaveMenuItem".

(** The exported function [getMenuItemById] of the module (line 246): the
    item of the visible menu. [getMenuItemById] above is the method of the
    same name that Electron's [Menu] objects have. *)
Definition exported_getMenuItemById (menuId : string) : Op (option (ref * string)) :=
  let* menus := Menu_getApplicationMenu in
  getMenuItemById menus menuId.

(** The exported function [updateLineEndingMenu] (line 251). Both items
    are looked up before the test; only the one assigned to is
    dereferenced. *)
Definition exported_updateLineEndingMenu (lineEnding : string) : Op unit :=
  let* menus := Menu_getApplicationMenu in
  let* crlfMenu := getMenuItemById menus crlfLineEndingMenuEntry in
  let* lfMenu := getMenuItemById menus lfLineEndingMenuEntry in
  if String.eqb lineEnding "crlf"
  then write_checked crlfMenu true
  else write_checked lfMenu true.

Definition updateAutoSaveMenu (autoSave : bool) : Op unit :=
  let* menu := exported_getMenuItemById autoSaveMenuItem in
  write_checked menu autoSave.

(** The method [updateLineEndingMenu] of the class (line 196). *)
Definition updateLineEndingMenu (lineEnding : string) : Op unit :=
  exported_updateLineEndingMenu lineEnding.

Definition updateAlwaysOnTopMenu (flag : bool) : Op unit :=
  let* menus := Menu_getApplicationMenu in
  let* menu := getMenuItemById menus alwaysOnTopMenuItem in
  write_checked menu flag.

(** ** What the statements speak of

    The lists, menus and states that the methods compute, written as
    functions and predicates of their own so that the theorems can name
    them. *)

(** What a load computes from the file system [fs]: the list, and the
    exception the [catch] block saw, if any. *)
Definition load (fs : gmap string node) : list string * option exn :=
  match fs !! RECENTS_PATH with
  | Some (File text) =>
      match JSON_parse text with
      | None => ([], Some (SyntaxError "Unexpected token in JSON"))
      | Some (JArray items) => (truncate (omap (keep_entry fs) items), None)
      | Some _ => ([], Some (TypeError "filter is not a function"))
      end
  | _ => ([], None)
  end.

Definition logged_load (s : St) : St :=
  match (load (files s)).2 with
  | Some e => set_errorLog (errorLog s ++ [LogExn e]) s
  | None => s
  end.

(** The persisted text is malformed: [JSON.parse] rejects it, or what it
    denotes is not an array. *)
Definition malformed (text : string) : Prop :=
  match JSON_parse text with
  | Some (JArray _) => False
  | _ => True
  end.

(** The array before the final truncation. *)
Definition promoted (l : list string) (x : string) : list string :=
  let index := indexOf l x in
  if index =? 0 then l
  else if 0 <? index then x :: splice l (Z.to_nat index) 1
  else x :: l.

(** [l] without the first occurrence of [x]. *)
Fixpoint remove_first (x : string) (l : list string) : list string :=
  match l with
  | [] => []
  | y :: t => if String.eqb y x then t else y :: remove_first x t
  end.

(** The array after a run of adds, each starting from the array the
    previous one left. *)
Definition add_list (l : list string) (ps : list string) : list string :=
  foldl (fun acc p => (moveToFront acc p).1) l ps.

(** The five items [updateAppMenu] copies. *)
Definition toggles : list string :=
  [sourceCodeModeMenuItem; typewriterModeMenuItem; focusModeMenuItem;
   sideBarMenuItem; tabBarMenuItem].

Definition has_toggles (m : Menu) : Prop :=
  forall id, id ∈ toggles -> is_Some (m !! id).

(** Membership of a given item in [toggles], by evaluation. *)
Ltac in_toggles := apply (bool_decide_unpack _); vm_compute; exact I.

(** The menu a build produces in state [s] for the list [l]. *)
Definition built (l : list string) (s : St) : Menu :=
  buildFromTemplate (configureMenu (_keybindings s) (_preferences s) l).

(** The stored snapshots are well formed: the keys of the map are distinct,
    and every entry refers to a menu object that has the five items. *)
Definition wf (s : St) : Prop :=
  NoDup (windowMenus s).*1 /\
  forall i key value, windowMenus s !! i = Some (key, value) ->
    exists o om, menu value = Some o /\ menus s !! o = Some om /\ has_toggles om.

(** [new] after [newItem.checked = oldItem.checked] for the item [id]. *)
Definition copy_checked (old new : Menu) (id : string) : Menu :=
  match old !! id with
  | Some it => alter (set_checked (checked it)) id new
  | None => new
  end.

Definition rebuilt_menu (old new : Menu) : Menu :=
  foldl (copy_checked old) new toggles.

(** Everything but the window menus, the menu objects and the visible
    menu is the same in [s] and [s']. *)
Definition same_frame (s s' : St) : Prop :=
  _preferences s' = _preferences s /\ _keybindings s' = _keybindings s /\
  activeWindowId s' = activeWindowId s /\
  nativeRecentDocuments s' = nativeRecentDocuments s /\
  keyHandlers s' = keyHandlers s /\ files s' = files s /\
  writes s' = writes s /\ errorLog s' = errorLog s.

(** The state after the callback of [updateAppMenu] ran on entry [i]. *)
Definition rebuild_step (l : list string) (i : nat) (key : Z)
    (value : WindowMenu ShortcutMap) (om : Menu) (s : St) : St :=
  let n := length (menus s) in
  let s1 := set_menus (menus s ++ [rebuilt_menu om (built l s)]) s in
  let s2 := set_windowMenus
              (<[i := (key, mkWindowMenu (shortcutMap value) (Some n))]> (windowMenus s)) s1 in
  if activeWindowId s =? key then set_applicationMenu (Some n) s2 else s2.

(** What [updateAppMenu] has done to the entries from position [i] on
    when it went from [s] to [s']. *)
Definition rebuilt_from (l : list string) (i : nat) (s s' : St) : Prop :=
  same_frame s s' /\
  (windowMenus s').*1 = (windowMenus s).*1 /\
  (forall j, (j < i)%nat -> windowMenus s' !! j = windowMenus s !! j) /\
  (forall r m, menus s !! r = Some m -> menus s' !! r = Some m) /\
  (forall j key value o om, (i <= j)%nat ->
      windowMenus s !! j = Some (key, value) -> menu value = Some o ->
      menus s !! o = Some om ->
      exists n,
        windowMenus s' !! j = Some (key, mkWindowMenu (shortcutMap value) (Some n)) /\
        n = (length (menus s) + (j - i))%nat /\
        menus s' !! n = Some (rebuilt_menu om (built l s)) /\
        (activeWindowId s = key -> applicationMenu s' = Some n)) /\
  ((forall j key value, (i <= j)%nat -> windowMenus s !! j = Some (key, value) ->
      key <> activeWindowId s) ->
   applicationMenu s' = applicationMenu s).

(** The file system after [ensureDirSync(userDataPath)]. *)
Definition ensured (fs : gmap string node) : gmap string node :=
  match fs !! userDataPath with
  | None => <[userDataPath := Dir]> fs
  | Some _ => fs
  end.

(** The state after [ensureDirSync] and the write of the list [l]. *)
Definition persist (l : list string) (s : St) : St :=
  set_writes (writes s ++ [(RECENTS_PATH, JSON_stringify l)])
    (set_files (<[RECENTS_PATH := File (JSON_stringify l)]> (ensured (files s))) s).

(** The state in which [addRecentlyUsedDocument] calls [updateAppMenu]. *)
Definition pre_add (filePath : string) (s : St) : St :=
  logged_load
    (if isOsxOrWindows
     then set_nativeRecentDocuments (nativeRecentDocuments s ++ [filePath]) s
     else s).

Definition pre_clear (s : St) : St :=
  if isOsxOrWindows then set_nativeRecentDocuments [] s else s.

(** A run of adds, one IPC message after the other. *)
Fixpoint add_all (ps : list string) : Op unit :=
  match ps with
  | [] => ret tt
  | p :: ps => do addRecentlyUsedDocument p then add_all ps
  end.

(** The [checked] flag that [updateMenuItemSafe] reads from the menu
    [cur] for the item [id], with [false] as the default. *)
Definition checked_in (ms : list Menu) (cur : option ref) (id : string) : bool :=
  match cur with
  | Some c =>
      match ms !! c with
      | Some mn => match mn !! id with Some it => checked it | None => false end
      | None => false
      end
  | None => false
  end.

(** The state of a toggle in the visible menu of [s]. *)
Definition carried (s : St) (id : string) : bool :=
  checked_in (menus s) (applicationMenu s) id.

(** The visible menu, when there is one, is a menu object of the store. *)
Definition visible_ok (s : St) : Prop :=
  forall c, applicationMenu s = Some c -> (c < length (menus s))%nat.

(** The new tree of [addEditorMenu], from the tree [b] just built. *)
Definition editor_menu (isSourceMode typewriterMode : bool) (b : Menu) : Menu :=
  let b := alter (set_checked isSourceMode) sourceCodeModeMenuItem b in
  let b := alter (set_checked typewriterMode) typewriterModeMenuItem b in
  if isSourceMode
  then alter (set_enabled false) focusModeMenuItem
         (alter (set_enabled false) typewriterModeMenuItem b)
  else b.

Definition after_addEditorMenu (windowId : Z) (s : St) : St :=
  let l := (load (files s)).1 in
  let menuTemplate := configureMenu (_keybindings s) (_preferences s) l in
  let n := length (menus s) in
  let tree := editor_menu (carried s sourceCodeModeMenuItem)
                (carried s typewriterModeMenuItem) (buildFromTemplate menuTemplate) in
  set_keyHandlers (keyHandlers s ++ [(windowId, Some (parseMenu menuTemplate))])
    (set_windowMenus
       (Map_set windowId (mkWindowMenu (Some (parseMenu menuTemplate)) (Some n))
          (windowMenus s))
       (set_menus (menus s ++ [tree]) (logged_load s))).

(** [setter] assigns its argument to the [checked] flag of the item [id]
    of the visible menu and changes nothing else; it throws, changing
    nothing, when there is no visible menu or the menu has no such item. *)
Definition sets_indicator (setter : bool -> Op unit) (id : string) : Prop :=
  forall (s : St) (v : bool),
    match applicationMenu s with
    | None =>
        setter v s = (Throw (TypeError "Cannot read property 'getMenuItemById' of null"), s)
    | Some c =>
        match item_at s c id with
        | None => setter v s = (Throw (TypeError "Cannot set property 'checked' of null"), s)
        | Some it =>
            exists s',
              setter v s = (Ok tt, s') /\
              item_at s' c id = Some (set_checked v it) /\
              (forall r id', (r, id') <> (c, id) -> item_at s' r id' = item_at s r id') /\
              windowMenus s' = windowMenus s /\ applicationMenu s' = applicationMenu s /\
              same_frame s s'
        end
    end.


(** The items the setters write. *)
Definition indicators : list string :=
  [alwaysOnTopMenuItem; autoSaveMenuItem; crlfLineEndingMenuEntry; lfLineEndingMenuEntry].

(** The state [removeWindowMenu] leaves. *)
Definition after_removeWindowMenu (windowId : Z) (s : St) : St :=
  let s1 := set_windowMenus (Map_delete windowId (windowMenus s)) s in
  if activeWindowId s =? windowId then set_activeWindowId (-1) s1 else s1.

Definition inv (s : St) : Prop := wf s /\ visible_ok s.

(** No menu object is the snapshot of two windows. *)
Definition distinct_menus (s : St) : Prop :=
  NoDup ((fun e => menu e.2) <$> windowMenus s).

(** The states the module can be in: it is constructed in a world whose
    visible menu, if any, is a menu object, and then receives calls of its
    methods, whatever their outcome, and clicks on check boxes. *)
Inductive reachable : St -> Prop :=
| reach_constructor preferences keybindings w :
    visible_ok w -> reachable (constructor preferences keybindings w)
| reach_addRecentlyUsedDocument p s r s' :
    reachable s -> addRecentlyUsedDocument p s = (r, s') -> reachable s'
| reach_clearRecentlyUsedDocuments s r s' :
    reachable s -> clearRecentlyUsedDocuments s = (r, s') -> reachable s'
| reach_addEditorMenu windowId s r s' :
    reachable s -> addEditorMenu windowId s = (r, s') -> reachable s'
| reach_removeWindowMenu windowId s r s' :
    reachable s -> removeWindowMenu windowId s = (r, s') -> reachable s'
| reach_setActiveWindow windowId s r s' :
    reachable s -> setActiveWindow windowId s = (r, s') -> reachable s'
| reach_updateAppMenu l s r s' :
    reachable s -> updateAppMenu l s = (r, s') -> reachable s'
| reach_updateLineEndingMenu lineEnding s r s' :
    reachable s -> updateLineEndingMenu lineEnding s = (r, s') -> reachable s'
| reach_updateAlwaysOnTopMenu flag s r s' :
    reachable s -> updateAlwaysOnTopMenu flag s = (r, s') -> reachable s'
| reach_updateAutoSaveMenu autoSave s r s' :
    reachable s -> updateAutoSaveMenu autoSave s = (r, s') -> reachable s'
| reach_click f m id s :
    reachable s -> reachable (alter_item f m id s).

(** ** Loading the list *)

Lemma getRecentlyUsedDocuments_eq (s : St) :
  getRecentlyUsedDocuments s = (Ok (load (files s)).1, logged_load s).
Proof.
  unfold getRecentlyUsedDocuments, logged_load, load, bind, isFile, gets, is_file.
  destruct (files s !! RECENTS_PATH) as [[text|]|] eqn:Hf; cbn; try reflexivity.
  unfold try_catch, bind, readFileSync, parse. rewrite Hf.
  destruct (JSON_parse text) as [[| | | |items|]|]; reflexivity.
Qed.

Lemma splice_tail {A} (l : list A) (n : nat) : splice l n (length l - n) = take n l.
Proof.
  unfold splice. rewrite drop_ge, app_nil_r; [reflexivity | lia].
Qed.

Lemma truncate_take (l : list string) :
  truncate l = take MAX_RECENTLY_USED_DOCUMENTS l.
Proof.
  unfold truncate. destruct (Nat.ltb_spec MAX_RECENTLY_USED_DOCUMENTS (length l)).
  - apply splice_tail.
  - symmetry. apply take_ge. lia.
Qed.

Lemma truncate_length (l : list string) :
  (length (truncate l) <= MAX_RECENTLY_USED_DOCUMENTS)%nat.
Proof. rewrite truncate_take, length_take. lia. Qed.

Lemma load_length (fs : gmap string node) :
  (length (load fs).1 <= MAX_RECENTLY_USED_DOCUMENTS)%nat.
Proof.
  unfold load.
  destruct (fs !! RECENTS_PATH) as [[text|]|]; cbn; try lia.
  destruct (JSON_parse text) as [[| | | |items|]|]; cbn; try lia.
  apply truncate_length.
Qed.

Lemma keep_entry_Some (fs : gmap string node) (f : json) (p : string) :
  keep_entry fs f = Some p ->
  f = JString p /\ p <> "" /\ is_file fs p || is_directory fs p = true.
Proof.
  destruct f as [| | |q| |]; cbn; try discriminate.
  destruct (String.eqb_spec q ""); cbn; [discriminate|].
  destruct (is_file fs q || is_directory fs q) eqn:E; [|discriminate].
  intros [= <-]. auto.
Qed.

Lemma load_elem (fs : gmap string node) (p : string) :
  p ∈ (load fs).1 ->
  p <> "" /\ is_file fs p || is_directory fs p = true.
Proof.
  unfold load.
  destruct (fs !! RECENTS_PATH) as [[text|]|]; cbn; try (intros H; inversion H; fail).
  destruct (JSON_parse text) as [[| | | |items|]|]; cbn; try (intros H; inversion H; fail).
  rewrite truncate_take. intros H%elem_of_take.
  destruct H as (i & H & _). apply list_elem_of_lookup_2 in H.
  apply list_elem_of_omap in H as (f & _ & Hk).
  apply keep_entry_Some in Hk as (_ & Hne & Hex). split; assumption.
Qed.

(** C4: whatever the persisted file holds, the load returns normally and
    every returned entry names a file or a directory that exists now; a path
    that is gone from the file system is not returned, and when the file
    holds a JSON array the stale entries are dropped without any log entry
    or other change of state. *)
Theorem getRecentlyUsedDocuments_only_existing (s : St) :
  exists l s',
    getRecentlyUsedDocuments s = (Ok l, s') /\
    files s' = files s /\
    Forall (fun p => is_file (files s) p || is_directory (files s) p = true) l /\
    (forall p, files s !! p = None -> p ∉ l) /\
    (forall text items,
        files s !! RECENTS_PATH = Some (File text) ->
        JSON_parse text = Some (JArray items) ->
        s' = s /\ l = truncate (omap (keep_entry (files s)) items)).
Proof.
  exists (load (files s)).1, (logged_load s).
  split; [apply getRecentlyUsedDocuments_eq|].
  split; [unfold logged_load; destruct (load (files s)).2; reflexivity|].
  split; [apply Forall_forall; intros p Hp; apply load_elem in Hp; apply Hp|].
  split.
  - intros p Hnone Hp. apply load_elem in Hp as [_ Hp].
    unfold is_file, is_directory in Hp. rewrite Hnone in Hp. discriminate.
  - intros text items Hf Hj. unfold logged_load, load. rewrite Hf, Hj. auto.
Qed.

(** C5: when the persisted file exists and its content is malformed, the
    load returns the empty list as a normal result (no exception reaches the
    caller) and its only effect is one more entry in the error log, the
    exception that was caught. *)
Theorem getRecentlyUsedDocuments_malformed (s : St) (text : string) :
  files s !! RECENTS_PATH = Some (File text) ->
  malformed text ->
  exists err,
    getRecentlyUsedDocuments s
    = (Ok [], set_errorLog (errorLog s ++ [LogExn err]) s).
Proof.
  intros Hf Hm. rewrite getRecentlyUsedDocuments_eq.
  unfold logged_load, load, malformed in *. rewrite Hf.
  destruct (JSON_parse text) as [[| | | |items|]|]; try contradiction; eauto.
Qed.

(** ** The array of [addRecentlyUsedDocument] *)

Lemma indexOf_from_notin (l : list string) (x : string) (i : Z) :
  x ∉ l -> indexOf_from l x i = -1.
Proof.
  revert i. induction l as [|y t IH]; intros i Hx; cbn; [reflexivity|].
  apply not_elem_of_cons in Hx as [Hne Ht].
  destruct (String.eqb_spec y x); [congruence | auto].
Qed.

Lemma indexOf_from_app (l1 l2 : list string) (x : string) (i : Z) :
  x ∉ l1 -> indexOf_from (l1 ++ x :: l2) x i = i + Z.of_nat (length l1).
Proof.
  revert i. induction l1 as [|y t IH]; intros i Hx; cbn [app indexOf_from length].
  - rewrite String.eqb_refl. lia.
  - apply not_elem_of_cons in Hx as [Hne Ht].
    destruct (String.eqb_spec y x); [congruence|].
    rewrite IH by assumption. lia.
Qed.

Lemma indexOf_notin (l : list string) (x : string) : x ∉ l -> indexOf l x = -1.
Proof. apply indexOf_from_notin. Qed.

Lemma indexOf_app (l1 l2 : list string) (x : string) :
  x ∉ l1 -> indexOf (l1 ++ x :: l2) x = Z.of_nat (length l1).
Proof. intros H. unfold indexOf. rewrite indexOf_from_app by assumption. lia. Qed.

(** [indexOf] answers [-1] exactly for an absent string, and otherwise the
    position of the first occurrence. *)
Lemma indexOf_cases (l : list string) (x : string) :
  ((x ∉ l) /\ indexOf l x = -1) \/
  (exists l1 l2, l = l1 ++ x :: l2 /\ (x ∉ l1) /\ indexOf l x = Z.of_nat (length l1)).
Proof.
  destruct (decide (x ∈ l)) as [Hin|Hnin].
  - right. apply list_elem_of_split_l in Hin as (l1 & l2 & -> & Hl1).
    exists l1, l2. auto using indexOf_app.
  - left. auto using indexOf_notin.
Qed.

Lemma indexOf_lookup (l : list string) (x : string) (k : nat) :
  indexOf l x = Z.of_nat k -> l !! k = Some x.
Proof.
  destruct (indexOf_cases l x) as [[_ E]|(l1 & l2 & -> & _ & E)]; rewrite E.
  - lia.
  - intros Hk. assert (k = length l1) as -> by lia.
    rewrite lookup_app_r, Nat.sub_diag by lia. reflexivity.
Qed.

Lemma moveToFront_promoted (l : list string) (x : string) :
  moveToFront l x
  = (truncate (promoted l x),
     negb (indexOf l x =? 0)
     || (MAX_RECENTLY_USED_DOCUMENTS <? length (promoted l x))%nat).
Proof.
  unfold moveToFront, promoted, truncate.
  destruct (indexOf l x =? 0) eqn:E0; cbn [negb].
  - assert ((0 <? indexOf l x) = false) as -> by lia.
    destruct (_ <? _)%nat; reflexivity.
  - destruct (0 <? indexOf l x);
      destruct (_ <? _)%nat; reflexivity.
Qed.

Lemma promoted_front (t : list string) (x : string) : promoted (x :: t) x = x :: t.
Proof.
  unfold promoted. change (x :: t) with ([] ++ x :: t).
  rewrite indexOf_app by apply not_elem_of_nil. reflexivity.
Qed.

Lemma promoted_middle (l1 l2 : list string) (x : string) :
  x ∉ l1 -> l1 <> [] -> promoted (l1 ++ x :: l2) x = x :: l1 ++ l2.
Proof.
  intros Hx Hne. unfold promoted. rewrite indexOf_app by assumption.
  assert (0 < length l1)%nat by (destruct l1; [congruence | cbn; lia]).
  assert ((Z.of_nat (length l1) =? 0) = false) as -> by lia.
  assert ((0 <? Z.of_nat (length l1)) = true) as -> by lia.
  rewrite Nat2Z.id. unfold splice.
  rewrite take_app_length. rewrite Nat.add_1_r.
  change (l1 ++ x :: l2) with (l1 ++ [x] ++ l2).
  rewrite app_assoc, drop_app_length'; [reflexivity|].
  rewrite length_app. cbn. lia.
Qed.

Lemma promoted_absent (l : list string) (x : string) : x ∉ l -> promoted l x = x :: l.
Proof. intros Hx. unfold promoted. rewrite indexOf_notin by assumption. reflexivity. Qed.

Lemma promoted_length (l : list string) (x : string) :
  (length (promoted l x) <= S (length l))%nat.
Proof.
  destruct (indexOf_cases l x) as [[Hx _]|(l1 & l2 & -> & Hx & _)].
  - rewrite promoted_absent by assumption. cbn. lia.
  - destruct l1 as [|y l1].
    + cbn [app]. rewrite promoted_front. lia.
    + rewrite promoted_middle by (assumption || discriminate).
      cbn. rewrite !length_app. cbn. lia.
Qed.

(** After every add the array holds at most twelve entries. *)
Lemma moveToFront_length (l : list string) (x : string) :
  (length (moveToFront l x).1 <= MAX_RECENTLY_USED_DOCUMENTS)%nat.
Proof. rewrite moveToFront_promoted. apply truncate_length. Qed.

(** [needSave] is set exactly when the array that leaves the function
    differs from the one that entered it. *)
Lemma moveToFront_needSave (l : list string) (x : string) :
  (moveToFront l x).2 = true <-> (moveToFront l x).1 <> l.
Proof.
  rewrite moveToFront_promoted. cbn [fst snd]. rewrite truncate_take.
  destruct (indexOf_cases l x) as [[Hx E]|(l1 & l2 & -> & Hx & E)].
  - rewrite E, promoted_absent by assumption. cbn [negb orb Z.eqb].
    split; [intros _ | reflexivity].
    intros Heq. apply Hx. rewrite <- Heq.
    change (x ∈ x :: take 11 l). left.
  - destruct l1 as [|y l1].
    + cbn [app] in *. rewrite E, promoted_front.
      change (negb (Z.of_nat (length []) =? 0)) with false. cbn [orb].
      destruct (Nat.ltb_spec MAX_RECENTLY_USED_DOCUMENTS (length (x :: l2))) as [Hlt|Hge].
      * split; [intros _ | reflexivity]. intros Heq.
        apply (f_equal length) in Heq. rewrite length_take in Heq.
        unfold MAX_RECENTLY_USED_DOCUMENTS in *. lia.
      * rewrite take_ge by (unfold MAX_RECENTLY_USED_DOCUMENTS in *; lia).
        split; [discriminate | congruence].
    + rewrite E, promoted_middle by (assumption || discriminate).
      cbn [length]. assert ((Z.of_nat (S (length l1)) =? 0) = false) as ->
        by (apply Z.eqb_neq; lia).
      cbn [negb orb]. split; [intros _ | reflexivity].
      change (take MAX_RECENTLY_USED_DOCUMENTS (x :: (y :: l1) ++ l2))
        with (x :: take 11 ((y :: l1) ++ l2)).
      cbn [app]. intros [= Heq _]. apply Hx. subst. left.
Qed.

Lemma remove_first_notin (x : string) (l : list string) :
  x ∉ l -> remove_first x l = l.
Proof.
  induction l as [|y t IH]; intros Hx; cbn; [reflexivity|].
  apply not_elem_of_cons in Hx as [Hne Ht].
  destruct (String.eqb_spec y x); [congruence|]. rewrite IH by assumption. reflexivity.
Qed.

Lemma remove_first_app (x : string) (l1 l2 : list string) :
  x ∉ l1 -> remove_first x (l1 ++ l2) = l1 ++ remove_first x l2.
Proof.
  induction l1 as [|y t IH]; intros Hx; cbn; [reflexivity|].
  apply not_elem_of_cons in Hx as [Hne Ht].
  destruct (String.eqb_spec y x); [congruence|]. rewrite IH by assumption. reflexivity.
Qed.

Lemma remove_first_elem (x q : string) (l : list string) :
  q ∈ remove_first x l -> q ∈ l.
Proof.
  induction l as [|y t IH]; cbn; [auto|].
  destruct (String.eqb y x).
  - intros H. right. assumption.
  - intros [->|H]%elem_of_cons; [left | right; auto].
Qed.

Lemma promoted_remove_first (l : list string) (x : string) :
  promoted l x = x :: remove_first x l.
Proof.
  destruct (indexOf_cases l x) as [[Hx _]|(l1 & l2 & -> & Hx & _)].
  - rewrite promoted_absent, remove_first_notin by assumption. reflexivity.
  - rewrite remove_first_app by assumption. cbn [remove_first].
    rewrite String.eqb_refl. destruct l1 as [|y l1].
    + apply promoted_front.
    + apply promoted_middle; [assumption | discriminate].
Qed.

Lemma moveToFront_fst (l : list string) (x : string) :
  (moveToFront l x).1 = x :: take 11 (remove_first x l).
Proof.
  rewrite moveToFront_promoted. cbn [fst].
  rewrite truncate_take, promoted_remove_first. reflexivity.
Qed.

Lemma moveToFront_elem (l : list string) (x q : string) :
  q ∈ (moveToFront l x).1 -> q = x \/ q ∈ l.
Proof.
  rewrite moveToFront_fst. intros [->|H]%elem_of_cons; [auto|].
  right. apply elem_of_take in H as (i & H & _).
  apply list_elem_of_lookup_2 in H. eapply remove_first_elem. eassumption.
Qed.

Lemma add_list_prefix (ps : list string) (l0 : list string) :
  NoDup ps ->
  exists R, add_list l0 ps = take 12 (reverse ps) ++ R.
Proof.
  induction ps as [|p ps IH] using rev_ind; intros Hnd.
  - exists l0. reflexivity.
  - apply NoDup_app in Hnd as (Hnd & Hp & _).
    destruct (IH Hnd) as [R HR].
    assert (Hnotin : p ∉ take 12 (reverse ps)).
    { intros (i & Hi & _)%elem_of_take. apply list_elem_of_lookup_2 in Hi.
      apply (proj1 (elem_of_reverse _ _)) in Hi. apply (Hp p Hi). left. }
    unfold add_list in *. rewrite foldl_snoc, HR, moveToFront_fst.
    rewrite remove_first_app by assumption.
    rewrite reverse_snoc. change (take 12 (p :: reverse ps)) with (p :: take 11 (reverse ps)).
    rewrite take_app, take_take. change (11 `min` 12)%nat with 11%nat.
    eexists. cbn [app]. reflexivity.
Qed.

(** Twelve or more distinct paths push everything else out: the array is
    the last twelve of them, the most recent first. *)
Lemma add_list_full (ps : list string) (l0 : list string) :
  NoDup ps -> (12 <= length ps)%nat ->
  add_list l0 ps = take 12 (reverse ps).
Proof.
  intros Hnd Hlen. destruct (add_list_prefix ps l0 Hnd) as [R HR].
  assert (Hle : (length (add_list l0 ps) <= 12)%nat).
  { destruct ps as [|p ps _] using rev_ind; [cbn in Hlen; lia|].
    unfold add_list. rewrite foldl_snoc. apply moveToFront_length. }
  rewrite HR in *. rewrite length_app, length_take, length_reverse in Hle.
  destruct R; [apply app_nil_r | cbn [length] in Hle; lia].
Qed.

(** The three cases of an add on an array that a load returned (at most
    twelve entries). *)
Lemma moveToFront_cases (l : list string) (x : string) :
  (length l <= MAX_RECENTLY_USED_DOCUMENTS)%nat ->
  (indexOf l x = 0 -> moveToFront l x = (l, false)) /\
  (forall k, (0 < k)%nat -> indexOf l x = Z.of_nat k ->
     moveToFront l x = (x :: delete k l, true)) /\
  (indexOf l x = -1 -> moveToFront l x = (take 12 (x :: l), true)).
Proof.
  intros Hlen. rewrite moveToFront_promoted, truncate_take.
  destruct (indexOf_cases l x) as [[Hx E]|(l1 & l2 & -> & Hx & E)]; rewrite E.
  - split; [lia|]. split; [lia|]. intros _.
    rewrite promoted_absent by assumption. reflexivity.
  - split; [|split; [|lia]].
    + intros H0. destruct l1; [|cbn in H0; lia]. cbn [app] in *.
      rewrite promoted_front, take_ge by assumption.
      cbn [length Z.of_nat Z.eqb negb orb]. f_equal.
      apply Nat.ltb_ge. assumption.
    + intros k Hk Ek. assert (k = length l1) as -> by lia.
      rewrite delete_middle.
      rewrite promoted_middle by (assumption || (destruct l1; [cbn in Hk; lia|discriminate])).
      assert (Hl : (length (x :: l1 ++ l2) <= MAX_RECENTLY_USED_DOCUMENTS)%nat).
      { rewrite length_app in Hlen. cbn [length] in *. rewrite length_app. lia. }
      rewrite take_ge by assumption. f_equal.
      assert ((Z.of_nat (length l1) =? 0) = false) as -> by (apply Z.eqb_neq; lia).
      reflexivity.
Qed.

(** ** Rebuilding the window menus *)

Lemma bind_Ok {A B} (c : Op A) (k : A -> Op B) (s s' : St) (a : A) :
  c s = (Ok a, s') -> bind c k s = k a s'.
Proof. intros H. unfold bind. rewrite H. reflexivity. Qed.

Lemma copy_checked_is_Some (old new : Menu) (id id' : string) :
  is_Some (copy_checked old new id !! id') <-> is_Some (new !! id').
Proof.
  unfold copy_checked. destruct (old !! id); [|reflexivity].
  apply lookup_alter_is_Some.
Qed.

Lemma rebuilt_menu_is_Some (old new : Menu) (id : string) :
  is_Some (rebuilt_menu old new !! id) <-> is_Some (new !! id).
Proof.
  unfold rebuilt_menu. generalize toggles. intros ids. revert new.
  induction ids as [|x ids IH]; intros new; cbn [foldl]; [reflexivity|].
  rewrite IH. apply copy_checked_is_Some.
Qed.

Lemma rebuilt_menu_has_toggles (old new : Menu) :
  has_toggles new -> has_toggles (rebuilt_menu old new).
Proof. intros H id Hid. apply rebuilt_menu_is_Some. auto. Qed.

(** One [updateMenuItem] from the stored menu [o] into the menu that was
    allocated last. *)
Lemma updateMenuItem_last (s : St) (b om : Menu) (o : nat) (id : string) :
  menus s !! o = Some om -> is_Some (om !! id) -> is_Some (b !! id) ->
  updateMenuItem (Some o) (Some (length (menus s))) id (set_menus (menus s ++ [b]) s)
  = (Ok tt, set_menus (menus s ++ [copy_checked om b id]) s).
Proof.
  intros Ho [io Hio] [ib Hib].
  assert (Hlt : (o < length (menus s))%nat) by (eapply lookup_lt_Some; eassumption).
  unfold updateMenuItem, bind, getMenuItemById, gets, read_checked, write_checked,
    modify, item_at, alter_item, copy_checked.
  cbn [menus set_menus].
  rewrite (lookup_app_l (menus s) [b] o Hlt), Ho, Hio.
  rewrite list_lookup_middle by reflexivity. rewrite Hib.
  unfold gets. cbn [menus set_menus].
  rewrite (lookup_app_l (menus s) [b] o Hlt), Ho, Hio.
  f_equal. unfold set_menus. cbn. f_equal.
  rewrite <- (Nat.add_0_r (length (menus s))), alter_app_r. reflexivity.
Qed.

Lemma rebuildWindowMenu_ok (l : list string) (i : nat) (key : Z)
    (value : WindowMenu ShortcutMap) (o : nat) (om : Menu) (s : St) :
  menu value = Some o -> menus s !! o = Some om -> has_toggles om ->
  has_toggles (built l s) ->
  rebuildWindowMenu l i value key s = (Ok tt, rebuild_step l i key value om s).
Proof.
  intros Hv Ho Hom Hb.
  assert (Hin : forall id, id ∈ toggles -> is_Some (om !! id)) by exact Hom.
  assert (Hbn : forall id b, is_Some (b !! id) -> forall id',
             is_Some (copy_checked om b id' !! id))
    by (intros; apply copy_checked_is_Some; assumption).
  unfold rebuildWindowMenu, buildDefaultMenu. rewrite Hv.
  unfold bind at 1. unfold bind at 1. cbn [ret].
  unfold bind at 1. cbn [gets]. unfold bind at 1. cbn [gets].
  unfold bind at 1. cbn [Menu_buildFromTemplate ret menu].
  fold (built l s).
  erewrite bind_Ok; cycle 1.
  { apply updateMenuItem_last; [eassumption | apply Hin | apply Hb];
      in_toggles. }
  erewrite bind_Ok; cycle 1.
  { apply updateMenuItem_last; [eassumption | apply Hin | apply Hbn, Hb];
      in_toggles. }
  erewrite bind_Ok; cycle 1.
  { apply updateMenuItem_last; [eassumption | apply Hin | apply Hbn, Hbn, Hb];
      in_toggles. }
  erewrite bind_Ok; cycle 1.
  { apply updateMenuItem_last; [eassumption | apply Hin | apply Hbn, Hbn, Hbn, Hb];
      in_toggles. }
  erewrite bind_Ok; cycle 1.
  { apply updateMenuItem_last;
      [eassumption | apply Hin | apply Hbn, Hbn, Hbn, Hbn, Hb];
      in_toggles. }
  unfold bind, modify, gets, Menu_setApplicationMenu, rebuild_step, rebuilt_menu.
  cbn [activeWindowId set_windowMenus set_menus foldl toggles].
  destruct (activeWindowId s =? key); reflexivity.
Qed.

Lemma rebuild_step_frame l i key value om (s : St) :
  same_frame s (rebuild_step l i key value om s).
Proof.
  unfold rebuild_step, same_frame.
  destruct (activeWindowId s =? key); cbn; repeat split; reflexivity.
Qed.

Lemma rebuild_step_windowMenus l i key value om (s : St) :
  windowMenus (rebuild_step l i key value om s)
  = <[i := (key, mkWindowMenu (shortcutMap value) (Some (length (menus s))))]>
      (windowMenus s).
Proof. unfold rebuild_step. destruct (activeWindowId s =? key); reflexivity. Qed.

Lemma rebuild_step_menus l i key value om (s : St) :
  menus (rebuild_step l i key value om s)
  = menus s ++ [rebuilt_menu om (built l s)].
Proof. unfold rebuild_step. destruct (activeWindowId s =? key); reflexivity. Qed.

Lemma rebuild_step_applicationMenu l i key value om (s : St) :
  applicationMenu (rebuild_step l i key value om s)
  = if activeWindowId s =? key then Some (length (menus s)) else applicationMenu s.
Proof. unfold rebuild_step. destruct (activeWindowId s =? key); reflexivity. Qed.

Lemma same_frame_refl (s : St) : same_frame s s.
Proof. unfold same_frame. repeat split; reflexivity. Qed.

Lemma same_frame_trans (s1 s2 s3 : St) :
  same_frame s1 s2 -> same_frame s2 s3 -> same_frame s1 s3.
Proof.
  unfold same_frame. intros (?&?&?&?&?&?&?&?) (?&?&?&?&?&?&?&?).
  repeat split; congruence.
Qed.

Lemma same_frame_built l (s s' : St) : same_frame s s' -> built l s' = built l s.
Proof. intros (Hp & Hk & _). unfold built. rewrite Hp, Hk. reflexivity. Qed.

Section Host.

(** The templates of ../menu/templates declare the five toggle items. *)
Hypothesis template_ok :
  forall kb pf l, has_toggles (buildFromTemplate (configureMenu kb pf l)).

(** [JSON.parse] reads back what [JSON.stringify] wrote for an array of
    strings, and the empty array is written as the two brackets. *)
Hypothesis roundtrip :
  forall l, JSON_parse (JSON_stringify l) = Some (JArray (JString <$> l)).
Hypothesis stringify_nil : JSON_stringify [] = "[]".

Lemma rebuild_step_wf l i key value o om (s : St) :
  wf s -> windowMenus s !! i = Some (key, value) ->
  menu value = Some o -> menus s !! o = Some om ->
  wf (rebuild_step l i key value om s).
Proof using template_ok.
  intros [Hnd Hent] Hi Hv Ho. split.
  - rewrite rebuild_step_windowMenus, list_fmap_insert. cbn [fst].
    rewrite list_insert_id; [assumption|].
    rewrite list_lookup_fmap, Hi. reflexivity.
  - intros j key' value'. rewrite rebuild_step_windowMenus, rebuild_step_menus.
    destruct (decide (i = j)) as [<-|Hne].
    + rewrite list_lookup_insert_eq by (eapply lookup_lt_Some; eassumption).
      intros [= <- <-]. eexists _, _. cbn [menu]. split; [reflexivity|].
      split; [apply list_lookup_middle; reflexivity|].
      apply rebuilt_menu_has_toggles, template_ok.
    + rewrite list_lookup_insert_ne by assumption. intros Hj.
      destruct (Hent _ _ _ Hj) as (o' & om' & Hm & Ho' & Ht).
      exists o', om'. split; [assumption|]. split; [|assumption].
      apply lookup_app_l_Some. assumption.
Qed.

Lemma forEach_rebuild (l : list string) (n : nat) :
  forall (i : nat) (s : St),
    wf s -> (i + n = length (windowMenus s))%nat ->
    exists s',
      forEach_windowMenus (rebuildWindowMenu l) i n s = (Ok tt, s') /\
      rebuilt_from l i s s' /\ wf s'.
Proof using template_ok.
  induction n as [|n IH]; intros i s Hwf Hlen.
  - exists s. split; [reflexivity|]. split; [|assumption].
    split; [apply same_frame_refl|]. split; [reflexivity|].
    split; [reflexivity|]. split; [auto|]. split; [|reflexivity].
    intros j key value o om Hij Hj. apply lookup_lt_Some in Hj. lia.
  - destruct (windowMenus s !! i) as [[key value]|] eqn:Hi;
      [|apply lookup_ge_None in Hi; lia].
    pose proof Hwf as [Hnd Hent].
    destruct (Hent _ _ _ Hi) as (o & om & Hv & Ho & Hom).
    set (s1 := rebuild_step l i key value om s).
    assert (Hwf1 : wf s1) by (eapply rebuild_step_wf; eassumption).
    assert (Hlen1 : (S i + n = length (windowMenus s1))%nat).
    { unfold s1. rewrite rebuild_step_windowMenus, length_insert. lia. }
    destruct (IH (S i) s1 Hwf1 Hlen1) as (s' & Hrun & Hpost & Hwf').
    exists s'. split.
    { cbn [forEach_windowMenus]. unfold bind at 1, gets at 1. rewrite Hi.
      erewrite bind_Ok; [exact Hrun|].
      apply rebuildWindowMenu_ok with (o := o); auto. apply template_ok. }
    split; [|assumption].
    destruct Hpost as (Hfr & Hkeys & Hbefore & Hheap & Hafter & Happ).
    pose proof (rebuild_step_frame l i key value om s) as Hfr1. fold s1 in Hfr1.
    assert (Hwm1 : forall j, j <> i -> windowMenus s1 !! j = windowMenus s !! j).
    { intros j Hj. unfold s1. rewrite rebuild_step_windowMenus.
      apply list_lookup_insert_ne. congruence. }
    assert (Hheap1 : forall r m, menus s !! r = Some m -> menus s1 !! r = Some m).
    { intros r m Hr. unfold s1. rewrite rebuild_step_menus.
      apply lookup_app_l_Some. assumption. }
    assert (Hact1 : activeWindowId s1 = activeWindowId s) by apply Hfr1.
    assert (Hother : forall j key' value', (S i <= j)%nat ->
              windowMenus s1 !! j = Some (key', value') -> key' <> key).
    { intros j key' value' Hj Hj' ->. rewrite Hwm1 in Hj' by lia.
      assert (i = j); [|lia].
      eapply (NoDup_lookup _ _ _ key Hnd); rewrite list_lookup_fmap.
      - rewrite Hi. reflexivity.
      - rewrite Hj'. reflexivity. }
    split; [eapply same_frame_trans; eassumption|].
    split.
    { rewrite Hkeys. unfold s1.
      rewrite rebuild_step_windowMenus, list_fmap_insert. cbn [fst].
      apply list_insert_id. rewrite list_lookup_fmap, Hi. reflexivity. }
    split; [intros j Hj; rewrite Hbefore, Hwm1 by lia; reflexivity|].
    split; [auto|].
    split.
    + intros j key' value' o' om' Hij Hj Hv' Ho'.
      destruct (decide (j = i)) as [->|Hne].
      * rewrite Hi in Hj. injection Hj as <- <-.
        assert (o' = o) as -> by congruence.
        assert (om' = om) as -> by congruence.
        exists (length (menus s)). split.
        { rewrite Hbefore by lia. unfold s1.
          rewrite rebuild_step_windowMenus.
          apply list_lookup_insert_eq. eapply lookup_lt_Some; eassumption. }
        split; [lia|]. split.
        { apply Hheap. unfold s1. rewrite rebuild_step_menus.
          apply list_lookup_middle. reflexivity. }
        intros Hk. rewrite Happ.
        { unfold s1. rewrite rebuild_step_applicationMenu.
          assert ((activeWindowId s =? key) = true) as -> by lia. reflexivity. }
        intros j key' value' Hj Hj'. rewrite Hact1, Hk. eapply Hother; eassumption.
      * rewrite <- Hwm1 in Hj by assumption.
        destruct (Hafter j key' value' o' om') as (n' & Hw & Hn & Hm & Ha);
          [lia | assumption | assumption | auto |].
        exists n'. split; [assumption|]. split.
        { unfold s1 in Hn. rewrite rebuild_step_menus, length_app in Hn. cbn in Hn. lia. }
        split; [rewrite <- (same_frame_built l s s1) by assumption; assumption|].
        rewrite <- Hact1. assumption.
    + intros Hnone. rewrite Happ.
      * unfold s1. rewrite rebuild_step_applicationMenu.
        assert ((activeWindowId s =? key) = false) as ->; [|reflexivity].
        apply Z.eqb_neq. intros Heq. apply (Hnone i key value); [lia|assumption|auto].
      * intros j key' value' Hj Hj'. rewrite Hact1.
        rewrite Hwm1 in Hj' by lia. apply (Hnone j key' value'); [lia|assumption].
Qed.

Lemma wf_no_windows (s : St) : windowMenus s = [] -> wf s.
Proof.
  intros H. unfold wf. rewrite H. split; [constructor|].
  intros i key value Hi. destruct i; discriminate.
Qed.

Lemma wf_single (s : St) (key : Z) (sm : option ShortcutMap) (o : nat) (om : Menu) :
  windowMenus s = [(key, mkWindowMenu sm (Some o))] ->
  menus s !! o = Some om -> has_toggles om -> wf s.
Proof.
  intros H Ho Hom. unfold wf. rewrite H. split.
  - cbn. apply NoDup_singleton.
  - intros [|i] key' value Hi; [|destruct i; discriminate].
    injection Hi as <- <-. exists o, om. auto.
Qed.

(** [wf] reads the window menus and the menu objects only. *)
Lemma wf_ext (s s' : St) :
  windowMenus s' = windowMenus s -> menus s' = menus s -> wf s -> wf s'.
Proof. unfold wf. intros -> ->. auto. Qed.

Lemma logged_load_frame (s : St) :
  windowMenus (logged_load s) = windowMenus s /\ menus (logged_load s) = menus s /\
  applicationMenu (logged_load s) = applicationMenu s /\
  activeWindowId (logged_load s) = activeWindowId s /\
  _preferences (logged_load s) = _preferences s /\
  _keybindings (logged_load s) = _keybindings s /\
  files (logged_load s) = files s /\ writes (logged_load s) = writes s.
Proof. unfold logged_load. destruct (load (files s)).2; cbn; repeat split. Qed.

Lemma updateAppMenu_Some (l : list string) (s : St) :
  wf s ->
  exists s', updateAppMenu (Some l) s = (Ok tt, s') /\ rebuilt_from l 0 s s' /\ wf s'.
Proof using template_ok.
  intros Hwf.
  destruct (forEach_rebuild l (length (windowMenus s)) 0 s Hwf eq_refl)
    as (s' & Hrun & Hpost).
  exists s'. split; [|assumption]. exact Hrun.
Qed.

(** Without an argument [updateAppMenu] loads the list first. *)
Lemma updateAppMenu_None (s : St) :
  wf s ->
  exists s', updateAppMenu None s = (Ok tt, s') /\
             rebuilt_from (load (files s)).1 0 (logged_load s) s' /\ wf s'.
Proof using template_ok.
  intros Hwf. destruct (logged_load_frame s) as (Hw & Hm & _).
  assert (Hwf0 : wf (logged_load s)) by (eapply wf_ext; eassumption).
  destruct (updateAppMenu_Some (load (files s)).1 _ Hwf0) as (s' & Hrun & Hpost).
  exists s'. split; [|assumption].
  unfold updateAppMenu in *. unfold bind at 1. rewrite getRecentlyUsedDocuments_eq.
  exact Hrun.
Qed.

(** ** Adding and clearing *)

Lemma persist_run (l : list string) (s : St) :
  (do ensureDirSync userDataPath then
   writeFileSync RECENTS_PATH (JSON_stringify l)) s = (Ok tt, persist l s).
Proof.
  unfold bind, ensureDirSync, writeFileSync, modify, persist, ensured.
  destruct (files s !! userDataPath); reflexivity.
Qed.

Lemma isOsx_isOsxOrWindows : isOsx = true -> isOsxOrWindows = true.
Proof.
  unfold isOsx, isOsxOrWindows. intros H%String.eqb_eq. rewrite H. reflexivity.
Qed.

Lemma pre_add_frame (p : string) (s : St) :
  windowMenus (pre_add p s) = windowMenus s /\ menus (pre_add p s) = menus s /\
  applicationMenu (pre_add p s) = applicationMenu s /\
  activeWindowId (pre_add p s) = activeWindowId s /\
  _preferences (pre_add p s) = _preferences s /\
  _keybindings (pre_add p s) = _keybindings s /\
  files (pre_add p s) = files s /\ writes (pre_add p s) = writes s.
Proof.
  unfold pre_add.
  set (s0 := if isOsxOrWindows then _ else s).
  destruct (logged_load_frame s0) as (?&?&?&?&?&?&?&?).
  assert (windowMenus s0 = windowMenus s /\ menus s0 = menus s /\
          applicationMenu s0 = applicationMenu s /\
          activeWindowId s0 = activeWindowId s /\
          _preferences s0 = _preferences s /\ _keybindings s0 = _keybindings s /\
          files s0 = files s /\ writes s0 = writes s) as (?&?&?&?&?&?&?&?)
    by (unfold s0; destruct isOsxOrWindows; cbn; repeat split).
  repeat split; congruence.
Qed.

Lemma addRecentlyUsedDocument_run (p : string) (s : St) :
  isOsx = false -> wf s ->
  exists s1,
    rebuilt_from (moveToFront (load (files s)).1 p).1 0 (pre_add p s) s1 /\ wf s1 /\
    addRecentlyUsedDocument p s
    = (Ok tt, if (moveToFront (load (files s)).1 p).2
              then persist (moveToFront (load (files s)).1 p).1 s1 else s1).
Proof using template_ok.
  intros Hosx Hwf.
  destruct (pre_add_frame p s) as (Hw & Hm & _ & _ & _ & _ & Hf & _).
  assert (Hwf0 : wf (pre_add p s)) by (eapply wf_ext; eassumption).
  destruct (updateAppMenu_Some (moveToFront (load (files s)).1 p).1 _ Hwf0)
    as (s1 & Hrun & Hpost & Hwf1).
  exists s1. split; [assumption|]. split; [assumption|].
  unfold addRecentlyUsedDocument. rewrite Hosx.
  assert (Hpre : forall (k : list string -> Op unit),
    (do (if isOsxOrWindows then app_addRecentDocument p else ret tt) then
     let* recentDocuments := getRecentlyUsedDocuments in k recentDocuments) s
    = k (load (files s)).1 (pre_add p s)).
  { intros k. unfold pre_add, bind at 1.
    destruct isOsxOrWindows; cbn [app_addRecentDocument modify ret];
      unfold bind at 1; rewrite getRecentlyUsedDocuments_eq; reflexivity. }
  rewrite Hpre.
  destruct (moveToFront (load (files s)).1 p) as [l needSave]. cbn [fst snd] in *.
  erewrite bind_Ok by exact Hrun.
  destruct needSave; [apply persist_run | reflexivity].
Qed.

(** On macOS the method registers the path with the system and returns. *)
Lemma addRecentlyUsedDocument_osx (p : string) (s : St) :
  isOsx = true ->
  addRecentlyUsedDocument p s
  = (Ok tt, set_nativeRecentDocuments (nativeRecentDocuments s ++ [p]) s).
Proof.
  intros Hosx. unfold addRecentlyUsedDocument.
  rewrite Hosx, (isOsx_isOsxOrWindows Hosx). reflexivity.
Qed.

Lemma clearRecentlyUsedDocuments_run (s : St) :
  isOsx = false -> wf s ->
  exists s1,
    rebuilt_from [] 0 (pre_clear s) s1 /\ wf s1 /\
    clearRecentlyUsedDocuments s = (Ok tt, persist [] s1).
Proof using template_ok.
  intros Hosx Hwf.
  assert (Hwf0 : wf (pre_clear s))
    by (unfold pre_clear; destruct isOsxOrWindows; [eapply wf_ext; [| |eassumption]|];
        auto).
  destruct (updateAppMenu_Some [] _ Hwf0) as (s1 & Hrun & Hpost & Hwf1).
  exists s1. split; [assumption|]. split; [assumption|].
  unfold clearRecentlyUsedDocuments. rewrite Hosx.
  assert (Hpre : forall (k : Op unit),
    (do (if isOsxOrWindows then app_clearRecentDocuments else ret tt) then k) s
    = k (pre_clear s)).
  { intros k. unfold pre_clear, bind. destruct isOsxOrWindows; reflexivity. }
  rewrite Hpre. erewrite bind_Ok by exact Hrun. apply persist_run.
Qed.

Lemma clearRecentlyUsedDocuments_osx (s : St) :
  isOsx = true ->
  clearRecentlyUsedDocuments s = (Ok tt, set_nativeRecentDocuments [] s).
Proof.
  intros Hosx. unfold clearRecentlyUsedDocuments.
  rewrite Hosx, (isOsx_isOsxOrWindows Hosx). reflexivity.
Qed.

Lemma exists_path_persist (fs : gmap string node) (content p : string) :
  exists_path fs p = true ->
  exists_path (<[RECENTS_PATH := File content]> (ensured fs)) p = true.
Proof.
  unfold exists_path, is_file, is_directory, ensured. intros Hp.
  destruct (decide (RECENTS_PATH = p)) as [<-|Hne].
  - rewrite lookup_insert_eq. reflexivity.
  - rewrite lookup_insert_ne by assumption.
    destruct (fs !! userDataPath) eqn:Hu; [assumption|].
    destruct (decide (userDataPath = p)) as [<-|Hne'].
    + rewrite Hu in Hp. discriminate.
    + rewrite lookup_insert_ne by assumption. assumption.
Qed.

Lemma omap_keep_existing (fs : gmap string node) (l : list string) :
  Forall (fun p => p <> "" /\ exists_path fs p = true) l ->
  omap (keep_entry fs) (JString <$> l) = l.
Proof.
  induction 1 as [|p l [Hne Hex] _ IH]; [reflexivity|].
  cbn [fmap list_fmap omap list_omap keep_entry].
  fold (exists_path fs p). rewrite Hex.
  destruct (String.eqb_spec p ""); [contradiction|]. cbn.
  f_equal. exact IH.
Qed.

(** Loading what was persisted gives the list back when its entries
    exist. *)
Lemma load_persisted (fs : gmap string node) (l : list string) :
  fs !! RECENTS_PATH = Some (File (JSON_stringify l)) ->
  Forall (fun p => p <> "" /\ exists_path fs p = true) l ->
  (length l <= MAX_RECENTLY_USED_DOCUMENTS)%nat ->
  load fs = (l, None).
Proof using roundtrip.
  intros Hf Hall Hlen. unfold load. rewrite Hf, roundtrip.
  rewrite omap_keep_existing by assumption.
  rewrite truncate_take, take_ge by assumption. reflexivity.
Qed.

Lemma persist_lookup (l : list string) (s : St) :
  files (persist l s) !! RECENTS_PATH = Some (File (JSON_stringify l)).
Proof. unfold persist. cbn. apply lookup_insert_eq. Qed.

(** An add of an existing path: the next load returns the array the add
    computed. *)
Lemma addRecentlyUsedDocument_load (p : string) (s : St) :
  isOsx = false -> wf s -> p <> "" -> exists_path (files s) p = true ->
  exists s',
    addRecentlyUsedDocument p s = (Ok tt, s') /\ wf s' /\
    (load (files s')).1 = (moveToFront (load (files s)).1 p).1 /\
    (forall q, exists_path (files s) q = true -> exists_path (files s') q = true).
Proof using roundtrip template_ok.
  intros Hosx Hwf Hne Hex.
  destruct (addRecentlyUsedDocument_run p s Hosx Hwf) as (s1 & Hpost & Hwf1 & Hrun).
  destruct Hpost as ((_&_&_&_&_&Hf1&_) & _).
  destruct (pre_add_frame p s) as (_&_&_&_&_&_&Hf0&_).
  rewrite Hf0 in Hf1.
  eexists. split; [exact Hrun|].
  destruct (moveToFront (load (files s)).1 p) as [l' needSave] eqn:Hm.
  pose proof (moveToFront_needSave (load (files s)).1 p) as Hsave.
  pose proof (moveToFront_length (load (files s)).1 p) as Hlen.
  pose proof (moveToFront_elem (load (files s)).1 p) as Helem.
  rewrite Hm in Hsave, Hlen, Helem. cbn [fst snd] in *.
  destruct needSave.
  - split; [eapply wf_ext; [| |exact Hwf1]; reflexivity|].
    assert (Hpres : forall q, exists_path (files s) q = true ->
                         exists_path (files (persist l' s1)) q = true).
    { intros q Hq. unfold persist. cbn [files set_writes set_files].
      rewrite Hf1. apply exists_path_persist. assumption. }
    split; [|assumption].
    rewrite (load_persisted _ l'); [reflexivity | apply persist_lookup | | assumption].
    apply Forall_forall. intros q Hq.
    destruct (Helem q Hq) as [->|Hq'].
    + auto.
    + apply load_elem in Hq' as [Hq1 Hq2]. split; [assumption|].
      apply Hpres. assumption.
  - split; [assumption|]. rewrite Hf1. split; [|auto].
    destruct (decide (l' = (load (files s)).1)) as [->|Hd]; [reflexivity|].
    apply Hsave in Hd. discriminate.
Qed.

Lemma add_all_load (ps : list string) :
  forall s : St,
    isOsx = false -> wf s ->
    Forall (fun p => p <> "" /\ exists_path (files s) p = true) ps ->
    exists s',
      add_all ps s = (Ok tt, s') /\ wf s' /\
      (load (files s')).1 = add_list (load (files s)).1 ps.
Proof using roundtrip template_ok.
  induction ps as [|p ps IH]; intros s Hosx Hwf Hall.
  - exists s. auto.
  - apply Forall_cons in Hall as [[Hne Hex] Hall].
    destruct (addRecentlyUsedDocument_load p s Hosx Hwf Hne Hex)
      as (s1 & Hrun & Hwf1 & Hload & Hpres).
    destruct (IH s1 Hosx Hwf1) as (s' & Hrun' & Hwf' & Hload').
    { eapply Forall_impl; [exact Hall|]. cbn. intros q [? ?]. auto. }
    exists s'. split.
    { cbn [add_all]. erewrite bind_Ok by exact Hrun. exact Hrun'. }
    split; [assumption|]. rewrite Hload', Hload. reflexivity.
Qed.

Lemma load_snd (fs : gmap string node) : (load fs).1 <> [] -> (load fs).2 = None.
Proof.
  unfold load. destruct (fs !! RECENTS_PATH) as [[text|]|]; cbn; try congruence.
  destruct (JSON_parse text) as [[| | | |items|]|]; cbn; congruence.
Qed.

Lemma getRecentlyUsedDocuments_quiet (s : St) (l : list string) :
  (load (files s)).1 = l -> l <> [] -> getRecentlyUsedDocuments s = (Ok l, s).
Proof.
  intros Hl Hne. rewrite getRecentlyUsedDocuments_eq, Hl. f_equal.
  unfold logged_load. rewrite load_snd; [reflexivity|]. rewrite Hl. assumption.
Qed.

Lemma moveToFront_nil (p : string) : moveToFront [] p = ([p], true).
Proof. reflexivity. Qed.

Lemma moveToFront_singleton (p : string) : moveToFront [p] p = ([p], false).
Proof.
  apply (moveToFront_cases [p] p); [cbn; unfold MAX_RECENTLY_USED_DOCUMENTS; lia|].
  apply (indexOf_app [] [] p). apply not_elem_of_nil.
Qed.

(** After a single path was persisted, a load returns that path or, when
    it does not exist, nothing. *)
Lemma load_single (fs : gmap string node) (p : string) :
  fs !! RECENTS_PATH = Some (File (JSON_stringify [p])) ->
  (load fs).1 = [p] \/ (load fs).1 = [].
Proof using roundtrip.
  intros Hf. unfold load. rewrite Hf, roundtrip. cbn [fst fmap list_fmap omap list_omap].
  destruct (keep_entry fs (JString p)) as [q|] eqn:Hk; [left | right; reflexivity].
  apply keep_entry_Some in Hk as [[= <-] _]. reflexivity.
Qed.

(** On macOS a run of adds is a run of registrations. *)
Lemma add_all_osx (ps : list string) :
  forall s : St,
    isOsx = true ->
    exists s',
      add_all ps s = (Ok tt, s') /\
      files s' = files s /\ writes s' = writes s /\
      nativeRecentDocuments s' = nativeRecentDocuments s ++ ps.
Proof.
  induction ps as [|p ps IH]; intros s Hosx.
  - exists s. split; [reflexivity|]. rewrite app_nil_r. auto.
  - destruct (IH (set_nativeRecentDocuments (nativeRecentDocuments s ++ [p]) s) Hosx)
      as (s' & Hrun & Hf & Hw & Hn).
    exists s'. split.
    + cbn [add_all]. erewrite bind_Ok; [exact Hrun|].
      apply addRecentlyUsedDocument_osx. assumption.
    + split; [exact Hf|]. split; [exact Hw|].
      rewrite Hn. cbn. rewrite <- app_assoc. reflexivity.
Qed.

(** C1: on a platform that keeps the explicit list, an add of [p] to the
    list [l] that a load returns goes by cases. With [p] at index 0 the array
    is left as it was and neither the file system nor the record of writes
    changes. With [p] at an index [k > 0] the array becomes [p] followed by
    [l] without its entry [k], and that array is persisted. With [p] absent
    the array becomes [p] followed by [l], cut to twelve entries, and is
    persisted. When [p] exists, the next load returns the array of the
    case. Adding the same path again to an empty list leaves the persisted
    array with that one path, which a load returns when the path exists. *)
Theorem addRecentlyUsedDocument_cases (s : St) (p : string) :
  isOsx = false -> wf s ->
  exists s',
    addRecentlyUsedDocument p s = (Ok tt, s') /\
    (indexOf (load (files s)).1 p = 0 ->
       moveToFront (load (files s)).1 p = ((load (files s)).1, false) /\
       files s' = files s /\ writes s' = writes s) /\
    (forall k, (0 < k)%nat -> indexOf (load (files s)).1 p = Z.of_nat k ->
       moveToFront (load (files s)).1 p = (p :: delete k (load (files s)).1, true) /\
       files s' !! RECENTS_PATH
       = Some (File (JSON_stringify (p :: delete k (load (files s)).1)))) /\
    (indexOf (load (files s)).1 p = -1 ->
       moveToFront (load (files s)).1 p = (take 12 (p :: (load (files s)).1), true) /\
       files s' !! RECENTS_PATH
       = Some (File (JSON_stringify (take 12 (p :: (load (files s)).1))))) /\
    (p <> "" -> exists_path (files s) p = true ->
       getRecentlyUsedDocuments s' = (Ok (moveToFront (load (files s)).1 p).1, s')) /\
    ((load (files s)).1 = [] ->
       exists s'',
         addRecentlyUsedDocument p s' = (Ok tt, s'') /\
         files s'' !! RECENTS_PATH = Some (File (JSON_stringify [p])) /\
         (p <> "" -> exists_path (files s) p = true ->
            getRecentlyUsedDocuments s'' = (Ok [p], s''))).
Proof using roundtrip template_ok.
  intros Hosx Hwf.
  destruct (addRecentlyUsedDocument_run p s Hosx Hwf) as (s1 & Hpost & Hwf1 & Hrun).
  destruct Hpost as ((_&_&_&_&_&Hf1&Hw1&_) & _).
  destruct (pre_add_frame p s) as (_&_&_&_&_&_&Hf0&Hw0).
  rewrite Hf0 in Hf1. rewrite Hw0 in Hw1.
  destruct (moveToFront_cases (load (files s)).1 p (load_length _)) as (C0 & Ck & Ca).
  eexists. split; [exact Hrun|].
  split; [|split; [|split; [|split]]].
  - intros E. rewrite (C0 E). cbn [snd]. auto.
  - intros k Hk E. rewrite (Ck k Hk E). cbn [fst snd]. split; [reflexivity|].
    apply persist_lookup.
  - intros E. rewrite (Ca E). cbn [fst snd]. split; [reflexivity|].
    apply persist_lookup.
  - intros Hne Hex.
    destruct (addRecentlyUsedDocument_load p s Hosx Hwf Hne Hex)
      as (s2 & Hrun2 & _ & Hload & _).
    rewrite Hrun in Hrun2. injection Hrun2 as <-.
    apply getRecentlyUsedDocuments_quiet; [assumption|].
    rewrite moveToFront_fst. discriminate.
  - intros Hnil. rewrite Hnil in *. rewrite moveToFront_nil in *. cbn [fst snd] in *.
    assert (Hwfp : wf (persist [p] s1)) by (eapply wf_ext; [| |exact Hwf1]; reflexivity).
    destruct (addRecentlyUsedDocument_run p _ Hosx Hwfp) as (s3 & Hpost3 & Hwf3 & Hrun3).
    destruct Hpost3 as ((_&_&_&_&_&Hf3&_) & _).
    destruct (pre_add_frame p (persist [p] s1)) as (_&_&_&_&_&_&Hf2&_).
    rewrite Hf2 in Hf3.
    eexists. split; [exact Hrun3|].
    assert (Hfile : files s3 !! RECENTS_PATH = Some (File (JSON_stringify [p])))
      by (rewrite Hf3; apply persist_lookup).
    split.
    + destruct (load_single (files (persist [p] s1)) p (persist_lookup _ _)) as [El|El];
        rewrite El.
      * rewrite moveToFront_singleton. cbn [snd]. assumption.
      * rewrite moveToFront_nil. cbn [fst snd]. apply persist_lookup.
    + intros Hne Hex.
      assert (Hex1 : exists_path (files (persist [p] s1)) p = true).
      { unfold persist. cbn [files set_writes set_files]. rewrite Hf1.
        apply exists_path_persist. assumption. }
      assert (El : load (files (persist [p] s1)) = ([p], None)).
      { apply load_persisted; [apply persist_lookup | | cbn; unfold MAX_RECENTLY_USED_DOCUMENTS; lia].
        apply Forall_singleton. auto. }
      rewrite El. cbn [fst]. rewrite moveToFront_singleton. cbn [snd].
      apply getRecentlyUsedDocuments_quiet; [|discriminate].
      rewrite Hf3, El. reflexivity.
Qed.

(** C2, as amended: on every platform a load never returns more than
    twelve entries and an add never leaves more than twelve in its array.
    On a platform that keeps the explicit list, that is on any but macOS,
    adding more than twelve distinct paths, each non-empty and naming an
    existing file or directory, leaves exactly the last twelve of them, the
    most recent first, so the oldest [N - 12] are gone. On macOS the adds
    only register the paths with the operating system: the persisted file
    is not touched, nothing is written, and a load returns the list it
    returned before the adds. *)
Theorem recents_at_most_twelve :
  (forall s : St, exists l s',
      getRecentlyUsedDocuments s = (Ok l, s') /\ (length l <= 12)%nat) /\
  (forall l p, (length (moveToFront l p).1 <= 12)%nat) /\
  (forall (s : St) (ps : list string),
      isOsx = false -> wf s -> NoDup ps -> (12 < length ps)%nat ->
      Forall (fun p => p <> "" /\ exists_path (files s) p = true) ps ->
      exists s',
        add_all ps s = (Ok tt, s') /\
        getRecentlyUsedDocuments s' = (Ok (take 12 (reverse ps)), s') /\
        length (take 12 (reverse ps)) = 12%nat /\
        take 12 (reverse ps) = reverse (drop (length ps - 12) ps)) /\
  (forall (s : St) (ps : list string),
      isOsx = true ->
      exists s',
        add_all ps s = (Ok tt, s') /\
        files s' = files s /\ writes s' = writes s /\
        nativeRecentDocuments s' = nativeRecentDocuments s ++ ps /\
        (getRecentlyUsedDocuments s').1 = (getRecentlyUsedDocuments s).1).
Proof using roundtrip template_ok.
  split; [|split; [|split]].
  - intros s. eexists _, _. split; [apply getRecentlyUsedDocuments_eq|].
    apply load_length.
  - apply moveToFront_length.
  - intros s ps Hosx Hwf Hnd Hlen Hall.
    destruct (add_all_load ps s Hosx Hwf Hall) as (s' & Hrun & _ & Hload).
    rewrite add_list_full in Hload by (assumption || lia).
    assert (Hlen12 : length (take 12 (reverse ps)) = 12%nat)
      by (rewrite length_take, length_reverse; lia).
    exists s'. split; [assumption|]. split; [|split; [assumption|]].
    + apply getRecentlyUsedDocuments_quiet; [assumption|].
      intros E. rewrite E in Hlen12. discriminate.
    + apply take_reverse.
  - intros s ps Hosx.
    destruct (add_all_osx ps s Hosx) as (s' & Hrun & Hf & Hw & Hn).
    exists s'. split; [assumption|]. split; [assumption|]. split; [assumption|].
    split; [assumption|].
    rewrite !getRecentlyUsedDocuments_eq. cbn [fst]. rewrite Hf. reflexivity.
Qed.

(** C3: an add writes the file exactly when the array it computed differs
    from the array it loaded. With the path already at position 0 nothing is
    written; a removal (the path was further down) or an insertion (the path
    was absent) is written; a truncation sets [needSave] whatever the
    index. On macOS no array is kept and nothing is ever written. *)
Theorem addRecentlyUsedDocument_writes (s : St) (p : string) :
  wf s ->
  exists s',
    addRecentlyUsedDocument p s = (Ok tt, s') /\
    (isOsx = true -> writes s' = writes s) /\
    (isOsx = false ->
       (writes s' = writes s <-> (moveToFront (load (files s)).1 p).1 = (load (files s)).1) /\
       ((moveToFront (load (files s)).1 p).1 <> (load (files s)).1 ->
          writes s'
          = writes s ++ [(RECENTS_PATH, JSON_stringify (moveToFront (load (files s)).1 p).1)]) /\
       (indexOf (load (files s)).1 p = 0 -> writes s' = writes s) /\
       (indexOf (load (files s)).1 p <> 0 ->
          writes s'
          = writes s ++ [(RECENTS_PATH, JSON_stringify (moveToFront (load (files s)).1 p).1)])) /\
    (forall l, (MAX_RECENTLY_USED_DOCUMENTS < length (promoted l p))%nat ->
               (moveToFront l p).2 = true).
Proof using template_ok.
  intros Hwf.
  assert (Htrunc : forall l, (MAX_RECENTLY_USED_DOCUMENTS < length (promoted l p))%nat ->
                             (moveToFront l p).2 = true).
  { intros l Hl. rewrite moveToFront_promoted. cbn [snd].
    apply Nat.ltb_lt in Hl. rewrite Hl. apply orb_true_r. }
  destruct isOsx eqn:Hosx.
  - eexists. split; [apply addRecentlyUsedDocument_osx; assumption|].
    split; [reflexivity|]. split; [discriminate | assumption].
  - destruct (addRecentlyUsedDocument_run p s Hosx Hwf) as (s1 & Hpost & Hwf1 & Hrun).
    destruct Hpost as ((_&_&_&_&_&_&Hw1&_) & _).
    destruct (pre_add_frame p s) as (_&_&_&_&_&_&_&Hw0).
    rewrite Hw0 in Hw1.
    eexists. split; [exact Hrun|]. split; [discriminate|]. split; [|assumption].
    intros _.
    pose proof (moveToFront_needSave (load (files s)).1 p) as Hsave.
    destruct (moveToFront_cases (load (files s)).1 p (load_length _)) as (C0 & _ & _).
    assert (Hidx : indexOf (load (files s)).1 p <> 0 ->
                   (moveToFront (load (files s)).1 p).2 = true).
    { intros Hi. rewrite moveToFront_promoted. cbn [snd].
      apply Z.eqb_neq in Hi. rewrite Hi. reflexivity. }
    destruct (moveToFront (load (files s)).1 p) as [l' needSave]. cbn [fst snd] in *.
    destruct needSave.
    + assert (Hd : l' <> (load (files s)).1) by (apply Hsave; reflexivity).
      assert (Hw : writes (persist l' s1) = writes s ++ [(RECENTS_PATH, JSON_stringify l')])
        by (unfold persist; cbn; rewrite Hw1; reflexivity).
      rewrite Hw. split; [|split; [|split]]; auto.
      * split; [|contradiction]. intros E. apply (f_equal length) in E.
        rewrite length_app in E. cbn in E. lia.
      * intros E. specialize (C0 E). congruence.
    + assert (Hd : l' = (load (files s)).1).
      { destruct (decide (l' = (load (files s)).1)); [assumption|].
        apply Hsave in n. discriminate. }
      rewrite Hw1. split; [|split; [|split]]; auto.
      * split; auto.
      * intros Hi. contradiction.
      * intros Hi. specialize (Hidx Hi). discriminate.
Qed.

(** C6, as amended: on a platform other than macOS, clearing rebuilds every
    window menu for the empty list and then persists the empty list, so the
    persisted file holds the two brackets; on Windows the native list is
    emptied too; the next load returns the empty list and logs nothing. On
    macOS the method only empties the native list: the file system, the
    window menus and the menu objects are left as they were. *)
Theorem clearRecentlyUsedDocuments_effect (s : St) :
  wf s ->
  (isOsx = false ->
     exists s1 s',
       clearRecentlyUsedDocuments s = (Ok tt, s') /\
       rebuilt_from [] 0 (pre_clear s) s1 /\
       s' = persist [] s1 /\
       files s' !! RECENTS_PATH = Some (File "[]") /\
       writes s' = writes s ++ [(RECENTS_PATH, "[]")] /\
       nativeRecentDocuments s' = (if isOsxOrWindows then [] else nativeRecentDocuments s) /\
       getRecentlyUsedDocuments s' = (Ok [], s')) /\
  (isOsx = true ->
     clearRecentlyUsedDocuments s = (Ok tt, set_nativeRecentDocuments [] s)).
Proof using roundtrip stringify_nil template_ok.
  intros Hwf. split; [|apply clearRecentlyUsedDocuments_osx].
  intros Hosx.
  destruct (clearRecentlyUsedDocuments_run s Hosx Hwf) as (s1 & Hpost & Hwf1 & Hrun).
  exists s1, (persist [] s1). split; [assumption|]. split; [assumption|].
  split; [reflexivity|].
  destruct Hpost as ((_&_&_&Hn&_&_&Hw&_) & _).
  assert (Hfile : files (persist [] s1) !! RECENTS_PATH = Some (File "[]"))
    by (rewrite <- stringify_nil; apply persist_lookup).
  split; [assumption|]. split; [|split].
  - unfold persist. cbn. rewrite Hw, stringify_nil.
    unfold pre_clear. destruct isOsxOrWindows; reflexivity.
  - unfold persist. cbn. rewrite Hn.
    unfold pre_clear. destruct isOsxOrWindows; reflexivity.
  - rewrite getRecentlyUsedDocuments_eq.
    assert (El : load (files (persist [] s1)) = ([], None)).
    { apply load_persisted; [apply persist_lookup | constructor | cbn; lia]. }
    unfold logged_load. rewrite El. reflexivity.
Qed.

(** ** Creating a window menu *)

Lemma Map_get_set_eq {V} (k : Z) (v : V) (m : list (Z * V)) :
  Map_get k (Map_set k v m) = Some v.
Proof.
  induction m as [|[k' v'] t IH]; cbn.
  - rewrite Z.eqb_refl. reflexivity.
  - destruct (k' =? k) eqn:E; cbn; [rewrite Z.eqb_refl | rewrite E]; auto.
Qed.

Lemma updateMenuItemSafe_last (t : St) (ms : list Menu) (b : Menu)
    (cur : option ref) (id : string) :
  menus t = ms ++ [b] ->
  (forall c, cur = Some c -> (c < length ms)%nat) ->
  is_Some (b !! id) ->
  updateMenuItemSafe cur (Some (length ms)) id false t
  = (Ok tt, set_menus (ms ++ [alter (set_checked (checked_in ms cur id)) id b]) t).
Proof.
  intros Hm Hcur [ib Hib].
  assert (Hnew : item_at t (length ms) id = Some ib).
  { unfold item_at. rewrite Hm, list_lookup_middle by reflexivity. assumption. }
  assert (Hwrite : forall v,
    (let* newItem := getMenuItemById (Some (length ms)) id in write_checked newItem v) t
    = (Ok tt, set_menus (ms ++ [alter (set_checked v) id b]) t)).
  { intros v. unfold bind, getMenuItemById, gets. rewrite Hnew.
    unfold write_checked, modify, alter_item. rewrite Hm.
    rewrite <- (Nat.add_0_r (length ms)), alter_app_r. reflexivity. }
  unfold updateMenuItemSafe, checked_in. destruct cur as [c|].
  - specialize (Hcur c eq_refl).
    assert (Hold : item_at t c id = match ms !! c with Some mn => mn !! id | None => None end).
    { unfold item_at. rewrite Hm, lookup_app_l by assumption. reflexivity. }
    unfold bind at 1. unfold bind at 1. unfold getMenuItemById at 1, gets at 1.
    rewrite Hold.
    destruct (ms !! c) as [mn|] eqn:Hc; [|apply Hwrite].
    destruct (mn !! id) as [it|] eqn:Hit; [|apply Hwrite].
    unfold read_checked, gets. rewrite Hold. apply Hwrite.
  - unfold bind at 1. cbn [ret]. apply Hwrite.
Qed.

Lemma buildDefaultMenu_None (createShortcutMap : bool) (s : St) :
  buildDefaultMenu createShortcutMap None s
  = (Ok (mkWindowMenu
           (if createShortcutMap
            then Some (parseMenu (configureMenu (_keybindings s) (_preferences s)
                                    (load (files s)).1))
            else None)
           (Some (length (menus s)))),
     set_menus (menus s ++ [built (load (files s)).1 s]) (logged_load s)).
Proof.
  unfold buildDefaultMenu. unfold bind at 1. rewrite getRecentlyUsedDocuments_eq.
  unfold logged_load, built. destruct (load (files s)).2; reflexivity.
Qed.

Lemma editor_menu_is_Some (cs ct : bool) (b : Menu) (id : string) :
  is_Some (editor_menu cs ct b !! id) <-> is_Some (b !! id).
Proof.
  unfold editor_menu. destruct cs; rewrite ?lookup_alter_is_Some; reflexivity.
Qed.

Lemma addEditorMenu_run (windowId : Z) (s : St) :
  visible_ok s ->
  addEditorMenu windowId s = (Ok tt, after_addEditorMenu windowId s).
Proof using template_ok.
  intros Hvis.
  pose proof (template_ok (_keybindings s) (_preferences s) (load (files s)).1) as Hb.
  fold (built (load (files s)).1 s) in Hb.
  assert (Hs : is_Some (built (load (files s)).1 s !! sourceCodeModeMenuItem))
    by (apply Hb; in_toggles).
  assert (Ht : is_Some (built (load (files s)).1 s !! typewriterModeMenuItem))
    by (apply Hb; in_toggles).
  assert (Hf : is_Some (built (load (files s)).1 s !! focusModeMenuItem))
    by (apply Hb; in_toggles).
  destruct (logged_load_frame s) as (Hlw & Hlm & Hla & _).
  unfold addEditorMenu.
  erewrite bind_Ok by apply buildDefaultMenu_None.
  unfold bind at 1. cbn [modify].
  unfold bind at 1. cbn [gets windowMenus set_windowMenus]. rewrite Map_get_set_eq.
  unfold bind at 1. cbn [Menu_getApplicationMenu gets applicationMenu set_windowMenus set_menus].
  change (windowMenus (set_menus (menus s ++ [built (load (files s)).1 s]) (logged_load s)))
    with (windowMenus (logged_load s)).
  rewrite Hla, Hlw.
  erewrite bind_Ok; cycle 1.
  { apply updateMenuItemSafe_last with (b := built (load (files s)).1 s);
      [reflexivity | exact Hvis | exact Hs]. }
  erewrite bind_Ok; cycle 1.
  { apply updateMenuItemSafe_last; [reflexivity | exact Hvis |].
    apply lookup_alter_is_Some. exact Ht. }
  fold (carried s sourceCodeModeMenuItem). fold (carried s typewriterModeMenuItem).
  set (b2 := alter (set_checked (carried s typewriterModeMenuItem)) typewriterModeMenuItem
               (alter (set_checked (carried s sourceCodeModeMenuItem))
                  sourceCodeModeMenuItem (built (load (files s)).1 s))).
  assert (Hb2 : forall id, is_Some (built (load (files s)).1 s !! id) -> is_Some (b2 !! id)).
  { intros id H. unfold b2. rewrite !lookup_alter_is_Some. exact H. }
  assert (Hsrc : checked <$> b2 !! sourceCodeModeMenuItem
                 = Some (carried s sourceCodeModeMenuItem)).
  { unfold b2. rewrite lookup_alter_ne by discriminate. rewrite lookup_alter_eq.
    destruct Hs as [it ->]. reflexivity. }
  unfold bind at 1. unfold getMenuItemById at 1, gets at 1, item_at at 1.
  cbn [menus set_menus set_windowMenus].
  rewrite list_lookup_middle by reflexivity.
  destruct (b2 !! sourceCodeModeMenuItem) as [its|] eqn:Hits; [|discriminate].
  injection Hsrc as Hsrc.
  unfold bind at 1. unfold read_checked at 1, gets at 1, item_at at 1.
  cbn [menus set_menus set_windowMenus].
  rewrite list_lookup_middle by reflexivity. rewrite Hits, Hsrc.
  unfold after_addEditorMenu, editor_menu. fold (built (load (files s)).1 s). fold b2.
  destruct (carried s sourceCodeModeMenuItem).
  - destruct (Hb2 _ Ht) as [itt Hitt]. destruct (Hb2 _ Hf) as [itf Hitf].
    unfold bind, getMenuItemById, gets, item_at, write_enabled, modify, alter_item,
      registerKeyHandlers.
    cbn [menus set_menus set_windowMenus].
    rewrite list_lookup_middle by reflexivity. rewrite Hitt, Hitf.
    cbn [menus set_menus set_windowMenus].
    rewrite <- (Nat.add_0_r (length (menus s))), !alter_app_r.
    unfold logged_load. destruct (load (files s)).2; reflexivity.
  - unfold bind, registerKeyHandlers, modify, ret.
    unfold logged_load. destruct (load (files s)).2; reflexivity.
Qed.

Lemma after_addEditorMenu_tree (windowId : Z) (s : St) :
  Map_get windowId (windowMenus (after_addEditorMenu windowId s))
  = Some (mkWindowMenu
            (Some (parseMenu (configureMenu (_keybindings s) (_preferences s)
                                (load (files s)).1)))
            (Some (length (menus s)))) /\
  menus (after_addEditorMenu windowId s) !! length (menus s)
  = Some (editor_menu (carried s sourceCodeModeMenuItem)
            (carried s typewriterModeMenuItem) (built (load (files s)).1 s)).
Proof.
  unfold after_addEditorMenu. cbn [windowMenus menus set_keyHandlers set_windowMenus set_menus].
  split; [apply Map_get_set_eq | apply list_lookup_middle; reflexivity].
Qed.

Lemma editor_menu_checked (cs ct : bool) (b : Menu) :
  is_Some (b !! sourceCodeModeMenuItem) -> is_Some (b !! typewriterModeMenuItem) ->
  checked <$> editor_menu cs ct b !! sourceCodeModeMenuItem = Some cs /\
  checked <$> editor_menu cs ct b !! typewriterModeMenuItem = Some ct.
Proof.
  intros [its Hs] [itt Ht]. unfold editor_menu. destruct cs.
  - rewrite !(lookup_alter_ne _ _ _ sourceCodeModeMenuItem) by discriminate.
    rewrite (lookup_alter_ne _ _ focusModeMenuItem typewriterModeMenuItem) by discriminate.
    rewrite !lookup_alter_eq.
    rewrite (lookup_alter_ne _ _ sourceCodeModeMenuItem typewriterModeMenuItem) by discriminate.
    rewrite Hs, Ht. split; reflexivity.
  - rewrite (lookup_alter_ne _ _ typewriterModeMenuItem sourceCodeModeMenuItem) by discriminate.
    rewrite !lookup_alter_eq.
    rewrite (lookup_alter_ne _ _ sourceCodeModeMenuItem typewriterModeMenuItem) by discriminate.
    rewrite Hs, Ht. split; reflexivity.
Qed.

Lemma editor_menu_enabled (cs ct : bool) (b : Menu) :
  (cs = true ->
     enabled <$> editor_menu cs ct b !! typewriterModeMenuItem
     = (fun _ => false) <$> b !! typewriterModeMenuItem /\
     enabled <$> editor_menu cs ct b !! focusModeMenuItem
     = (fun _ => false) <$> b !! focusModeMenuItem) /\
  (cs = false ->
     enabled <$> editor_menu cs ct b !! typewriterModeMenuItem
     = enabled <$> b !! typewriterModeMenuItem /\
     enabled <$> editor_menu cs ct b !! focusModeMenuItem
     = enabled <$> b !! focusModeMenuItem).
Proof.
  unfold editor_menu. split; intros ->.
  - rewrite lookup_alter_eq.
    rewrite (lookup_alter_ne _ _ focusModeMenuItem typewriterModeMenuItem) by discriminate.
    rewrite (lookup_alter_ne _ _ typewriterModeMenuItem focusModeMenuItem) by discriminate.
    rewrite !lookup_alter_eq.
    rewrite !(lookup_alter_ne _ _ _ focusModeMenuItem) by discriminate.
    rewrite (lookup_alter_ne _ _ sourceCodeModeMenuItem typewriterModeMenuItem) by discriminate.
    destruct (b !! typewriterModeMenuItem), (b !! focusModeMenuItem); split; reflexivity.
  - rewrite lookup_alter_eq.
    rewrite !(lookup_alter_ne _ _ _ focusModeMenuItem) by discriminate.
    rewrite (lookup_alter_ne _ _ sourceCodeModeMenuItem typewriterModeMenuItem) by discriminate.
    destruct (b !! typewriterModeMenuItem); split; reflexivity.
Qed.

(** C8: when a window menu is created, the source-code-mode and
    typewriter-mode items of the new tree get the [checked] state of the
    same items of the menu that is visible at that moment; they are unchecked
    when no menu is visible or when the visible menu has no such item. So a
    window created while the visible menu is the one of the active window,
    with typewriter mode checked and source-code mode unchecked there,
    starts with typewriter mode checked and source-code mode unchecked. *)
Theorem addEditorMenu_carries_toggles (s : St) (windowId : Z) :
  visible_ok s ->
  exists s' tree,
    addEditorMenu windowId s = (Ok tt, s') /\
    (exists sm, Map_get windowId (windowMenus s')
                = Some (mkWindowMenu sm (Some (length (menus s))))) /\
    menus s' !! length (menus s) = Some tree /\
    (applicationMenu s = None ->
       checked <$> tree !! sourceCodeModeMenuItem = Some false /\
       checked <$> tree !! typewriterModeMenuItem = Some false) /\
    (forall c visible, applicationMenu s = Some c -> menus s !! c = Some visible ->
       checked <$> tree !! sourceCodeModeMenuItem
       = Some (match visible !! sourceCodeModeMenuItem with
               | Some it => checked it | None => false end) /\
       checked <$> tree !! typewriterModeMenuItem
       = Some (match visible !! typewriterModeMenuItem with
               | Some it => checked it | None => false end)) /\
    (forall active a visible tw sc,
       Map_get (activeWindowId s) (windowMenus s) = Some active ->
       menu active = Some a -> applicationMenu s = Some a ->
       menus s !! a = Some visible ->
       visible !! typewriterModeMenuItem = Some tw -> checked tw = true ->
       visible !! sourceCodeModeMenuItem = Some sc -> checked sc = false ->
       checked <$> tree !! typewriterModeMenuItem = Some true /\
       checked <$> tree !! sourceCodeModeMenuItem = Some false).
Proof using template_ok.
  intros Hvis.
  pose proof (template_ok (_keybindings s) (_preferences s) (load (files s)).1) as Hb.
  fold (built (load (files s)).1 s) in Hb.
  destruct (after_addEditorMenu_tree windowId s) as [Hw Hm].
  destruct (editor_menu_checked (carried s sourceCodeModeMenuItem)
              (carried s typewriterModeMenuItem) (built (load (files s)).1 s))
    as [Hsrc Htw]; try (apply Hb; in_toggles).
  eexists _, _. split; [apply addEditorMenu_run; assumption|].
  split; [eexists; exact Hw|]. split; [exact Hm|].
  rewrite Hsrc, Htw. unfold carried, checked_in.
  split; [intros ->; auto|]. split.
  - intros c visible -> ->. auto.
  - intros active a visible tw sc _ _ -> -> -> <- -> <-. auto.
Qed.

(** C9: at the creation of a window menu, when the source-code-mode state
    carried over from the visible menu is true, the typewriter-mode and
    focus-mode items of the new tree are disabled; when it is false their
    [enabled] flags are the ones the template gave them, so they stay
    enabled when the template enables them. *)
Theorem addEditorMenu_coupling (s : St) (windowId : Z) :
  visible_ok s ->
  exists s' tree,
    addEditorMenu windowId s = (Ok tt, s') /\
    menus s' !! length (menus s) = Some tree /\
    checked <$> tree !! sourceCodeModeMenuItem = Some (carried s sourceCodeModeMenuItem) /\
    (carried s sourceCodeModeMenuItem = true ->
       enabled <$> tree !! typewriterModeMenuItem = Some false /\
       enabled <$> tree !! focusModeMenuItem = Some false) /\
    (carried s sourceCodeModeMenuItem = false ->
       enabled <$> tree !! typewriterModeMenuItem
       = enabled <$> built (load (files s)).1 s !! typewriterModeMenuItem /\
       enabled <$> tree !! focusModeMenuItem
       = enabled <$> built (load (files s)).1 s !! focusModeMenuItem /\
       (forall tw fm,
          built (load (files s)).1 s !! typewriterModeMenuItem = Some tw ->
          built (load (files s)).1 s !! focusModeMenuItem = Some fm ->
          enabled tw = true -> enabled fm = true ->
          enabled <$> tree !! typewriterModeMenuItem = Some true /\
          enabled <$> tree !! focusModeMenuItem = Some true)).
Proof using template_ok.
  intros Hvis.
  pose proof (template_ok (_keybindings s) (_preferences s) (load (files s)).1) as Hb.
  fold (built (load (files s)).1 s) in Hb.
  assert (Hs : is_Some (built (load (files s)).1 s !! sourceCodeModeMenuItem))
    by (apply Hb; in_toggles).
  assert (Ht : is_Some (built (load (files s)).1 s !! typewriterModeMenuItem))
    by (apply Hb; in_toggles).
  assert (Hf : is_Some (built (load (files s)).1 s !! focusModeMenuItem))
    by (apply Hb; in_toggles).
  destruct (after_addEditorMenu_tree windowId s) as [_ Hm].
  destruct (editor_menu_checked (carried s sourceCodeModeMenuItem)
              (carried s typewriterModeMenuItem) _ Hs Ht) as [Hsrc _].
  destruct (editor_menu_enabled (carried s sourceCodeModeMenuItem)
              (carried s typewriterModeMenuItem) (built (load (files s)).1 s))
    as [Hon Hoff].
  eexists _, _. split; [apply addEditorMenu_run; assumption|].
  split; [exact Hm|]. split; [exact Hsrc|]. split.
  - intros Hc. destruct (Hon Hc) as [-> ->].
    destruct Ht as [tw ->], Hf as [fm ->]. auto.
  - intros Hc. destruct (Hoff Hc) as [-> ->]. split; [reflexivity|].
    split; [reflexivity|]. intros tw fm -> -> Etw Efm. cbn. rewrite Etw, Efm. auto.
Qed.

(** ** What a rebuild keeps *)

Lemma toggles_NoDup : NoDup toggles.
Proof. apply (bool_decide_unpack _). vm_compute. exact I. Qed.

Lemma copy_checked_lookup_ne (old new : Menu) (id id' : string) :
  id <> id' -> copy_checked old new id !! id' = new !! id'.
Proof.
  intros Hne. unfold copy_checked. destruct (old !! id); [|reflexivity].
  apply lookup_alter_ne. assumption.
Qed.

Lemma foldl_copy_checked_notin (old : Menu) (ids : list string) :
  forall (new : Menu) (id : string),
    id ∉ ids -> foldl (copy_checked old) new ids !! id = new !! id.
Proof.
  induction ids as [|x ids IH]; intros new id Hid; cbn [foldl]; [reflexivity|].
  apply not_elem_of_cons in Hid as [Hne Hid].
  rewrite IH by assumption. apply copy_checked_lookup_ne. congruence.
Qed.

Lemma foldl_copy_checked_in (old : Menu) (ids : list string) :
  NoDup ids ->
  forall (new : Menu) (id : string) (io : MenuItem),
    id ∈ ids -> old !! id = Some io ->
    foldl (copy_checked old) new ids !! id = set_checked (checked io) <$> new !! id.
Proof.
  induction 1 as [|x ids Hx Hnd IH]; intros new id io Hid Hio.
  - inversion Hid.
  - cbn [foldl]. apply elem_of_cons in Hid as [->|Hid].
    + rewrite foldl_copy_checked_notin by assumption.
      unfold copy_checked. rewrite Hio. apply lookup_alter_eq.
    + rewrite (IH _ _ io) by assumption.
      rewrite copy_checked_lookup_ne; [reflexivity|].
      intros ->. contradiction.
Qed.

(** The tree of a rebuild: the five toggles have the [checked] state of
    the prior snapshot, and everything else is as the template built it. *)
Lemma rebuilt_menu_spec (om fresh : Menu) :
  has_toggles om ->
  (forall id, id ∈ toggles ->
     checked <$> rebuilt_menu om fresh !! id
     = (fun _ => default false (checked <$> om !! id)) <$> fresh !! id) /\
  (forall id, enabled <$> rebuilt_menu om fresh !! id = enabled <$> fresh !! id) /\
  (forall id, id ∉ toggles -> rebuilt_menu om fresh !! id = fresh !! id).
Proof.
  intros Hom. unfold rebuilt_menu. split; [|split].
  - intros id Hid. destruct (Hom id Hid) as [io Hio].
    rewrite (foldl_copy_checked_in om toggles toggles_NoDup fresh id io) by assumption.
    rewrite Hio. destruct (fresh !! id); reflexivity.
  - intros id. destruct (decide (id ∈ toggles)) as [Hid|Hid].
    + destruct (Hom id Hid) as [io Hio].
      rewrite (foldl_copy_checked_in om toggles toggles_NoDup fresh id io) by assumption.
      destruct (fresh !! id); reflexivity.
    + rewrite foldl_copy_checked_notin by assumption. reflexivity.
  - intros id Hid. apply foldl_copy_checked_notin. assumption.
Qed.

(** What [rebuilt_from] says about one stored window, read in a state [s]
    that agrees with the state of the rebuild on the menus. *)
Lemma rebuilt_entry (l : list string) (s s0 s1 : St) :
  wf s ->
  windowMenus s0 = windowMenus s -> menus s0 = menus s ->
  activeWindowId s0 = activeWindowId s ->
  _preferences s0 = _preferences s -> _keybindings s0 = _keybindings s ->
  rebuilt_from l 0 s0 s1 ->
  forall i key value o om,
    windowMenus s !! i = Some (key, value) -> menu value = Some o ->
    menus s !! o = Some om ->
    exists n tree,
      windowMenus s1 !! i = Some (key, mkWindowMenu (shortcutMap value) (Some n)) /\
      n = (length (menus s) + i)%nat /\
      menus s1 !! n = Some tree /\
      menus s1 !! o = Some om /\
      (forall id, id ∈ toggles -> checked <$> tree !! id = checked <$> om !! id) /\
      (forall id, enabled <$> tree !! id = enabled <$> built l s !! id) /\
      (forall id, id ∉ toggles -> tree !! id = built l s !! id) /\
      (activeWindowId s = key -> applicationMenu s1 = Some n).
Proof using template_ok.
  intros [_ Hent] Hw Hm Ha Hp Hk (_ & _ & _ & Hheap & Hafter & _)
    i key value o om Hi Hv Ho.
  rewrite Hw, Hm, Ha in *.
  destruct (Hafter i key value o om) as (n & Hwi & Hn & Hmn & Hact);
    [lia | assumption | assumption | assumption |].
  assert (Hbuilt : built l s0 = built l s) by (unfold built; rewrite Hp, Hk; reflexivity).
  rewrite Hbuilt in Hmn.
  destruct (Hent _ _ _ Hi) as (o' & om' & Hv' & Ho' & Hom).
  assert (om' = om) as -> by congruence.
  destruct (rebuilt_menu_spec om (built l s) Hom) as (Hc & He & Hr).
  exists n, (rebuilt_menu om (built l s)).
  split; [assumption|]. split; [lia|]. split; [assumption|].
  split; [auto|]. split; [|auto].
  intros id Hid. rewrite (Hc id Hid).
  destruct (template_ok (_keybindings s) (_preferences s) l id Hid) as [ib Hib].
  fold (built l s) in Hib. rewrite Hib.
  destruct (Hom id Hid) as [io ->]. reflexivity.
Qed.

(** C10: [updateAppMenu] succeeds on well-formed snapshots, keeps the keys
    of the map, and gives every stored window a menu object of its own that
    did not exist before (the entry at position [i] gets the [i]-th object
    the rebuild allocates). In that new tree the five toggles have the [checked]
    state of the window's own prior snapshot, which is itself left as it
    was, and every other item and every [enabled] flag is as the template
    built it for the new list. The stored snapshot is replaced, and the new
    tree of the active window becomes the visible menu. An add of a recent
    document therefore leaves each window's own side-bar and tab-bar flags
    as they were. *)
Theorem updateAppMenu_keeps_toggles (s : St) (recentUsedDocuments : option (list string)) :
  wf s ->
  exists s',
    updateAppMenu recentUsedDocuments s = (Ok tt, s') /\
    (windowMenus s').*1 = (windowMenus s).*1 /\
    (forall i key value o om,
       windowMenus s !! i = Some (key, value) -> menu value = Some o ->
       menus s !! o = Some om ->
       exists n tree,
         windowMenus s' !! i = Some (key, mkWindowMenu (shortcutMap value) (Some n)) /\
         n = (length (menus s) + i)%nat /\
         menus s' !! n = Some tree /\
         menus s' !! o = Some om /\
         (forall id, id ∈ toggles -> checked <$> tree !! id = checked <$> om !! id) /\
         (forall id, enabled <$> tree !! id
                     = enabled <$> built (default (load (files s)).1 recentUsedDocuments) s !! id) /\
         (forall id, id ∉ toggles ->
                     tree !! id
                     = built (default (load (files s)).1 recentUsedDocuments) s !! id) /\
         (activeWindowId s = key -> applicationMenu s' = Some n)) /\
    (forall p, isOsx = false ->
       exists s'',
         addRecentlyUsedDocument p s = (Ok tt, s'') /\
         forall i key value o om,
           windowMenus s !! i = Some (key, value) -> menu value = Some o ->
           menus s !! o = Some om ->
           exists n tree,
             windowMenus s'' !! i = Some (key, mkWindowMenu (shortcutMap value) (Some n)) /\
             menus s'' !! n = Some tree /\
             checked <$> tree !! sideBarMenuItem = checked <$> om !! sideBarMenuItem /\
             checked <$> tree !! tabBarMenuItem = checked <$> om !! tabBarMenuItem).
Proof using template_ok.
  intros Hwf.
  assert (Hadd : forall p, isOsx = false ->
    exists s'',
      addRecentlyUsedDocument p s = (Ok tt, s'') /\
      forall i key value o om,
        windowMenus s !! i = Some (key, value) -> menu value = Some o ->
        menus s !! o = Some om ->
        exists n tree,
          windowMenus s'' !! i = Some (key, mkWindowMenu (shortcutMap value) (Some n)) /\
          menus s'' !! n = Some tree /\
          checked <$> tree !! sideBarMenuItem = checked <$> om !! sideBarMenuItem /\
          checked <$> tree !! tabBarMenuItem = checked <$> om !! tabBarMenuItem).
  { intros p Hosx.
    destruct (addRecentlyUsedDocument_run p s Hosx Hwf) as (s1 & Hpost & _ & Hrun).
    destruct (pre_add_frame p s) as (Hw & Hm & _ & Ha & Hp & Hk & _).
    eexists. split; [exact Hrun|].
    intros i key value o om Hi Hv Ho.
    destruct (rebuilt_entry _ s _ s1 Hwf Hw Hm Ha Hp Hk Hpost i key value o om Hi Hv Ho)
      as (n & tree & Hwi & _ & Hmn & _ & Hc & _).
    exists n, tree.
    assert (Hsame : forall l' (b : bool),
              windowMenus (if b then persist l' s1 else s1) = windowMenus s1 /\
              menus (if b then persist l' s1 else s1) = menus s1)
      by (intros l' []; split; reflexivity).
    pose proof (Hsame (moveToFront (load (files s)).1 p).1
                  (moveToFront (load (files s)).1 p).2) as [E1 E2].
    rewrite E1, E2.
    split; [assumption|]. split; [assumption|].
    split; apply Hc; apply (bool_decide_unpack _); vm_compute; exact I. }
  destruct recentUsedDocuments as [l|]; cbn [default].
  - destruct (updateAppMenu_Some l s Hwf) as (s' & Hrun & Hpost & _).
    exists s'. split; [assumption|]. split; [apply Hpost|]. split; [|assumption].
    apply (rebuilt_entry l s s s'); auto.
  - destruct (updateAppMenu_None s Hwf) as (s' & Hrun & Hpost & _).
    destruct (logged_load_frame s) as (Hw & Hm & _ & Ha & Hp & Hk & _).
    exists s'. split; [assumption|]. split; [|split; [|assumption]].
    + destruct Hpost as (_ & Hkeys & _). rewrite Hkeys, Hw. reflexivity.
    + apply (rebuilt_entry _ s (logged_load s) s'); auto.
Qed.

(** ** The invariant of the stored snapshots

    [wf] and [visible_ok] are what the theorems above assume of a state.
    They hold after the constructor and every method keeps them. *)

Lemma Map_get_lookup {V} (k : Z) (m : list (Z * V)) (v : V) :
  Map_get k m = Some v -> exists i, m !! i = Some (k, v).
Proof.
  induction m as [|[k' v'] t IH]; cbn; [discriminate|].
  destruct (k' =? k) eqn:E.
  - intros [= ->]. apply Z.eqb_eq in E as ->. exists 0%nat. reflexivity.
  - intros H. destruct (IH H) as [i Hi]. exists (S i). exact Hi.
Qed.

Lemma Map_set_lookup {V} (k : Z) (v : V) (m : list (Z * V)) :
  forall i k' v', Map_set k v m !! i = Some (k', v') ->
    (k' = k /\ v' = v) \/ m !! i = Some (k', v').
Proof.
  induction m as [|[k0 v0] t IH]; intros i k' v'; cbn.
  - destruct i; [intros [= <- <-]; auto | discriminate].
  - destruct (k0 =? k) eqn:E.
    + destruct i; cbn; [intros [= <- <-]; auto | auto].
    + destruct i; cbn; [auto | apply IH].
Qed.

Lemma Map_set_keys {V} (k : Z) (v : V) (m : list (Z * V)) (x : Z) :
  x ∈ (Map_set k v m).*1 -> x = k \/ x ∈ m.*1.
Proof.
  induction m as [|[k0 v0] t IH]; cbn.
  - intros H%list_elem_of_singleton. auto.
  - destruct (k0 =? k) eqn:E; cbn.
    + apply Z.eqb_eq in E as ->. intros [->|H]%elem_of_cons; [auto|].
      right. right. assumption.
    + intros [->|H]%elem_of_cons; [right; left|].
      destruct (IH H) as [->|H']; [auto | right; right; assumption].
Qed.

Lemma Map_set_NoDup {V} (k : Z) (v : V) (m : list (Z * V)) :
  NoDup m.*1 -> NoDup (Map_set k v m).*1.
Proof.
  induction m as [|[k0 v0] t IH]; cbn; intros Hnd.
  - apply NoDup_singleton.
  - apply NoDup_cons in Hnd as [Hk0 Hnd]. destruct (k0 =? k) eqn:E; cbn.
    + apply Z.eqb_eq in E as ->. apply NoDup_cons. auto.
    + apply NoDup_cons. split; [|auto].
      intros [->|H]%Map_set_keys; [|contradiction].
      rewrite Z.eqb_refl in E. discriminate.
Qed.

Lemma Map_delete_elem {V} (k : Z) (m : list (Z * V)) (e : Z * V) :
  e ∈ Map_delete k m -> e ∈ m.
Proof.
  induction m as [|[k0 v0] t IH]; cbn; [auto|].
  destruct (k0 =? k).
  - intros H. right. auto.
  - intros [->|H]%elem_of_cons; [left | right; auto].
Qed.

Lemma Map_delete_NoDup {V} (k : Z) (m : list (Z * V)) :
  NoDup m.*1 -> NoDup (Map_delete k m).*1.
Proof.
  induction m as [|[k0 v0] t IH]; cbn; intros Hnd; [assumption|].
  apply NoDup_cons in Hnd as [Hk0 Hnd]. destruct (k0 =? k); cbn; [auto|].
  apply NoDup_cons. split; [|auto].
  intros ((k1 & v1) & Hfst & He%Map_delete_elem)%list_elem_of_fmap.
  cbn in Hfst. subst k1. apply Hk0.
  apply list_elem_of_fmap. exists (k0, v1). auto.
Qed.

Lemma inv_constructor (preferences : Preferences) (keybindings : Keybindings) (w : St) :
  visible_ok w -> inv (constructor preferences keybindings w).
Proof. intros Hv. split; [apply wf_no_windows; reflexivity | exact Hv]. Qed.

(** A click on a check box of some menu keeps the invariant. *)
Lemma inv_alter_item (f : MenuItem -> MenuItem) (r : nat) (id : string) (s : St) :
  inv s -> inv (alter_item f r id s).
Proof.
  intros [[Hnd Hent] Hvis]. split; [split; [exact Hnd|]|].
  - intros i key value Hi. destruct (Hent i key value Hi) as (o & om & Hv & Ho & Hom).
    unfold alter_item. cbn [menus set_menus windowMenus] in *.
    destruct (decide (r = o)) as [->|Hne].
    + exists o, (alter f id om). split; [assumption|]. split.
      * rewrite list_lookup_alter_eq, Ho. reflexivity.
      * intros id' Hid'. apply lookup_alter_is_Some. auto.
    + exists o, om. split; [assumption|]. split; [|assumption].
      rewrite list_lookup_alter_ne by assumption. assumption.
  - intros c Hc. unfold alter_item. cbn [menus set_menus]. rewrite length_alter.
    apply Hvis. exact Hc.
Qed.

Lemma addEditorMenu_inv (windowId : Z) (s : St) :
  inv s -> exists s', addEditorMenu windowId s = (Ok tt, s') /\ inv s'.
Proof using template_ok.
  intros [[Hnd Hent] Hvis]. eexists. split; [apply addEditorMenu_run; assumption|].
  destruct (logged_load_frame s) as (Hw & Hm & Ha & _).
  unfold after_addEditorMenu. split; [split|].
  - cbn [windowMenus set_keyHandlers set_windowMenus]. apply Map_set_NoDup. exact Hnd.
  - cbn [windowMenus menus set_keyHandlers set_windowMenus set_menus].
    intros i key value [[-> ->]|Hi]%Map_set_lookup.
    + eexists _, _. split; [reflexivity|]. split; [apply list_lookup_middle; reflexivity|].
      intros id Hid. apply editor_menu_is_Some. apply template_ok. exact Hid.
    + destruct (Hent i key value Hi) as (o & om & Hv & Ho & Hom).
      exists o, om. split; [assumption|]. split; [|assumption].
      apply lookup_app_l_Some. assumption.
  - intros c. cbn [applicationMenu menus set_keyHandlers set_windowMenus set_menus].
    rewrite Ha, length_app. intros Hc%Hvis. lia.
Qed.

Lemma removeWindowMenu_inv (windowId : Z) (s : St) :
  inv s -> exists s', removeWindowMenu windowId s = (Ok tt, s') /\ inv s'.
Proof.
  intros [[Hnd Hent] Hvis].
  assert (Hdel : inv (set_windowMenus (Map_delete windowId (windowMenus s)) s)).
  { split; [split|exact Hvis]; cbn [windowMenus menus set_windowMenus].
    - apply Map_delete_NoDup. exact Hnd.
    - intros i key value Hi. apply list_elem_of_lookup_2, Map_delete_elem in Hi.
      apply list_elem_of_lookup_1 in Hi as [j Hj]. eauto. }
  unfold removeWindowMenu, bind, gets, modify.
  destruct (activeWindowId s =? windowId); eexists; (split; [reflexivity|]).
  - destruct Hdel as [Hwf' Hvis']. split; [eapply wf_ext; [| |exact Hwf']|]; auto.
  - exact Hdel.
Qed.

(** Activation either fails on a window without snapshot, leaving the
    state as it was, or installs the menu of a stored snapshot. *)
Lemma setActiveWindow_inv (windowId : Z) (s s' : St) (r : outcome unit) :
  inv s -> setActiveWindow windowId s = (r, s') -> inv s'.
Proof.
  intros [[Hnd Hent] Hvis]. unfold setActiveWindow, bind at 1, gets at 1.
  destruct (negb (activeWindowId s =? windowId)); [|intros [= <- <-]; split; [split|]; auto].
  unfold bind at 1, getWindowMenuById, bind at 1, gets at 1.
  destruct (Map_get windowId (windowMenus s)) as [value|] eqn:Hget;
    [|intros [= <- <-]; split; [split|]; auto].
  destruct (Map_get_lookup _ _ _ Hget) as [i Hi].
  destruct (Hent i windowId value Hi) as (o & om & Hv & Ho & Hom).
  rewrite Hv. cbn. intros [= <- <-]. split; [split; auto|].
  intros c [= <-]. cbn. eapply lookup_lt_Some. eassumption.
Qed.

Lemma rebuilt_visible (l : list string) (s s' : St) :
  wf s -> visible_ok s -> rebuilt_from l 0 s s' -> visible_ok s'.
Proof.
  intros [Hnd Hent] Hvis (_ & _ & _ & Hheap & Hafter & Happ) c Hc.
  destruct (decide (activeWindowId s ∈ (windowMenus s).*1)) as [Hin|Hnotin].
  - apply list_elem_of_fmap in Hin as ((key & value) & Hk & He). cbn in Hk.
    apply list_elem_of_lookup_1 in He as [j Hj].
    destruct (Hent j key value Hj) as (o & om & Hv & Ho & _).
    destruct (Hafter j key value o om) as (n & _ & _ & Hn & Hact);
      [lia | assumption | assumption | assumption |].
    rewrite Hact in Hc by auto. injection Hc as <-.
    eapply lookup_lt_Some. eassumption.
  - rewrite Happ in Hc.
    + apply Hvis, lookup_lt_is_Some in Hc as [m Hm].
      eapply lookup_lt_Some, Hheap. eassumption.
    + intros j key value _ Hj ->. apply Hnotin.
      apply list_elem_of_fmap. exists (activeWindowId s, value).
      split; [reflexivity|]. eapply list_elem_of_lookup_2. eassumption.
Qed.

Lemma inv_ext (s s' : St) :
  windowMenus s' = windowMenus s -> menus s' = menus s ->
  applicationMenu s' = applicationMenu s -> inv s -> inv s'.
Proof.
  intros Hw Hm Ha [Hwf Hvis]. split; [eapply wf_ext; eassumption|].
  unfold visible_ok. rewrite Ha, Hm. exact Hvis.
Qed.

Lemma updateAppMenu_inv (recentUsedDocuments : option (list string)) (s : St) :
  inv s -> exists s', updateAppMenu recentUsedDocuments s = (Ok tt, s') /\ inv s'.
Proof using template_ok.
  intros Hinv. destruct recentUsedDocuments as [l|].
  - destruct Hinv as [Hwf Hvis].
    destruct (updateAppMenu_Some l s Hwf) as (s' & Hrun & Hpost & Hwf').
    exists s'. split; [assumption|]. split; [assumption|].
    apply (rebuilt_visible l s s'); assumption.
  - destruct (logged_load_frame s) as (Hw & Hm & Ha & _).
    destruct (inv_ext s (logged_load s) Hw Hm Ha Hinv) as [Hwf0 Hvis0].
    destruct Hinv as [Hwf _].
    destruct (updateAppMenu_None s Hwf) as (s' & Hrun & Hpost & Hwf').
    exists s'. split; [assumption|]. split; [assumption|].
    apply (rebuilt_visible (load (files s)).1 (logged_load s) s'); assumption.
Qed.

Lemma addRecentlyUsedDocument_inv (p : string) (s : St) :
  inv s -> exists s', addRecentlyUsedDocument p s = (Ok tt, s') /\ inv s'.
Proof using template_ok.
  intros Hinv. destruct isOsx eqn:Hosx.
  - eexists. split; [apply addRecentlyUsedDocument_osx; assumption|].
    eapply inv_ext; [| | |exact Hinv]; reflexivity.
  - destruct (pre_add_frame p s) as (Hw & Hm & Ha & _).
    destruct (inv_ext s (pre_add p s) Hw Hm Ha Hinv) as [Hwf0 Hvis0].
    destruct Hinv as [Hwf _].
    destruct (addRecentlyUsedDocument_run p s Hosx Hwf) as (s1 & Hpost & Hwf1 & Hrun).
    eexists. split; [exact Hrun|].
    assert (Hinv1 : inv s1)
      by (split; [assumption | apply (rebuilt_visible (moveToFront (load (files s)).1 p).1 (pre_add p s) s1); assumption]).
    destruct (moveToFront (load (files s)).1 p).2; [|exact Hinv1].
    eapply inv_ext; [| | |exact Hinv1]; reflexivity.
Qed.

Lemma clearRecentlyUsedDocuments_inv (s : St) :
  inv s -> exists s', clearRecentlyUsedDocuments s = (Ok tt, s') /\ inv s'.
Proof using template_ok.
  intros Hinv. destruct isOsx eqn:Hosx.
  - eexists. split; [apply clearRecentlyUsedDocuments_osx; assumption|].
    eapply inv_ext; [| | |exact Hinv]; reflexivity.
  - assert (Hinv0 : inv (pre_clear s))
      by (unfold pre_clear; destruct isOsxOrWindows;
          [eapply inv_ext; [| | |exact Hinv]; reflexivity | exact Hinv]).
    destruct Hinv as [Hwf _].
    destruct (clearRecentlyUsedDocuments_run s Hosx Hwf) as (s1 & Hpost & Hwf1 & Hrun).
    eexists. split; [exact Hrun|].
    assert (Hinv1 : inv s1)
      by (split; [assumption
                 | apply (rebuilt_visible [] (pre_clear s) s1);
                   [apply Hinv0 | apply Hinv0 | assumption]]).
    eapply inv_ext; [| | |exact Hinv1]; reflexivity.
Qed.

(** ** The indicators of the visible menu *)

(** The three steps an indicator setter takes: the visible menu, its item,
    the assignment. *)
Lemma set_indicator_run (id : string) (v : bool) (s : St) :
  (let* menus := Menu_getApplicationMenu in
   let* item := getMenuItemById menus id in
   write_checked item v) s
  = match applicationMenu s with
    | None => (Throw (TypeError "Cannot read property 'getMenuItemById' of null"), s)
    | Some c =>
        match item_at s c id with
        | Some _ => (Ok tt, alter_item (set_checked v) c id s)
        | None => (Throw (TypeError "Cannot set property 'checked' of null"), s)
        end
    end.
Proof.
  unfold bind, Menu_getApplicationMenu, gets.
  destruct (applicationMenu s) as [c|]; [|reflexivity].
  cbn. destruct (item_at s c id); reflexivity.
Qed.

Lemma updateAlwaysOnTopMenu_run (flag : bool) (s : St) :
  updateAlwaysOnTopMenu flag s
  = match applicationMenu s with
    | None => (Throw (TypeError "Cannot read property 'getMenuItemById' of null"), s)
    | Some c =>
        match item_at s c alwaysOnTopMenuItem with
        | Some _ => (Ok tt, alter_item (set_checked flag) c alwaysOnTopMenuItem s)
        | None => (Throw (TypeError "Cannot set property 'checked' of null"), s)
        end
    end.
Proof. apply set_indicator_run. Qed.

Lemma updateAutoSaveMenu_run (autoSave : bool) (s : St) :
  updateAutoSaveMenu autoSave s
  = match applicationMenu s with
    | None => (Throw (TypeError "Cannot read property 'getMenuItemById' of null"), s)
    | Some c =>
        match item_at s c autoSaveMenuItem with
        | Some _ => (Ok tt, alter_item (set_checked autoSave) c autoSaveMenuItem s)
        | None => (Throw (TypeError "Cannot set property 'checked' of null"), s)
        end
    end.
Proof.
  rewrite <- set_indicator_run.
  unfold updateAutoSaveMenu, exported_getMenuItemById, bind, Menu_getApplicationMenu, gets.
  destruct (applicationMenu s) as [c|]; [|reflexivity].
  cbn. destruct (item_at s c autoSaveMenuItem); reflexivity.
Qed.

Lemma updateLineEndingMenu_run (lineEnding : string) (s : St) :
  updateLineEndingMenu lineEnding s
  = match applicationMenu s with
    | None => (Throw (TypeError "Cannot read property 'getMenuItemById' of null"), s)
    | Some c =>
        let id := if String.eqb lineEnding "crlf"
                  then crlfLineEndingMenuEntry else lfLineEndingMenuEntry in
        match item_at s c id with
        | Some _ => (Ok tt, alter_item (set_checked true) c id s)
        | None => (Throw (TypeError "Cannot set property 'checked' of null"), s)
        end
    end.
Proof.
  unfold updateLineEndingMenu, exported_updateLineEndingMenu, bind,
    Menu_getApplicationMenu, gets.
  destruct (applicationMenu s) as [c|]; [|reflexivity].
  cbn. destruct (String.eqb lineEnding "crlf");
    destruct (item_at s c crlfLineEndingMenuEntry);
    destruct (item_at s c lfLineEndingMenuEntry); reflexivity.
Qed.

Lemma item_at_alter_item_eq (f : MenuItem -> MenuItem) (r : nat) (id : string) (s : St) :
  item_at (alter_item f r id s) r id = f <$> item_at s r id.
Proof.
  unfold item_at, alter_item. cbn [menus set_menus].
  rewrite list_lookup_alter_eq. destruct (menus s !! r) as [m|]; [|reflexivity].
  cbn. apply lookup_alter_eq.
Qed.

Lemma item_at_alter_item_ne (f : MenuItem -> MenuItem) (r r' : nat) (id id' : string)
    (s : St) :
  (r', id') <> (r, id) -> item_at (alter_item f r id s) r' id' = item_at s r' id'.
Proof.
  intros Hne. unfold item_at, alter_item. cbn [menus set_menus].
  destruct (decide (r' = r)) as [->|Hr].
  - rewrite list_lookup_alter_eq. destruct (menus s !! r) as [m|]; [|reflexivity].
    cbn. apply lookup_alter_ne. congruence.
  - rewrite list_lookup_alter_ne by congruence. reflexivity.
Qed.

(** A setter either throws and leaves the state as it was, or assigns to one
    item of the visible menu. *)
Lemma set_indicator_cases (s : St) (id : string) (v : bool) (r : outcome unit) (s' : St) :
  match applicationMenu s with
  | None => (Throw (TypeError "Cannot read property 'getMenuItemById' of null"), s)
  | Some c =>
      match item_at s c id with
      | Some _ => (Ok tt, alter_item (set_checked v) c id s)
      | None => (Throw (TypeError "Cannot set property 'checked' of null"), s)
      end
  end = (r, s') ->
  s' = s \/ exists c, s' = alter_item (set_checked v) c id s.
Proof.
  destruct (applicationMenu s) as [c|]; [destruct (item_at s c id)|];
    intros [= <- <-]; eauto.
Qed.

Lemma set_indicator_inv (s : St) (id : string) (v : bool) (r : outcome unit) (s' : St) :
  inv s ->
  match applicationMenu s with
  | None => (Throw (TypeError "Cannot read property 'getMenuItemById' of null"), s)
  | Some c =>
      match item_at s c id with
      | Some _ => (Ok tt, alter_item (set_checked v) c id s)
      | None => (Throw (TypeError "Cannot set property 'checked' of null"), s)
      end
  end = (r, s') ->
  inv s'.
Proof.
  intros Hinv [->|[c ->]]%set_indicator_cases; [assumption|].
  apply inv_alter_item. assumption.
Qed.

(** ** Windows: creation, activation, destruction *)

Lemma Map_get_delete_eq {V} (k : Z) (m : list (Z * V)) :
  Map_get k (Map_delete k m) = None.
Proof.
  induction m as [|[k' v] t IH]; [reflexivity|].
  cbn. destruct (k' =? k) eqn:E; [exact IH|]. cbn. rewrite E. exact IH.
Qed.

Lemma Map_get_delete_ne {V} (k k' : Z) (m : list (Z * V)) :
  k' <> k -> Map_get k' (Map_delete k m) = Map_get k' m.
Proof.
  intros Hne. induction m as [|[k0 v] t IH]; [reflexivity|].
  cbn. destruct (k0 =? k) eqn:E.
  - apply Z.eqb_eq in E. subst k0. rewrite IH.
    destruct (k =? k') eqn:E'; [apply Z.eqb_eq in E'; congruence | reflexivity].
  - cbn. rewrite IH. reflexivity.
Qed.

Lemma Map_get_set_ne {V} (k k' : Z) (v : V) (m : list (Z * V)) :
  k' <> k -> Map_get k' (Map_set k v m) = Map_get k' m.
Proof.
  intros Hne. induction m as [|[k0 v0] t IH]; cbn.
  - destruct (k =? k') eqn:E; [apply Z.eqb_eq in E; congruence | reflexivity].
  - destruct (k0 =? k) eqn:E; cbn.
    + apply Z.eqb_eq in E. subst k0.
      destruct (k =? k') eqn:E'; [apply Z.eqb_eq in E'; congruence | reflexivity].
    + rewrite IH. reflexivity.
Qed.

Lemma Map_get_None {V} (k : Z) (m : list (Z * V)) :
  Map_get k m = None -> forall i key v, m !! i = Some (key, v) -> key <> k.
Proof.
  induction m as [|[k0 v0] t IH]; intros Hget i key v Hi; [discriminate|].
  cbn in Hget. destruct (k0 =? k) eqn:E; [discriminate|].
  destruct i as [|i]; cbn in Hi.
  - injection Hi as <- <-. apply Z.eqb_neq. exact E.
  - eapply IH; eassumption.
Qed.

Lemma removeWindowMenu_run (windowId : Z) (s : St) :
  removeWindowMenu windowId s = (Ok tt, after_removeWindowMenu windowId s).
Proof.
  unfold removeWindowMenu, after_removeWindowMenu, bind, gets, modify.
  destruct (activeWindowId s =? windowId); reflexivity.
Qed.

Lemma after_removeWindowMenu_fields (windowId : Z) (s : St) :
  windowMenus (after_removeWindowMenu windowId s) = Map_delete windowId (windowMenus s) /\
  activeWindowId (after_removeWindowMenu windowId s)
  = (if activeWindowId s =? windowId then -1 else activeWindowId s) /\
  applicationMenu (after_removeWindowMenu windowId s) = applicationMenu s /\
  menus (after_removeWindowMenu windowId s) = menus s /\
  keyHandlers (after_removeWindowMenu windowId s) = keyHandlers s /\
  errorLog (after_removeWindowMenu windowId s) = errorLog s.
Proof.
  unfold after_removeWindowMenu. destruct (activeWindowId s =? windowId); repeat split.
Qed.

(** X2: [removeWindowMenu] never throws, whether or not the window has a
    snapshot. Afterwards no snapshot is stored for the window, the snapshots
    of all other windows are as before, and the active marker is [-1] if the
    window was the active one and is unchanged otherwise. The visible menu,
    the menu objects, the key handlers and the log are not touched. *)
Theorem removeWindowMenu_effect (s : St) (windowId : Z) :
  exists s',
    removeWindowMenu windowId s = (Ok tt, s') /\
    Map_get windowId (windowMenus s') = None /\
    (forall k, k <> windowId -> Map_get k (windowMenus s') = Map_get k (windowMenus s)) /\
    activeWindowId s' = (if activeWindowId s =? windowId then -1 else activeWindowId s) /\
    applicationMenu s' = applicationMenu s /\ menus s' = menus s /\
    keyHandlers s' = keyHandlers s /\ errorLog s' = errorLog s.
Proof.
  exists (after_removeWindowMenu windowId s). split; [apply removeWindowMenu_run|].
  destruct (after_removeWindowMenu_fields windowId s) as (Hw & Ha & Hrest).
  rewrite Hw. split; [apply Map_get_delete_eq|].
  split; [intros k Hk; apply Map_get_delete_ne; assumption|].
  split; assumption.
Qed.

Lemma getWindowMenuById_stored (s : St) (windowId : Z) (value : WindowMenu ShortcutMap)
    (m : nat) :
  Map_get windowId (windowMenus s) = Some value -> menu value = Some m ->
  getWindowMenuById windowId s = (Ok m, s).
Proof.
  intros Hget Hm. unfold getWindowMenuById, bind, gets. rewrite Hget, Hm. reflexivity.
Qed.

Lemma setActiveWindow_stored (s : St) (windowId : Z) (value : WindowMenu ShortcutMap)
    (m : nat) :
  activeWindowId s <> windowId ->
  Map_get windowId (windowMenus s) = Some value -> menu value = Some m ->
  setActiveWindow windowId s
  = (Ok tt, set_activeWindowId windowId (set_applicationMenu (Some m) s)).
Proof.
  intros Hne Hget Hm. unfold setActiveWindow, bind at 1, gets at 1.
  apply Z.eqb_neq in Hne. rewrite Hne. cbn [negb].
  unfold bind at 1. rewrite (getWindowMenuById_stored s windowId value m Hget Hm).
  reflexivity.
Qed.

Lemma setActiveWindow_same (s : St) : setActiveWindow (activeWindowId s) s = (Ok tt, s).
Proof. unfold setActiveWindow, bind, gets. rewrite Z.eqb_refl. reflexivity. Qed.

(** X3: a window menu that was just created can be looked up and
    activated. Creation itself activates nothing: the visible menu and the
    active marker are as before. The lookup returns the new menu object
    without logging, and [setActiveWindow] then makes it the visible menu
    and marks the window active. When the window id was already the active
    one, [setActiveWindow] does nothing, so the visible menu is still the one
    from before the creation. *)
Theorem addEditorMenu_then_setActiveWindow (s : St) (windowId : Z) :
  visible_ok s ->
  exists s1 s2,
    addEditorMenu windowId s = (Ok tt, s1) /\
    applicationMenu s1 = applicationMenu s /\ activeWindowId s1 = activeWindowId s /\
    getWindowMenuById windowId s1 = (Ok (length (menus s)), s1) /\
    setActiveWindow windowId s1 = (Ok tt, s2) /\
    (activeWindowId s <> windowId ->
       s2 = set_activeWindowId windowId
              (set_applicationMenu (Some (length (menus s))) s1)) /\
    (activeWindowId s = windowId -> s2 = s1).
Proof using template_ok.
  intros Hvis.
  destruct (after_addEditorMenu_tree windowId s) as [Hget _].
  destruct (logged_load_frame s) as (_ & _ & Ha & Hact & _).
  assert (Ha1 : applicationMenu (after_addEditorMenu windowId s) = applicationMenu s)
    by exact Ha.
  assert (Hact1 : activeWindowId (after_addEditorMenu windowId s) = activeWindowId s)
    by exact Hact.
  assert (Hlook : getWindowMenuById windowId (after_addEditorMenu windowId s)
                  = (Ok (length (menus s)), after_addEditorMenu windowId s))
    by (eapply getWindowMenuById_stored; [exact Hget | reflexivity]).
  destruct (decide (activeWindowId s = windowId)) as [E|E].
  - exists (after_addEditorMenu windowId s), (after_addEditorMenu windowId s).
    split; [apply addEditorMenu_run; assumption|].
    split; [assumption|]. split; [assumption|]. split; [assumption|].
    split; [|split; [contradiction | reflexivity]].
    rewrite <- E at 1. rewrite <- Hact1. apply setActiveWindow_same.
  - eexists (after_addEditorMenu windowId s), _.
    split; [apply addEditorMenu_run; assumption|].
    split; [assumption|]. split; [assumption|]. split; [assumption|].
    split; [|split; [reflexivity | contradiction]].
    eapply setActiveWindow_stored; [rewrite Hact1; exact E | exact Hget | reflexivity].
Qed.

(** X4: after [removeWindowMenu] the window cannot be looked up or
    activated any more: both calls end in the TypeError of the
    destructuring and change nothing, and nothing is logged. This holds for
    every id but [-1], the value of the active marker when no window is
    active, for which [setActiveWindow] returns at once. *)
Theorem setActiveWindow_after_removeWindowMenu (s : St) (windowId : Z) :
  windowId <> -1 ->
  exists s1,
    removeWindowMenu windowId s = (Ok tt, s1) /\
    getWindowMenuById windowId s1
    = (Throw (TypeError "Cannot destructure property 'menu' of undefined"), s1) /\
    setActiveWindow windowId s1
    = (Throw (TypeError "Cannot destructure property 'menu' of undefined"), s1) /\
    errorLog s1 = errorLog s.
Proof.
  intros Hne.
  destruct (after_removeWindowMenu_fields windowId s) as (Hw & Hact & _ & _ & _ & Hlog).
  set (s1 := after_removeWindowMenu windowId s) in *.
  assert (Hget : Map_get windowId (windowMenus s1) = None)
    by (rewrite Hw; apply Map_get_delete_eq).
  exists s1. split; [apply removeWindowMenu_run|].
  assert (Hlook : getWindowMenuById windowId s1
    = (Throw (TypeError "Cannot destructure property 'menu' of undefined"), s1))
    by (unfold getWindowMenuById, bind, gets; rewrite Hget; reflexivity).
  split; [assumption|]. split; [|assumption].
  assert (Hact1 : (activeWindowId s1 =? windowId) = false).
  { apply Z.eqb_neq. rewrite Hact.
    destruct (activeWindowId s =? windowId) eqn:E; [congruence|].
    apply Z.eqb_neq. exact E. }
  unfold setActiveWindow, bind at 1, gets at 1. rewrite Hact1. cbn [negb].
  unfold bind at 1. rewrite Hlook. reflexivity.
Qed.

(** ** No two windows share a menu object *)

Lemma Map_set_elem {V} (k : Z) (v : V) (m : list (Z * V)) (e : Z * V) :
  e ∈ Map_set k v m -> e = (k, v) \/ e ∈ m.
Proof.
  intros [i Hi]%list_elem_of_lookup_1. destruct e as [k' v'].
  destruct (Map_set_lookup k v m i k' v' Hi) as [[-> ->]|H]; [left; reflexivity|].
  right. eapply list_elem_of_lookup_2. eassumption.
Qed.

Lemma Map_set_fmap_NoDup {V A} (f : V -> A) (k : Z) (v : V) (m : list (Z * V)) :
  NoDup ((fun e => f e.2) <$> m) -> (forall e, e ∈ m -> f e.2 <> f v) ->
  NoDup ((fun e => f e.2) <$> Map_set k v m).
Proof.
  induction m as [|[k' v'] t IH]; intros Hnd Hfresh.
  - cbn. constructor; [apply not_elem_of_nil | constructor].
  - cbn [Map_set]. rewrite fmap_cons in Hnd. apply NoDup_cons in Hnd as [Hv' Ht].
    destruct (k' =? k).
    + rewrite fmap_cons. apply NoDup_cons. split; [|assumption].
      cbn [snd]. intros ((k0 & v0) & E & Hin)%list_elem_of_fmap. cbn [snd] in E.
      apply (Hfresh (k0, v0)); [right; assumption | cbn [snd]; congruence].
    + rewrite fmap_cons. apply NoDup_cons. split.
      * cbn [snd] in *. intros ((k0 & v0) & E & Hin)%list_elem_of_fmap. cbn [snd] in E.
        apply Map_set_elem in Hin as [[= -> ->]|Hin].
        -- apply (Hfresh (k', v')); [left | cbn [snd]; congruence].
        -- apply Hv'. apply list_elem_of_fmap. exists (k0, v0). split; [exact E | assumption].
      * apply IH; [assumption|]. intros e He. apply Hfresh. right. assumption.
Qed.

Lemma Map_delete_sublist {V} (k : Z) (m : list (Z * V)) : Map_delete k m `sublist_of` m.
Proof.
  induction m as [|[k' v'] t IH]; [constructor|].
  cbn. destruct (k' =? k); [apply sublist_cons | apply sublist_skip]; exact IH.
Qed.

Lemma distinct_menus_ext (s s' : St) :
  windowMenus s' = windowMenus s -> distinct_menus s -> distinct_menus s'.
Proof. unfold distinct_menus. intros ->. auto. Qed.

Lemma distinct_menus_addEditorMenu (windowId : Z) (s : St) :
  wf s -> distinct_menus s -> distinct_menus (after_addEditorMenu windowId s).
Proof.
  intros [_ Hent] Hd. destruct (logged_load_frame s) as (Hw & _).
  unfold distinct_menus, after_addEditorMenu.
  cbn [windowMenus set_keyHandlers set_windowMenus]. rewrite ?Hw.
  apply (Map_set_fmap_NoDup menu); [exact Hd|].
  intros [key value] [i Hi]%list_elem_of_lookup_1.
  destruct (Hent i key value Hi) as (o & om & Hv & Ho & _).
  cbn [snd menu]. rewrite Hv. intros [= ->].
  apply lookup_lt_Some in Ho. lia.
Qed.

Lemma distinct_menus_removeWindowMenu (windowId : Z) (s : St) :
  distinct_menus s -> distinct_menus (after_removeWindowMenu windowId s).
Proof.
  intros Hd. unfold distinct_menus.
  rewrite (proj1 (after_removeWindowMenu_fields windowId s)).
  eapply sublist_NoDup; [exact Hd|]. apply fmap_sublist, Map_delete_sublist.
Qed.

Lemma distinct_menus_rebuilt (l : list string) (s s' : St) :
  wf s -> rebuilt_from l 0 s s' -> distinct_menus s'.
Proof.
  intros [_ Hent] (_ & Hkeys & _ & _ & Hafter & _).
  assert (Hnew : forall i x, ((fun e => menu e.2) <$> windowMenus s') !! i = Some x ->
                             x = Some (length (menus s) + i)%nat).
  { intros i x Hi. rewrite list_lookup_fmap in Hi.
    destruct (windowMenus s' !! i) as [e'|] eqn:He'; [|discriminate].
    assert (Hlt : (i < length (windowMenus s))%nat).
    { apply lookup_lt_Some in He'.
      rewrite <- (length_fmap fst (windowMenus s)), <- Hkeys, length_fmap. exact He'. }
    destruct (lookup_lt_is_Some_2 _ _ Hlt) as [[key value] He].
    destruct (Hent i key value He) as (o & om & Hv & Ho & _).
    destruct (Hafter i key value o om) as (n & Hn & -> & _);
      [lia | assumption | assumption | assumption |].
    rewrite Hn in He'. injection He' as <-. cbn in Hi. injection Hi as <-.
    f_equal. lia. }
  apply NoDup_alt. intros i j x Hi Hj.
  apply Hnew in Hi. apply Hnew in Hj. rewrite Hi in Hj. injection Hj. lia.
Qed.

Lemma setActiveWindow_windowMenus (windowId : Z) (s s' : St) (r : outcome unit) :
  setActiveWindow windowId s = (r, s') -> windowMenus s' = windowMenus s.
Proof.
  unfold setActiveWindow, bind at 1, gets at 1.
  destruct (negb (activeWindowId s =? windowId)); [|intros [= <- <-]; reflexivity].
  unfold bind at 1, getWindowMenuById, bind at 1, gets at 1.
  destruct (Map_get windowId (windowMenus s)) as [value|];
    [|intros [= <- <-]; reflexivity].
  destruct (menu value); cbn; intros [= <- <-]; reflexivity.
Qed.

Lemma set_indicator_windowMenus (s : St) (id : string) (v : bool) (r : outcome unit)
    (s' : St) :
  match applicationMenu s with
  | None => (Throw (TypeError "Cannot read property 'getMenuItemById' of null"), s)
  | Some c =>
      match item_at s c id with
      | Some _ => (Ok tt, alter_item (set_checked v) c id s)
      | None => (Throw (TypeError "Cannot set property 'checked' of null"), s)
      end
  end = (r, s') ->
  windowMenus s' = windowMenus s.
Proof. intros [->|[c ->]]%set_indicator_cases; reflexivity. Qed.

(** ** The invariant of the reachable states *)

(** X1: every state the module can reach (construction in a world whose
    visible menu, if any, is a live menu object, then any calls of the
    methods and the setters, whatever their outcome, and clicks on check
    boxes) satisfies the invariant: the window ids stored are distinct, every
    snapshot refers to a live menu object that has the five toggle items,
    the visible menu is a live menu object, and no two windows share a menu
    object. *)
Theorem reachable_inv (s : St) : reachable s -> inv s /\ distinct_menus s.
Proof using template_ok.
  induction 1 as [pf kb w Hw
                 |p s r s' _ [IH IHd] Hrun |s r s' _ [IH IHd] Hrun
                 |w s r s' _ [IH IHd] Hrun |w s r s' _ [IH IHd] Hrun
                 |w s r s' _ [IH IHd] Hrun |l s r s' _ [IH IHd] Hrun
                 |le s r s' _ [IH IHd] Hrun |flag s r s' _ [IH IHd] Hrun
                 |autoSave s r s' _ [IH IHd] Hrun
                 |f m id s _ [IH IHd]].
  - split; [apply inv_constructor; assumption | constructor].
  - split; [destruct (addRecentlyUsedDocument_inv p s IH) as (s0 & H0 & Hinv); congruence|].
    destruct isOsx eqn:Hosx.
    + rewrite addRecentlyUsedDocument_osx in Hrun by assumption.
      injection Hrun as <- <-. exact IHd.
    + destruct IH as [Hwf _]. destruct (pre_add_frame p s) as (Hw & Hm & _).
      destruct (addRecentlyUsedDocument_run p s Hosx Hwf) as (s1 & Hpost & _ & Hrun1).
      rewrite Hrun1 in Hrun. injection Hrun as <- <-.
      assert (Hd1 : distinct_menus s1)
        by (eapply distinct_menus_rebuilt; [|exact Hpost]; eapply wf_ext; eassumption).
      destruct (moveToFront (load (files s)).1 p).2; [|exact Hd1].
      eapply distinct_menus_ext; [|exact Hd1]. reflexivity.
  - split; [destruct (clearRecentlyUsedDocuments_inv s IH) as (s0 & H0 & Hinv); congruence|].
    destruct isOsx eqn:Hosx.
    + rewrite clearRecentlyUsedDocuments_osx in Hrun by assumption.
      injection Hrun as <- <-. exact IHd.
    + destruct IH as [Hwf _].
      destruct (clearRecentlyUsedDocuments_run s Hosx Hwf) as (s1 & Hpost & _ & Hrun1).
      rewrite Hrun1 in Hrun. injection Hrun as <- <-.
      assert (Hwf0 : wf (pre_clear s))
        by (unfold pre_clear; destruct isOsxOrWindows;
            [eapply wf_ext; [| |exact Hwf]; reflexivity | exact Hwf]).
      eapply distinct_menus_ext; [|eapply distinct_menus_rebuilt; [exact Hwf0 | exact Hpost]].
      reflexivity.
  - split; [destruct (addEditorMenu_inv w s IH) as (s0 & H0 & Hinv); congruence|].
    rewrite addEditorMenu_run in Hrun by apply IH. injection Hrun as <- <-.
    apply distinct_menus_addEditorMenu; [apply IH | exact IHd].
  - split; [destruct (removeWindowMenu_inv w s IH) as (s0 & H0 & Hinv); congruence|].
    rewrite removeWindowMenu_run in Hrun. injection Hrun as <- <-.
    apply distinct_menus_removeWindowMenu. exact IHd.
  - split; [eapply setActiveWindow_inv; eassumption|].
    eapply distinct_menus_ext; [eapply setActiveWindow_windowMenus; eassumption | exact IHd].
  - split; [destruct (updateAppMenu_inv l s IH) as (s0 & H0 & Hinv); congruence|].
    destruct IH as [Hwf _]. destruct l as [l|].
    + destruct (updateAppMenu_Some l s Hwf) as (s1 & Hrun1 & Hpost & _).
      rewrite Hrun1 in Hrun. injection Hrun as <- <-.
      eapply distinct_menus_rebuilt; eassumption.
    + destruct (updateAppMenu_None s Hwf) as (s1 & Hrun1 & Hpost & _).
      rewrite Hrun1 in Hrun. injection Hrun as <- <-.
      destruct (logged_load_frame s) as (Hw & Hm & _).
      eapply distinct_menus_rebuilt; [|exact Hpost]. eapply wf_ext; eassumption.
  - rewrite updateLineEndingMenu_run in Hrun.
    split; [eapply set_indicator_inv; [exact IH | exact Hrun]|].
    eapply distinct_menus_ext; [eapply set_indicator_windowMenus; exact Hrun | exact IHd].
  - rewrite updateAlwaysOnTopMenu_run in Hrun.
    split; [eapply set_indicator_inv; [exact IH | exact Hrun]|].
    eapply distinct_menus_ext; [eapply set_indicator_windowMenus; exact Hrun | exact IHd].
  - rewrite updateAutoSaveMenu_run in Hrun.
    split; [eapply set_indicator_inv; [exact IH | exact Hrun]|].
    eapply distinct_menus_ext; [eapply set_indicator_windowMenus; exact Hrun | exact IHd].
  - split; [apply inv_alter_item; assumption | exact IHd].
Qed.

(** ** What the indicator setters do *)

(** X5: [updateAlwaysOnTopMenu] and [updateAutoSaveMenu] write to the
    visible menu only. With no visible menu, and with a visible menu that
    lacks the item, they throw a TypeError and leave the state as it was.
    Otherwise they succeed and set the [checked] flag of their item of the
    visible menu object to the argument: every other item of every menu
    object, the snapshots, the visible menu and the rest of the state are
    as before. *)
Theorem updateAlwaysOnTopMenu_effect :
  sets_indicator updateAlwaysOnTopMenu alwaysOnTopMenuItem /\
  sets_indicator updateAutoSaveMenu autoSaveMenuItem.
Proof.
  assert (H : forall id v (s : St),
    match applicationMenu s with
    | None => True
    | Some c =>
        match item_at s c id with
        | None => True
        | Some it =>
            item_at (alter_item (set_checked v) c id s) c id = Some (set_checked v it) /\
            (forall r id', (r, id') <> (c, id) ->
               item_at (alter_item (set_checked v) c id s) r id' = item_at s r id') /\
            windowMenus (alter_item (set_checked v) c id s) = windowMenus s /\
            applicationMenu (alter_item (set_checked v) c id s) = applicationMenu s /\
            same_frame s (alter_item (set_checked v) c id s)
        end
    end).
  { intros id v s. destruct (applicationMenu s) as [c|] eqn:Hc; [|exact I].
    destruct (item_at s c id) as [it|] eqn:Hit; [|exact I].
    split; [rewrite item_at_alter_item_eq, Hit; reflexivity|].
    split; [intros r id' Hne; apply item_at_alter_item_ne; assumption|].
    split; [reflexivity|]. split; [exact Hc|]. repeat split. }
  split; intros s v.
  - rewrite updateAlwaysOnTopMenu_run. specialize (H alwaysOnTopMenuItem v s).
    destruct (applicationMenu s) as [c|]; [|reflexivity].
    destruct (item_at s c alwaysOnTopMenuItem); [|reflexivity].
    eexists. split; [reflexivity | exact H].
  - rewrite updateAutoSaveMenu_run. specialize (H autoSaveMenuItem v s).
    destruct (applicationMenu s) as [c|]; [|reflexivity].
    destruct (item_at s c autoSaveMenuItem); [|reflexivity].
    eexists. split; [reflexivity | exact H].
Qed.


(** Reading an indicator of the visible menu through the exported
    [getMenuItemById]. *)
Lemma read_indicator (s : St) (c : nat) (id : string) (it : MenuItem) :
  applicationMenu s = Some c -> item_at s c id = Some it ->
  (let* item := exported_getMenuItemById id in read_checked item) s = (Ok (checked it), s).
Proof.
  intros Hc Hit.
  unfold exported_getMenuItemById, bind, Menu_getApplicationMenu, gets. rewrite Hc.
  cbn. rewrite Hit. cbn. unfold gets. rewrite Hit. reflexivity.
Qed.

(** X7: the always-on-top indicator is kept per window. After window [a]
    is activated and its indicator set, activating another window [b] shows
    [b]'s own menu, whose indicator is as it was; activating [a] again makes
    [a]'s menu object visible again, and the exported [getMenuItemById]
    finds the indicator there as it was set. *)
Theorem updateAlwaysOnTopMenu_per_window (s : St) (a b : Z)
    (va vb : WindowMenu ShortcutMap) (ma mb : nat) (it : MenuItem) (flag : bool) :
  activeWindowId s <> a -> a <> b ->
  Map_get a (windowMenus s) = Some va -> menu va = Some ma ->
  Map_get b (windowMenus s) = Some vb -> menu vb = Some mb ->
  ma <> mb ->
  item_at s ma alwaysOnTopMenuItem = Some it ->
  exists s1 s2 s3 s4,
    setActiveWindow a s = (Ok tt, s1) /\
    updateAlwaysOnTopMenu flag s1 = (Ok tt, s2) /\
    setActiveWindow b s2 = (Ok tt, s3) /\
    applicationMenu s3 = Some mb /\
    item_at s3 mb alwaysOnTopMenuItem = item_at s mb alwaysOnTopMenuItem /\
    setActiveWindow a s3 = (Ok tt, s4) /\
    applicationMenu s4 = Some ma /\
    (let* item := exported_getMenuItemById alwaysOnTopMenuItem in read_checked item) s4
    = (Ok flag, s4).
Proof.
  intros Hact Hab Ha Hma Hb Hmb Hne Hit.
  eexists _, _, _, _.
  split; [eapply setActiveWindow_stored; eassumption|].
  split.
  { rewrite updateAlwaysOnTopMenu_run. cbn [applicationMenu set_activeWindowId set_applicationMenu].
    change (item_at (set_activeWindowId a (set_applicationMenu (Some ma) s)) ma
              alwaysOnTopMenuItem) with (item_at s ma alwaysOnTopMenuItem).
    rewrite Hit. reflexivity. }
  split; [eapply setActiveWindow_stored; [exact Hab | exact Hb | exact Hmb]|].
  split; [reflexivity|].
  split.
  { change (item_at (alter_item (set_checked flag) ma alwaysOnTopMenuItem s) mb
              alwaysOnTopMenuItem = item_at s mb alwaysOnTopMenuItem).
    apply item_at_alter_item_ne. congruence. }
  split; [eapply setActiveWindow_stored; [cbn; congruence | exact Ha | exact Hma]|].
  split; [reflexivity|].
  apply (read_indicator _ ma alwaysOnTopMenuItem (set_checked flag it)); [reflexivity|].
  change (item_at (alter_item (set_checked flag) ma alwaysOnTopMenuItem s) ma
            alwaysOnTopMenuItem = Some (set_checked flag it)).
  rewrite item_at_alter_item_eq, Hit. reflexivity.
Qed.

(** ** Rebuilds and the visible menu *)

Lemma indicators_not_toggles (id : string) : id ∈ indicators -> id ∉ toggles.
Proof.
  unfold indicators. rewrite !elem_of_cons, elem_of_nil.
  intros [->|[->|[->|[->|[]]]]]; apply (bool_decide_unpack _); vm_compute; exact I.
Qed.

(** X8: what a setter wrote does not survive a rebuild. After any of the
    three setters, whatever its outcome, [updateAppMenu] gives the active
    window a new menu object and makes it the visible menu; there the
    always-on-top, auto-save and line-ending items are exactly as the
    template built them, whatever the setter had written. *)
Theorem indicators_reset_by_updateAppMenu (s s1 : St) (value : WindowMenu ShortcutMap)
    (l : list string) (flag : bool) (lineEnding : string) (r : outcome unit) :
  inv s ->
  Map_get (activeWindowId s) (windowMenus s) = Some value ->
  updateAlwaysOnTopMenu flag s = (r, s1) \/ updateAutoSaveMenu flag s = (r, s1) \/
    updateLineEndingMenu lineEnding s = (r, s1) ->
  exists s2 n tree,
    updateAppMenu (Some l) s1 = (Ok tt, s2) /\
    applicationMenu s2 = Some n /\ menus s2 !! n = Some tree /\
    forall id, id ∈ indicators -> tree !! id = built l s !! id.
Proof using template_ok.
  intros Hinv Hget Hset.
  assert (Hs1 : s1 = s \/ exists c id v, s1 = alter_item (set_checked v) c id s).
  { destruct Hset as [H|[H|H]].
    - rewrite updateAlwaysOnTopMenu_run in H.
      apply set_indicator_cases in H as [->|[c ->]]; eauto.
    - rewrite updateAutoSaveMenu_run in H.
      apply set_indicator_cases in H as [->|[c ->]]; eauto.
    - rewrite updateLineEndingMenu_run in H.
      apply set_indicator_cases in H as [->|[c ->]]; eauto. }
  assert (Hinv1 : inv s1)
    by (destruct Hs1 as [->|(c & id & v & ->)]; [assumption | apply inv_alter_item; assumption]).
  assert (Hsame : windowMenus s1 = windowMenus s /\ activeWindowId s1 = activeWindowId s /\
                  built l s1 = built l s)
    by (destruct Hs1 as [->|(c & id & v & ->)]; repeat split).
  destruct Hsame as (Hw & Hact & Hb).
  destruct Hinv1 as [Hwf1 _].
  destruct (updateAppMenu_Some l s1 Hwf1) as (s2 & Hrun & Hpost & _).
  rewrite <- Hact, <- Hw in Hget.
  destruct (Map_get_lookup _ _ _ Hget) as [i Hi].
  destruct (proj2 Hwf1 i _ _ Hi) as (o & om & Hv & Ho & _).
  destruct (rebuilt_entry l s1 s1 s2 Hwf1 eq_refl eq_refl eq_refl eq_refl eq_refl Hpost
              i _ _ o om Hi Hv Ho)
    as (n & tree & _ & _ & Hn & _ & _ & _ & Hother & Hvis).
  exists s2, n, tree. split; [assumption|]. split; [auto|]. split; [assumption|].
  intros id Hid. rewrite <- Hb. apply Hother, indicators_not_toggles, Hid.
Qed.

(** X9: destroying the active window does not take its menu off the
    screen. [removeWindowMenu] of the active window resets the marker to
    [-1] and leaves the visible menu installed; a rebuild afterwards
    replaces no visible menu and leaves that menu object as it was, so a
    setter called then has the outcome it would have had before the
    window was destroyed. (No window is stored under the id [-1].) *)
Theorem removeWindowMenu_keeps_visible_menu (s : St) (l : list string) :
  inv s -> Map_get (-1) (windowMenus s) = None ->
  exists s1 s2,
    removeWindowMenu (activeWindowId s) s = (Ok tt, s1) /\
    activeWindowId s1 = -1 /\ applicationMenu s1 = applicationMenu s /\
    updateAppMenu (Some l) s1 = (Ok tt, s2) /\
    applicationMenu s2 = applicationMenu s /\
    (forall c id, applicationMenu s = Some c -> item_at s2 c id = item_at s c id) /\
    forall flag, (updateAlwaysOnTopMenu flag s2).1 = (updateAlwaysOnTopMenu flag s).1.
Proof using template_ok.
  intros Hinv Hfree.
  destruct (removeWindowMenu_inv (activeWindowId s) s Hinv) as (s1' & Hrun' & Hinv1).
  rewrite removeWindowMenu_run in Hrun'. injection Hrun' as <-.
  destruct (after_removeWindowMenu_fields (activeWindowId s) s)
    as (Hw1 & Hact1 & Ha1 & Hm1 & _).
  rewrite Z.eqb_refl in Hact1.
  set (s1 := after_removeWindowMenu (activeWindowId s) s) in *.
  destruct Hinv1 as [Hwf1 Hvis1].
  destruct (updateAppMenu_Some l s1 Hwf1) as (s2 & Hrun & Hpost & _).
  destruct Hpost as (_ & _ & _ & Hheap & _ & Happ).
  assert (Ha2 : applicationMenu s2 = applicationMenu s).
  { rewrite <- Ha1. apply Happ. intros j key value _ Hj. rewrite Hact1.
    rewrite Hw1 in Hj. apply list_elem_of_lookup_2, Map_delete_elem in Hj.
    apply list_elem_of_lookup_1 in Hj as [j' Hj'].
    eapply Map_get_None; eassumption. }
  assert (Hitem : forall c id, applicationMenu s = Some c ->
                               item_at s2 c id = item_at s c id).
  { intros c id Hc. destruct Hinv as [_ Hvis].
    destruct (lookup_lt_is_Some_2 (menus s) c (Hvis c Hc)) as [m Hm].
    unfold item_at. rewrite Hm, (Hheap c m); [reflexivity|].
    rewrite Hm1. exact Hm. }
  exists s1, s2. split; [apply removeWindowMenu_run|].
  split; [assumption|]. split; [assumption|]. split; [assumption|].
  split; [assumption|]. split; [assumption|].
  intros flag. rewrite !updateAlwaysOnTopMenu_run, Ha2.
  destruct (applicationMenu s) as [c|] eqn:Hc; [|reflexivity].
  rewrite (Hitem c alwaysOnTopMenuItem eq_refl).
  destruct (item_at s c alwaysOnTopMenuItem); reflexivity.
Qed.

(** X10: [updateAppMenu] changes the window menus, the menu objects and
    the visible menu, and nothing else: the preferences, the key bindings,
    the active marker, the native list, the registered key handlers (none
    is registered for the new menus), the file system, the writes and the
    log are as before. Menu objects that exist are not modified. When the
    active marker names no stored window the visible menu is not replaced,
    and when no window is stored the state is left as it was. *)
Theorem updateAppMenu_frame (s : St) (l : list string) :
  wf s ->
  exists s',
    updateAppMenu (Some l) s = (Ok tt, s') /\
    same_frame s s' /\
    (forall r m, menus s !! r = Some m -> menus s' !! r = Some m) /\
    (Map_get (activeWindowId s) (windowMenus s) = None ->
       applicationMenu s' = applicationMenu s) /\
    (windowMenus s = [] -> s' = s).
Proof using template_ok.
  intros Hwf.
  destruct (updateAppMenu_Some l s Hwf) as (s' & Hrun & Hpost & _).
  exists s'. split; [assumption|].
  destruct Hpost as (Hframe & _ & _ & Hheap & _ & Happ).
  split; [assumption|]. split; [assumption|]. split.
  - intros Hnone. apply Happ. intros j key value _ Hj.
    eapply Map_get_None; eassumption.
  - intros Hnil.
    assert (Hs : updateAppMenu (Some l) s = (Ok tt, s))
      by (unfold updateAppMenu, bind, gets, ret; rewrite Hnil; reflexivity).
    congruence.
Qed.

Lemma checked_alter_set_enabled (v : bool) (id id' : string) (b : Menu) :
  checked <$> alter (set_enabled v) id b !! id' = checked <$> b !! id'.
Proof.
  destruct (decide (id = id')) as [->|Hne].
  - rewrite lookup_alter_eq. destruct (b !! id'); reflexivity.
  - rewrite lookup_alter_ne by assumption. reflexivity.
Qed.

(** X11: creating a window menu activates nothing and disturbs no other
    window. The visible menu and the active marker are as before, the
    existing menu objects are not modified, exactly one menu object is
    added, the snapshots of the other windows are as before, one key
    handler registration is made, for the new window, and nothing is
    written to the file system. In the new tree only the source-code-mode
    and typewriter-mode items may have a [checked] flag other than the
    template's: focus mode in particular is not carried over from the
    visible menu. *)
Theorem addEditorMenu_frame (s : St) (windowId : Z) :
  visible_ok s ->
  exists s' tree,
    addEditorMenu windowId s = (Ok tt, s') /\
    applicationMenu s' = applicationMenu s /\ activeWindowId s' = activeWindowId s /\
    (forall r m, menus s !! r = Some m -> menus s' !! r = Some m) /\
    length (menus s') = S (length (menus s)) /\
    (forall k, k <> windowId -> Map_get k (windowMenus s') = Map_get k (windowMenus s)) /\
    keyHandlers s'
    = keyHandlers s ++
        [(windowId,
          Some (parseMenu (configureMenu (_keybindings s) (_preferences s)
                             (load (files s)).1)))] /\
    files s' = files s /\ writes s' = writes s /\
    menus s' !! length (menus s) = Some tree /\
    (forall id, id <> sourceCodeModeMenuItem -> id <> typewriterModeMenuItem ->
       checked <$> tree !! id = checked <$> built (load (files s)).1 s !! id).
Proof using template_ok.
  intros Hvis.
  destruct (logged_load_frame s) as (Hw & Hm & Ha & Hact & _ & _ & Hf & Hwr).
  destruct (after_addEditorMenu_tree windowId s) as [_ Htree].
  assert (Hkh : keyHandlers (logged_load s) = keyHandlers s)
    by (unfold logged_load; destruct (load (files s)).2; reflexivity).
  eexists (after_addEditorMenu windowId s), _.
  split; [apply addEditorMenu_run; assumption|].
  unfold after_addEditorMenu in *.
  cbn [applicationMenu activeWindowId menus windowMenus keyHandlers files writes
       set_keyHandlers set_windowMenus set_menus] in *.
  split; [assumption|]. split; [assumption|].
  split; [intros r m Hr; rewrite ?Hm; apply lookup_app_l_Some; assumption|].
  split; [rewrite ?Hm, length_app; cbn; lia|].
  split; [intros k Hk; rewrite ?Hw; apply Map_get_set_ne; assumption|].
  split; [rewrite ?Hkh; reflexivity|].
  split; [assumption|]. split; [assumption|].
  split; [exact Htree|].
  intros id Hs Ht. unfold editor_menu.
  destruct (carried s sourceCodeModeMenuItem).
  - rewrite !checked_alter_set_enabled, !lookup_alter_ne by congruence. reflexivity.
  - rewrite !lookup_alter_ne by congruence. reflexivity.
Qed.

(** ** More on the recently used documents *)

Lemma logged_load_rest (s : St) :
  nativeRecentDocuments (logged_load s) = nativeRecentDocuments s /\
  keyHandlers (logged_load s) = keyHandlers s.
Proof. unfold logged_load. destruct (load (files s)).2; split; reflexivity. Qed.

(** X12: the native list of the operating system. An add registers the
    path with the operating system exactly when the platform is macOS or
    Windows, and on Linux leaves that list alone; it never changes the
    active marker or the key handlers. On macOS the registration is all it
    does: the snapshots, the menu objects, the file system and the log are
    as before. *)
Theorem addRecentlyUsedDocument_native (s : St) (p : string) :
  wf s ->
  exists s',
    addRecentlyUsedDocument p s = (Ok tt, s') /\
    nativeRecentDocuments s'
    = (if isOsxOrWindows then nativeRecentDocuments s ++ [p]
       else nativeRecentDocuments s) /\
    activeWindowId s' = activeWindowId s /\ keyHandlers s' = keyHandlers s /\
    (isOsx = true ->
       s' = set_nativeRecentDocuments (nativeRecentDocuments s ++ [p]) s).
Proof using template_ok.
  intros Hwf. destruct isOsx eqn:Hosx.
  - eexists. split; [apply addRecentlyUsedDocument_osx; assumption|].
    rewrite (isOsx_isOsxOrWindows Hosx). repeat split.
  - destruct (addRecentlyUsedDocument_run p s Hosx Hwf) as (s1 & Hpost & _ & Hrun).
    destruct Hpost as ((_ & _ & Hact & Hnat & Hkh & _) & _).
    destruct (pre_add_frame p s) as (_ & _ & _ & Hact0 & _).
    assert (Hpre : nativeRecentDocuments (pre_add p s)
                   = (if isOsxOrWindows then nativeRecentDocuments s ++ [p]
                      else nativeRecentDocuments s) /\
                   keyHandlers (pre_add p s) = keyHandlers s).
    { unfold pre_add.
      destruct (logged_load_rest
                  (if isOsxOrWindows
                   then set_nativeRecentDocuments (nativeRecentDocuments s ++ [p]) s
                   else s)) as [-> ->].
      destruct isOsxOrWindows; split; reflexivity. }
    destruct Hpre as [Hnat0 Hkh0].
    eexists. split; [exact Hrun|].
    assert (H1 : nativeRecentDocuments s1
                 = (if isOsxOrWindows then nativeRecentDocuments s ++ [p]
                    else nativeRecentDocuments s) /\
                 activeWindowId s1 = activeWindowId s /\ keyHandlers s1 = keyHandlers s)
      by (repeat split; congruence).
    destruct (moveToFront (load (files s)).1 p).2;
      (split; [apply H1|]; split; [apply H1|]; split; [apply H1 | discriminate]).
Qed.

Lemma indexOf_head (x : string) (t : list string) : indexOf (x :: t) x = 0.
Proof. unfold indexOf. cbn. rewrite String.eqb_refl. reflexivity. Qed.

(** X13: adding the same path twice in a row. When the path exists, the
    first add leaves it at the head of the list, and the second add then
    finds it at index 0: it succeeds, writes nothing, and leaves the file
    system and the list a load returns as the first add left them. *)
Theorem addRecentlyUsedDocument_twice (s : St) (p : string) :
  isOsx = false -> wf s -> p <> "" -> exists_path (files s) p = true ->
  exists s1 s2,
    addRecentlyUsedDocument p s = (Ok tt, s1) /\
    hd_error (load (files s1)).1 = Some p /\
    addRecentlyUsedDocument p s1 = (Ok tt, s2) /\
    files s2 = files s1 /\ writes s2 = writes s1.
Proof using roundtrip template_ok.
  intros Hosx Hwf Hne Hex.
  destruct (addRecentlyUsedDocument_load p s Hosx Hwf Hne Hex)
    as (s1 & Hrun1 & Hwf1 & Hload & _).
  rewrite moveToFront_fst in Hload.
  destruct (addRecentlyUsedDocument_run p s1 Hosx Hwf1) as (s2 & Hpost & _ & Hrun2).
  destruct Hpost as ((_ & _ & _ & _ & _ & Hf & Hw & _) & _).
  destruct (pre_add_frame p s1) as (_ & _ & _ & _ & _ & _ & Hf0 & Hw0).
  destruct (moveToFront_cases (load (files s1)).1 p (load_length _)) as (C0 & _).
  rewrite C0 in Hrun2 by (rewrite Hload; apply indexOf_head).
  cbn [snd] in Hrun2.
  exists s1, s2. split; [assumption|]. split; [rewrite Hload; reflexivity|].
  split; [assumption|]. split; congruence.
Qed.

Lemma remove_first_NoDup (x : string) (l : list string) :
  NoDup l -> NoDup (remove_first x l) /\ x ∉ remove_first x l.
Proof.
  induction 1 as [|y t Hy Ht IH]; cbn [remove_first].
  - split; [constructor | apply not_elem_of_nil].
  - destruct (String.eqb_spec y x) as [->|Hne]; [split; assumption|].
    destruct IH as [IH1 IH2]. split.
    + constructor; [|assumption]. intros Hin. apply Hy.
      eapply remove_first_elem. eassumption.
    + intros [E|Hin]%elem_of_cons; [congruence | contradiction].
Qed.

Lemma moveToFront_NoDup (l : list string) (x : string) :
  NoDup l -> NoDup (moveToFront l x).1.
Proof.
  intros Hl. rewrite moveToFront_fst.
  destruct (remove_first_NoDup x l Hl) as [Hnd Hx].
  constructor.
  - intros Hin. apply Hx. eapply elem_of_sublist; [exact Hin | apply sublist_take].
  - eapply sublist_NoDup; [exact Hnd | apply sublist_take].
Qed.

Lemma omap_keep_sublist (fs : gmap string node) (l : list string) :
  omap (keep_entry fs) (JString <$> l) `sublist_of` l.
Proof.
  induction l as [|p l IH]; [constructor|].
  cbn [fmap list_fmap omap list_omap keep_entry].
  destruct (negb (String.eqb p "") && (is_file fs p || is_directory fs p)).
  - apply sublist_skip. exact IH.
  - apply sublist_cons. exact IH.
Qed.

(** X14: an add never introduces a duplicate. The array it computes from
    a list without duplicates has none, and, when the list a load returns is
    free of duplicates before the add, so is the list a load returns after
    it. The path added need not exist. *)
Theorem addRecentlyUsedDocument_NoDup (s : St) (p : string) :
  isOsx = false -> wf s -> NoDup (load (files s)).1 ->
  NoDup (moveToFront (load (files s)).1 p).1 /\
  exists s', addRecentlyUsedDocument p s = (Ok tt, s') /\ NoDup (load (files s')).1.
Proof using roundtrip template_ok.
  intros Hosx Hwf Hnd.
  pose proof (moveToFront_NoDup _ p Hnd) as Hnd'.
  split; [assumption|].
  destruct (addRecentlyUsedDocument_run p s Hosx Hwf) as (s1 & Hpost & _ & Hrun).
  destruct Hpost as ((_ & _ & _ & _ & _ & Hf & _) & _).
  destruct (pre_add_frame p s) as (_ & _ & _ & _ & _ & _ & Hf0 & _).
  eexists. split; [exact Hrun|].
  destruct (moveToFront (load (files s)).1 p) as [l' needSave]. cbn [fst snd] in *.
  destruct needSave.
  - unfold load. rewrite persist_lookup, roundtrip. cbn [fst].
    rewrite truncate_take.
    eapply sublist_NoDup; [exact Hnd'|].
    etransitivity; [apply sublist_take | apply omap_keep_sublist].
  - rewrite Hf, Hf0. assumption.
Qed.

(** X15: loading the list reads only. [getRecentlyUsedDocuments] always
    returns; the one part of the state it may change is the log, to which it
    adds at most one entry, and then it returns the empty list. When no
    regular file is at the persisted path (nothing there, or a directory) it
    returns the empty list and leaves the state, log included, as it was. A
    second call returns the same list as the first. *)
Theorem getRecentlyUsedDocuments_read_only (s : St) :
  exists l s',
    getRecentlyUsedDocuments s = (Ok l, s') /\
    set_errorLog (errorLog s) s' = s /\
    (errorLog s' = errorLog s \/
     exists e, errorLog s' = errorLog s ++ [LogExn e] /\ l = []) /\
    (is_file (files s) RECENTS_PATH = false -> l = [] /\ s' = s) /\
    (getRecentlyUsedDocuments s').1 = Ok l.
Proof.
  exists (load (files s)).1, (logged_load s).
  split; [apply getRecentlyUsedDocuments_eq|].
  assert (Hfiles : files (logged_load s) = files s) by apply logged_load_frame.
  split; [|split; [|split]].
  - unfold logged_load. destruct (load (files s)).2; destruct s; reflexivity.
  - unfold logged_load. destruct (load (files s)) as [l [e|]] eqn:Hl; cbn [fst snd].
    + right. exists e. split; [reflexivity|].
      destruct l; [reflexivity|].
      assert (H : (load (files s)).2 = None) by (apply load_snd; rewrite Hl; discriminate).
      rewrite Hl in H. discriminate.
    + left. reflexivity.
  - intros Hfile. unfold logged_load, load. unfold is_file in Hfile.
    destruct (files s !! RECENTS_PATH) as [[text|]|]; [discriminate| |]; split; reflexivity.
  - rewrite getRecentlyUsedDocuments_eq, Hfiles. reflexivity.
Qed.

(** ** A rebuild that fails *)

Lemma bind_Throw {A B} (c : Op A) (k : A -> Op B) (s s' : St) (e : exn) :
  c s = (Throw e, s') -> bind c k s = (Throw e, s').
Proof. intros H. unfold bind. rewrite H. reflexivity. Qed.

Lemma updateMenuItem_missing (s : St) (o n : nat) (om : Menu) (id : string) :
  menus s !! o = Some om -> om !! id = None ->
  updateMenuItem (Some o) (Some n) id s
  = (Throw (TypeError "Cannot read property 'checked' of null"), s).
Proof.
  intros Ho Hid. unfold updateMenuItem, bind, getMenuItemById, gets, item_at.
  rewrite Ho, Hid. destruct (menus s !! n) as [mn|]; [destruct (mn !! id)|]; reflexivity.
Qed.

Lemma updateAppMenu_missing (l : list string) (s : St) (key : Z)
    (value : WindowMenu ShortcutMap) (rest : list (Z * WindowMenu ShortcutMap))
    (o : nat) (om : Menu) :
  windowMenus s = (key, value) :: rest -> menu value = Some o ->
  menus s !! o = Some om -> om !! sourceCodeModeMenuItem = None ->
  updateAppMenu (Some l) s
  = (Throw (TypeError "Cannot read property 'checked' of null"),
     set_menus (menus s ++ [built l s]) s).
Proof.
  intros Hw Hv Ho Hid.
  unfold updateAppMenu, bind at 1, ret, bind at 1, gets at 1. rewrite Hw.
  cbn [length forEach_windowMenus]. unfold bind at 1, gets at 1. rewrite Hw.
  cbn [lookup list_lookup]. apply bind_Throw.
  unfold rebuildWindowMenu, buildDefaultMenu. rewrite Hv.
  unfold bind at 1. unfold bind at 1. cbn [ret].
  unfold bind at 1. cbn [gets]. unfold bind at 1. cbn [gets].
  unfold bind at 1. cbn [Menu_buildFromTemplate ret menu].
  fold (built l s).
  apply bind_Throw. apply updateMenuItem_missing with (om := om); [|assumption].
  cbn [menus set_menus]. apply lookup_app_l_Some. assumption.
Qed.

(** X16: the list is persisted only after the menus were rebuilt, so an
    add whose rebuild fails persists nothing. When the menu of the first
    stored window has no source-code-mode item, the add ends in a TypeError:
    the file system and the record of writes are as before, although the
    array may have changed, no snapshot is replaced and the visible menu
    stays; the one menu object built before the failure remains, and the
    registration with the operating system has already been made. *)
Theorem addRecentlyUsedDocument_rebuild_failure (s : St) (p : string) (key : Z)
    (value : WindowMenu ShortcutMap) (rest : list (Z * WindowMenu ShortcutMap))
    (o : nat) (om : Menu) :
  isOsx = false ->
  windowMenus s = (key, value) :: rest -> menu value = Some o ->
  menus s !! o = Some om -> om !! sourceCodeModeMenuItem = None ->
  exists msg s',
    addRecentlyUsedDocument p s = (Throw (TypeError msg), s') /\
    files s' = files s /\ writes s' = writes s /\
    windowMenus s' = windowMenus s /\ applicationMenu s' = applicationMenu s /\
    menus s' = menus s ++ [built (moveToFront (load (files s)).1 p).1 s] /\
    nativeRecentDocuments s'
    = (if isOsxOrWindows then nativeRecentDocuments s ++ [p]
       else nativeRecentDocuments s).
Proof.
  intros Hosx Hw Hv Ho Hid.
  destruct (pre_add_frame p s) as (Hw0 & Hm0 & Ha0 & _ & Hp0 & Hk0 & Hf0 & Hwr0).
  assert (Hnat : nativeRecentDocuments (pre_add p s)
                 = (if isOsxOrWindows then nativeRecentDocuments s ++ [p]
                    else nativeRecentDocuments s)).
  { unfold pre_add.
    destruct (logged_load_rest
                (if isOsxOrWindows
                 then set_nativeRecentDocuments (nativeRecentDocuments s ++ [p]) s
                 else s)) as [-> _].
    destruct isOsxOrWindows; reflexivity. }
  assert (Hpre : forall (k : list string -> Op unit),
    (do (if isOsxOrWindows then app_addRecentDocument p else ret tt) then
     let* recentDocuments := getRecentlyUsedDocuments in k recentDocuments) s
    = k (load (files s)).1 (pre_add p s)).
  { intros k. unfold pre_add, bind at 1.
    destruct isOsxOrWindows; cbn [app_addRecentDocument modify ret];
      unfold bind at 1; rewrite getRecentlyUsedDocuments_eq; reflexivity. }
  exists "Cannot read property 'checked' of null"%string,
    (set_menus (menus (pre_add p s)
                  ++ [built (moveToFront (load (files s)).1 p).1 (pre_add p s)])
       (pre_add p s)).
  split.
  { unfold addRecentlyUsedDocument. rewrite Hosx, Hpre.
    destruct (moveToFront (load (files s)).1 p) as [l needSave]. cbn [fst].
    apply bind_Throw.
    apply updateAppMenu_missing with (key := key) (value := value) (rest := rest)
                                     (o := o) (om := om); congruence. }
  cbn [files writes windowMenus applicationMenu menus nativeRecentDocuments set_menus].
  assert (Hb : forall l, built l (pre_add p s) = built l s)
    by (intros l; unfold built; rewrite Hp0, Hk0; reflexivity).
  rewrite Hb, Hm0. repeat split; assumption.
Qed.

(** ** Lookups on well-formed snapshots *)

(** X17: on well-formed snapshots, which is what every reachable state
    has, the guard of [getWindowMenuById] against a snapshot without menu
    is never taken. A lookup either returns the menu object of the stored
    snapshot, which is live, or ends in the TypeError of the destructuring
    because nothing is stored; either way the state, log included, is as
    before. Accordingly [setActiveWindow] never logs and ends either
    normally or in that TypeError. *)
Theorem getWindowMenuById_well_formed (s : St) (windowId : Z) :
  wf s ->
  match Map_get windowId (windowMenus s) with
  | Some value =>
      exists m, menu value = Some m /\ is_Some (menus s !! m) /\
                getWindowMenuById windowId s = (Ok m, s)
  | None =>
      getWindowMenuById windowId s
      = (Throw (TypeError "Cannot destructure property 'menu' of undefined"), s)
  end /\
  forall r s', setActiveWindow windowId s = (r, s') ->
    errorLog s' = errorLog s /\
    (r = Ok tt \/
     r = Throw (TypeError "Cannot destructure property 'menu' of undefined") /\ s' = s).
Proof.
  intros [_ Hent].
  assert (Hlook :
    match Map_get windowId (windowMenus s) with
    | Some value =>
        exists m, menu value = Some m /\ is_Some (menus s !! m) /\
                  getWindowMenuById windowId s = (Ok m, s)
    | None =>
        getWindowMenuById windowId s
        = (Throw (TypeError "Cannot destructure property 'menu' of undefined"), s)
    end).
  { destruct (Map_get windowId (windowMenus s)) as [value|] eqn:Hget.
    - destruct (Map_get_lookup _ _ _ Hget) as [i Hi].
      destruct (Hent i windowId value Hi) as (o & om & Hv & Ho & _).
      exists o. split; [assumption|]. split; [eauto|].
      eapply getWindowMenuById_stored; eassumption.
    - unfold getWindowMenuById, bind, gets. rewrite Hget. reflexivity. }
  split; [exact Hlook|].
  intros r s'. unfold setActiveWindow, bind at 1, gets at 1.
  destruct (negb (activeWindowId s =? windowId)); [|intros [= <- <-]; auto].
  unfold bind at 1.
  destruct (Map_get windowId (windowMenus s)) as [value|].
  - destruct Hlook as (m & _ & _ & ->). cbn. intros [= <- <-]. auto.
  - rewrite Hlook. intros [= <- <-]. auto.
Qed.

(** ** A clear followed by an add *)

(** X18: after the list was cleared, an add of an existing path starts
    from the empty list: on a platform that keeps the explicit list, the
    file then holds exactly that path and a load returns the list of that
    one path, whatever was persisted before the clear. *)
Theorem clearRecentlyUsedDocuments_then_add (s : St) (p : string) :
  isOsx = false -> wf s -> p <> "" -> exists_path (files s) p = true ->
  exists s1 s2,
    clearRecentlyUsedDocuments s = (Ok tt, s1) /\
    addRecentlyUsedDocument p s1 = (Ok tt, s2) /\
    files s2 !! RECENTS_PATH = Some (File (JSON_stringify [p])) /\
    getRecentlyUsedDocuments s2 = (Ok [p], s2).
Proof using roundtrip template_ok.
  intros Hosx Hwf Hne Hex.
  destruct (clearRecentlyUsedDocuments_run s Hosx Hwf) as (s0 & Hpost & Hwf0 & Hrun1).
  destruct Hpost as ((_ & _ & _ & _ & _ & Hf0 & _) & _).
  assert (Hf0' : files s0 = files s)
    by (rewrite Hf0; unfold pre_clear; destruct isOsxOrWindows; reflexivity).
  set (s1 := persist [] s0) in *.
  assert (Hwf1 : wf s1) by (eapply wf_ext; [| |exact Hwf0]; reflexivity).
  assert (Hex1 : exists_path (files s1) p = true).
  { unfold s1, persist. cbn [files set_writes set_files]. rewrite Hf0'.
    apply exists_path_persist. assumption. }
  assert (Hload1 : load (files s1) = ([], None)).
  { apply load_persisted; [apply persist_lookup | constructor | cbn; lia]. }
  destruct (addRecentlyUsedDocument_run p s1 Hosx Hwf1) as (s2 & Hpost2 & Hwf2 & Hrun2).
  destruct Hpost2 as ((_ & _ & _ & _ & _ & Hf2 & _) & _).
  destruct (pre_add_frame p s1) as (_ & _ & _ & _ & _ & _ & Hf1 & _).
  rewrite Hload1 in Hrun2. cbn [fst] in Hrun2. rewrite moveToFront_nil in Hrun2.
  cbn [fst snd] in Hrun2.
  exists s1, (persist [p] s2). split; [assumption|]. split; [assumption|].
  split; [apply persist_lookup|].
  apply getRecentlyUsedDocuments_quiet; [|discriminate].
  assert (El : load (files (persist [p] s2)) = ([p], None)).
  { apply load_persisted;
      [apply persist_lookup | | cbn; unfold MAX_RECENTLY_USED_DOCUMENTS; lia].
    apply Forall_singleton. split; [assumption|].
    unfold persist. cbn [files set_writes set_files]. rewrite Hf2, Hf1.
    apply exists_path_persist. assumption. }
  rewrite El. reflexivity.
Qed.

End Host.

(** ** A window that has no snapshot *)

Lemma getWindowMenuById_missing (s : St) (windowId : Z) :
  Map_get windowId (windowMenus s) = None ->
  getWindowMenuById windowId s
  = (Throw (TypeError "Cannot destructure property 'menu' of undefined"), s).
Proof. intros H. unfold getWindowMenuById, bind, gets. rewrite H. reflexivity. Qed.

(** The explicit error of [getWindowMenuById] is raised, after the log
    entry, only for a stored snapshot whose [menu] field is null. *)
Lemma getWindowMenuById_explicit (s : St) (windowId : Z) (e : string) (s' : St) :
  getWindowMenuById windowId s = (Throw (Error e), s') ->
  exists value, Map_get windowId (windowMenus s) = Some value /\ menu value = None /\
    errorLog s' = errorLog s ++
      [LogMsg ("getWindowMenuById: Cannot find window menu for id "
               ++ pretty windowId ++ ".")].
Proof.
  unfold getWindowMenuById, bind, gets.
  destruct (Map_get windowId (windowMenus s)) as [value|]; [|discriminate].
  destruct (menu value) eqn:Hm; [discriminate|].
  cbn. intros [= <- <-]. exists value. auto.
Qed.

(** C7 (what the code does): on a freshly constructed instance, which
    stores no snapshot, querying the menu of a window and activating window 7
    both end in the TypeError of the destructuring; the state is unchanged,
    so nothing was logged, and the explicit error is not the one raised. *)
Theorem setActiveWindow_without_snapshot (preferences : Preferences)
    (keybindings : Keybindings) (w : St) (windowId : Z) :
  getWindowMenuById windowId (constructor preferences keybindings w)
  = (Throw (TypeError "Cannot destructure property 'menu' of undefined"),
     constructor preferences keybindings w) /\
  setActiveWindow 7 (constructor preferences keybindings w)
  = (Throw (TypeError "Cannot destructure property 'menu' of undefined"),
     constructor preferences keybindings w) /\
  errorLog (constructor preferences keybindings w) = errorLog w.
Proof. repeat split. Qed.

End AppMenu.

(** * A reference host

    One instance of the collaborators the development is parametric in: a
    JSON codec for arrays of strings, POSIX [path.join], and a menu template
    with the toggle items. The closed examples below run the module on it. *)

Definition dquote : ascii := "034"%char.
Definition backslash : ascii := "092"%char.
Definition newline : ascii := "010"%char.

Definition hex_digit (n : N) : ascii :=
  ascii_of_N (if (n <? 10)%N then 48 + n else 87 + n).

(** The text [JSON.stringify] writes for one character of a string,
    followed by [rest]. *)
Definition esc_then (c : ascii) (rest : string) : string :=
  if Ascii.eqb c dquote then String backslash (String dquote rest)
  else if Ascii.eqb c backslash then String backslash (String backslash rest)
  else if Ascii.eqb c "008"%char then String backslash (String "b"%char rest)
  else if Ascii.eqb c "009"%char then String backslash (String "t"%char rest)
  else if Ascii.eqb c "010"%char then String backslash (String "n"%char rest)
  else if Ascii.eqb c "012"%char then String backslash (String "f"%char rest)
  else if Ascii.eqb c "013"%char then String backslash (String "r"%char rest)
  else if (N_of_ascii c <? 32)%N
  then String backslash (String "u"%char (String "0"%char (String "0"%char
         (String (hex_digit (N_of_ascii c / 16))
            (String (hex_digit (N_of_ascii c mod 16)) rest)))))
  else String c rest.

Fixpoint escape_then (s rest : string) : string :=
  match s with
  | EmptyString => rest
  | String c s' => esc_then c (escape_then s' rest)
  end.

Definition quote_then (s rest : string) : string :=
  String dquote (escape_then s (String dquote rest)).

(** The entries, one per line with an indentation of two. *)
Fixpoint items_then (l : list string) (rest : string) : string :=
  match l with
  | [] => rest
  | x :: t =>
      quote_then x
        match t with
        | [] => rest
        | _ => String ","%char (String newline (String " "%char (String " "%char
                 (items_then t rest))))
        end
  end.

Definition ref_stringify (l : list string) : string :=
  match l with
  | [] => "[]"
  | _ => String "["%char (String newline (String " "%char (String " "%char
           (items_then l (String newline "]")))))
  end.

(** The parser: a machine over the characters of the text. *)
Inductive pstate :=
| PStart
| PFirst
| PElem
| PStr (cur : list ascii)
| PEsc (cur : list ascii)
| PUni (cur : list ascii) (k : nat) (code : N)
| PAfter
| PEnd.

Definition is_ws (c : ascii) : bool :=
  Ascii.eqb c " "%char || Ascii.eqb c "009"%char || Ascii.eqb c "010"%char
  || Ascii.eqb c "013"%char.

Definition hex_value (c : ascii) : option N :=
  let n := N_of_ascii c in
  if (48 <=? n)%N && (n <=? 57)%N then Some (n - 48)%N
  else if (97 <=? n)%N && (n <=? 102)%N then Some (n - 87)%N
  else if (65 <=? n)%N && (n <=? 70)%N then Some (n - 55)%N
  else None.

Definition unescape (c : ascii) : option ascii :=
  if Ascii.eqb c dquote then Some dquote
  else if Ascii.eqb c backslash then Some backslash
  else if Ascii.eqb c "/"%char then Some "/"%char
  else if Ascii.eqb c "b"%char then Some "008"%char
  else if Ascii.eqb c "t"%char then Some "009"%char
  else if Ascii.eqb c "n"%char then Some "010"%char
  else if Ascii.eqb c "f"%char then Some "012"%char
  else if Ascii.eqb c "r"%char then Some "013"%char
  else None.

Fixpoint run (st : pstate) (acc : list string) (input : string) : option (list string) :=
  match input with
  | EmptyString => match st with PEnd => Some (rev acc) | _ => None end
  | String c rest =>
      match st with
      | PStart =>
          if is_ws c then run PStart acc rest
          else if Ascii.eqb c "["%char then run PFirst acc rest else None
      | PFirst =>
          if is_ws c then run PFirst acc rest
          else if Ascii.eqb c "]"%char then run PEnd acc rest
          else if Ascii.eqb c dquote then run (PStr []) acc rest else None
      | PElem =>
          if is_ws c then run PElem acc rest
          else if Ascii.eqb c dquote then run (PStr []) acc rest else None
      | PStr cur =>
          if Ascii.eqb c dquote
          then run PAfter (string_of_list_ascii (rev cur) :: acc) rest
          else if Ascii.eqb c backslash then run (PEsc cur) acc rest
          else if (N_of_ascii c <? 32)%N then None
          else run (PStr (c :: cur)) acc rest
      | PEsc cur =>
          if Ascii.eqb c "u"%char then run (PUni cur 4 0) acc rest
          else match unescape c with
               | Some d => run (PStr (d :: cur)) acc rest
               | None => None
               end
      | PUni cur k code =>
          match hex_value c with
          | None => None
          | Some d =>
              let code := (code * 16 + d)%N in
              match k with
              | 1%nat => if (code <? 256)%N
                         then run (PStr (ascii_of_N code :: cur)) acc rest
                         else None
              | _ => run (PUni cur (k - 1) code) acc rest
              end
          end
      | PAfter =>
          if is_ws c then run PAfter acc rest
          else if Ascii.eqb c ","%char then run PElem acc rest
          else if Ascii.eqb c "]"%char then run PEnd acc rest else None
      | PEnd => if is_ws c then run PEnd acc rest else None
      end
  end.

Definition ref_parse (text : string) : option json :=
  match run PStart [] text with
  | Some l => Some (JArray (JString <$> l))
  | None => None
  end.

Lemma run_esc (c : ascii) (cur : list ascii) (acc : list string) (rest : string) :
  run (PStr cur) acc (esc_then c rest) = run (PStr (c :: cur)) acc rest.
Proof.
  destruct c as [[] [] [] [] [] [] [] []]; reflexivity.
Qed.

Lemma run_escape (s : string) :
  forall (cur : list ascii) (acc : list string) (rest : string),
    run (PStr cur) acc (escape_then s rest)
    = run (PStr (rev (list_ascii_of_string s) ++ cur)) acc rest.
Proof.
  induction s as [|c s IH]; intros cur acc rest; cbn [escape_then]; [reflexivity|].
  rewrite run_esc, IH. cbn [list_ascii_of_string rev].
  rewrite <- app_assoc. reflexivity.
Qed.

Lemma run_quote_first (x : string) (acc : list string) (rest : string) :
  run PFirst acc (quote_then x rest) = run PAfter (x :: acc) rest.
Proof.
  unfold quote_then. cbn [run]. change (is_ws dquote) with false.
  change (Ascii.eqb dquote "]"%char) with false. rewrite Ascii.eqb_refl. cbv iota.
  rewrite run_escape. cbn [run]. rewrite Ascii.eqb_refl.
  rewrite app_nil_r, rev_involutive, string_of_list_ascii_of_string. reflexivity.
Qed.

Lemma run_quote_elem (x : string) (acc : list string) (rest : string) :
  run PElem acc (quote_then x rest) = run PAfter (x :: acc) rest.
Proof.
  unfold quote_then. cbn [run]. change (is_ws dquote) with false.
  rewrite Ascii.eqb_refl. cbv iota.
  rewrite run_escape. cbn [run]. rewrite Ascii.eqb_refl.
  rewrite app_nil_r, rev_involutive, string_of_list_ascii_of_string. reflexivity.
Qed.

Lemma items_then_cons (x y : string) (t : list string) (rest : string) :
  items_then (x :: y :: t) rest
  = quote_then x (String ","%char (String newline (String " "%char (String " "%char
      (items_then (y :: t) rest))))).
Proof. reflexivity. Qed.

Lemma run_after_comma (acc : list string) (rest : string) :
  run PAfter acc (String ","%char (String newline (String " "%char (String " "%char rest))))
  = run PElem acc rest.
Proof. reflexivity. Qed.

Lemma run_items_elem (l : list string) :
  forall (x : string) (acc : list string),
    run PElem acc (items_then (x :: l) (String newline "]"))
    = Some (rev acc ++ x :: l).
Proof.
  induction l as [|y t IH]; intros x acc.
  - cbn [items_then]. rewrite run_quote_elem. cbn. reflexivity.
  - rewrite items_then_cons, run_quote_elem, run_after_comma, IH.
    cbn [rev]. rewrite <- app_assoc. reflexivity.
Qed.

Lemma run_items_first (l : list string) (x : string) :
  run PFirst [] (items_then (x :: l) (String newline "]")) = Some (x :: l).
Proof.
  destruct l as [|y t].
  - cbn [items_then]. rewrite run_quote_first. reflexivity.
  - rewrite items_then_cons, run_quote_first, run_after_comma, run_items_elem.
    reflexivity.
Qed.

(** The reference parser reads back what the reference printer wrote. *)
Lemma ref_roundtrip (l : list string) :
  ref_parse (ref_stringify l) = Some (JArray (JString <$> l)).
Proof.
  destruct l as [|x l]; [reflexivity|].
  unfold ref_parse, ref_stringify.
  change (run PStart []
            (String "["%char (String newline (String " "%char (String " "%char
               (items_then (x :: l) (String newline "]")))))))
    with (run PFirst [] (items_then (x :: l) (String newline "]"))).
  rewrite run_items_first. reflexivity.
Qed.

(** POSIX [path.join] of a directory and a file name. *)
Definition ref_join (a b : string) : string := String.append a (String "/"%char b).

(** The template keeps the list it was configured with; the menu built from
    it has the five toggles, unchecked and enabled, and two more items. *)
Definition ref_configureMenu (kb pf : unit) (recents : list string) : list string :=
  recents.

Definition ref_buildFromTemplate (t : list string) : Menu :=
  list_to_map
    [(sourceCodeModeMenuItem, mkItem false true);
     (typewriterModeMenuItem, mkItem false true);
     (focusModeMenuItem, mkItem false true);
     (sideBarMenuItem, mkItem false true);
     (tabBarMenuItem, mkItem false true);
     ("autoSaveMenuItem"%string, mkItem false true);
     ("alwaysOnTopMenuItem"%string, mkItem false true)].

Definition ref_parseMenu (t : list string) : list (string * string) :=
  [("CmdOrCtrl+Alt+S"%string, sourceCodeModeMenuItem);
   ("CmdOrCtrl+Alt+T"%string, typewriterModeMenuItem);
   ("CmdOrCtrl+Shift+F"%string, focusModeMenuItem)].

Abbreviation RefState := (State unit unit (list (string * string))).

Definition ref_userData : string := "/home/u/.config/marktext".
Definition ref_recents : string := RECENTS_PATH ref_userData ref_join.

(** The module on the reference host, for a given platform. *)
Definition ref_add (platform : string) : string -> M RefState unit :=
  addRecentlyUsedDocument platform ref_userData ref_join ref_parse ref_stringify
    ref_configureMenu ref_buildFromTemplate ref_parseMenu.

Definition ref_add_all (platform : string) : list string -> M RefState unit :=
  add_all platform ref_userData ref_join ref_parse ref_stringify
    ref_configureMenu ref_buildFromTemplate ref_parseMenu.

Definition ref_clear (platform : string) : M RefState unit :=
  clearRecentlyUsedDocuments platform ref_userData ref_join ref_parse ref_stringify
    ref_configureMenu ref_buildFromTemplate ref_parseMenu.

Definition ref_list : M RefState (list string) :=
  getRecentlyUsedDocuments ref_userData ref_join ref_parse.

Definition ref_addEditorMenu : Z -> M RefState unit :=
  addEditorMenu ref_userData ref_join ref_parse ref_configureMenu
    ref_buildFromTemplate ref_parseMenu.

Definition ref_updateAppMenu : option (list string) -> M RefState unit :=
  updateAppMenu ref_userData ref_join ref_parse ref_configureMenu ref_buildFromTemplate
    ref_parseMenu.

(** A home directory with two documents and a folder. *)
Definition home_files : gmap string node :=
  list_to_map
    [("/home/u/notes.md"%string, File "# notes");
     ("/home/u/todo.md"%string, File "- [ ] write");
     ("/home/u/docs"%string, Dir)].

(** No window, nothing persisted. *)
Definition world_empty : RefState :=
  mkState tt tt (-1) [] [] None [] [] home_files [] [].

(** Window 1 is open and active; its menu is the visible one, with
    typewriter mode checked and the side bar shown. Two documents are
    persisted, [todo.md] the most recent. *)
Definition menu_one : Menu :=
  <[typewriterModeMenuItem := mkItem true true]>
    (<[sideBarMenuItem := mkItem true true]> (ref_buildFromTemplate [])).

Definition world_one : RefState :=
  mkState tt tt 1
    [(1, mkWindowMenu (Some (ref_parseMenu [])) (Some 0%nat))]
    [menu_one] (Some 0%nat) [] [(1, Some (ref_parseMenu []))]
    (<[ref_recents := File (ref_stringify ["/home/u/todo.md"; "/home/u/notes.md"]%string)]>
       home_files)
    [] [].

(** As [world_one], with source-code mode checked in the visible menu. *)
Definition world_source : RefState :=
  mkState tt tt 1
    [(1, mkWindowMenu (Some (ref_parseMenu [])) (Some 0%nat))]
    [<[sourceCodeModeMenuItem := mkItem true true]> menu_one]
    (Some 0%nat) [] [(1, Some (ref_parseMenu []))] home_files [] [].

(** The persisted file is not JSON. *)
Definition world_broken : RefState :=
  mkState tt tt (-1) [] [] None [] []
    (<[ref_recents := File "{ recent: "]> home_files) [] [].

(** Thirteen documents. *)
Definition thirteen : list string :=
  ["/d/a"; "/d/b"; "/d/c"; "/d/d"; "/d/e"; "/d/f"; "/d/g"; "/d/h"; "/d/i";
   "/d/j"; "/d/k"; "/d/l"; "/d/m"]%string.

(** All thirteen exist. *)
Definition world_thirteen : RefState :=
  mkState tt tt (-1) [] [] None [] []
    (list_to_map ((fun p => (p, File "text")) <$> thirteen)) [] [].

(** None of the thirteen exists. *)
Definition world_none : RefState :=
  mkState tt tt (-1) [] [] None [] [] ∅ [] [].

(** A macOS machine: window 1 open and active, one existing document
    persisted. *)
Definition world_mac : RefState :=
  mkState tt tt 1
    [(1, mkWindowMenu (Some (ref_parseMenu [])) (Some 0%nat))]
    [menu_one] (Some 0%nat) ["/home/u/notes.md"%string] []
    (<[ref_recents := File (ref_stringify ["/home/u/notes.md"%string])]> home_files)
    [] [].

(** Windows 1 and 2 are open, each with a menu object of its own; window 2
    is active and its menu is the visible one. *)
Definition world_two : RefState :=
  mkState tt tt 2
    [(1, mkWindowMenu (Some (ref_parseMenu [])) (Some 0%nat));
     (2, mkWindowMenu (Some (ref_parseMenu [])) (Some 1%nat))]
    [menu_one; ref_buildFromTemplate []] (Some 1%nat) []
    [(1, Some (ref_parseMenu [])); (2, Some (ref_parseMenu []))] home_files [] [].

(** Window 1 is stored with a menu that has no item at all. *)
Definition world_bare : RefState :=
  mkState tt tt 1 [(1, mkWindowMenu None (Some 0%nat))] [∅] (Some 0%nat) [] []
    home_files [] [].

Lemma ref_template_ok (kb pf : unit) (l : list string) :
  has_toggles (ref_buildFromTemplate (ref_configureMenu kb pf l)).
Proof.
  intros id Hid. unfold toggles in Hid.
  repeat (apply elem_of_cons in Hid as [->|Hid]); try (eexists; vm_compute; reflexivity).
  inversion Hid.
Qed.

Lemma menu_one_toggles : has_toggles menu_one.
Proof.
  intros id Hid. unfold toggles in Hid.
  repeat (apply elem_of_cons in Hid as [->|Hid]); try (eexists; vm_compute; reflexivity).
  inversion Hid.
Qed.

Lemma wf_world_one : wf world_one.
Proof. eapply wf_single; [reflexivity | reflexivity | apply menu_one_toggles]. Qed.

Lemma wf_world_mac : wf world_mac.
Proof. eapply wf_single; [reflexivity | reflexivity | apply menu_one_toggles]. Qed.

(** * The theorems on the reference host *)

(** C1 on Linux: [notes.md] sits at index 1 of the loaded list; the add
    moves it to the front and persists the reordered list. *)
Lemma addRecentlyUsedDocument_cases_witness :
  wf world_one /\
  indexOf ["/home/u/todo.md"; "/home/u/notes.md"]%string "/home/u/notes.md" = 1 /\
  exists s',
    ref_add "linux" "/home/u/notes.md" world_one = (Ok tt, s') /\
    files s' !! ref_recents
    = Some (File (ref_stringify ["/home/u/notes.md"; "/home/u/todo.md"]%string)).
Proof.
  split; [exact wf_world_one|]. split; [reflexivity|].
  destruct (addRecentlyUsedDocument_cases "linux" ref_userData ref_join ref_parse
              ref_stringify ref_configureMenu ref_buildFromTemplate ref_parseMenu
              ref_template_ok ref_roundtrip world_one "/home/u/notes.md"
              eq_refl wf_world_one)
    as (s' & Hrun & _ & Hk & _).
  exists s'. split; [exact Hrun|].
  destruct (Hk 1%nat) as [_ Hf]; [lia | vm_compute; reflexivity |].
  exact Hf.
Defined.

(** C2 on Linux: thirteen existing documents are added in turn; a load
    then returns the last twelve, [/d/m] first, and [/d/a] is gone. *)
Lemma recents_at_most_twelve_witness :
  exists s',
    ref_add_all "linux" thirteen world_thirteen = (Ok tt, s') /\
    ref_list s'
    = (Ok ["/d/m"; "/d/l"; "/d/k"; "/d/j"; "/d/i"; "/d/h"; "/d/g"; "/d/f";
           "/d/e"; "/d/d"; "/d/c"; "/d/b"]%string, s').
Proof.
  destruct (recents_at_most_twelve "linux" ref_userData ref_join ref_parse
              ref_stringify ref_configureMenu ref_buildFromTemplate ref_parseMenu
              ref_template_ok ref_roundtrip)
    as (_ & _ & H & _).
  destruct (H world_thirteen thirteen) as (s' & Hrun & Hlist & _).
  - reflexivity.
  - apply wf_no_windows. reflexivity.
  - apply (bool_decide_unpack _). vm_compute. exact I.
  - cbn. lia.
  - unfold thirteen. repeat constructor; try discriminate; vm_compute; reflexivity.
  - exists s'. split; [exact Hrun | exact Hlist].
Defined.

(** C3 on Linux: the add of [notes.md], found at index 1, performs exactly
    one write, of the reordered list. *)
Lemma addRecentlyUsedDocument_writes_witness :
  exists s',
    ref_add "linux" "/home/u/notes.md" world_one = (Ok tt, s') /\
    writes s'
    = [(ref_recents, ref_stringify ["/home/u/notes.md"; "/home/u/todo.md"]%string)].
Proof.
  destruct (addRecentlyUsedDocument_writes "linux" ref_userData ref_join ref_parse
              ref_stringify ref_configureMenu ref_buildFromTemplate ref_parseMenu
              ref_template_ok world_one "/home/u/notes.md" wf_world_one)
    as (s' & Hrun & _ & Hlinux & _).
  exists s'. split; [exact Hrun|].
  destruct (Hlinux eq_refl) as (_ & _ & _ & Hw).
  apply Hw. vm_compute. discriminate.
Defined.

(** C5: the persisted text is not JSON; the load returns the empty list
    and logs the exception. *)
Lemma getRecentlyUsedDocuments_malformed_witness :
  exists err,
    ref_list world_broken = (Ok [], set_errorLog [LogExn err] world_broken).
Proof.
  apply (getRecentlyUsedDocuments_malformed ref_userData ref_join ref_parse
           world_broken "{ recent: ").
  - vm_compute. reflexivity.
  - vm_compute. exact I.
Defined.

(** C6 on Linux: after a clear the file holds the two brackets and a load
    returns the empty list. *)
Lemma clearRecentlyUsedDocuments_effect_witness :
  exists s',
    ref_clear "linux" world_one = (Ok tt, s') /\
    files s' !! ref_recents = Some (File "[]") /\
    ref_list s' = (Ok [], s').
Proof.
  destruct (clearRecentlyUsedDocuments_effect "linux" ref_userData ref_join ref_parse
              ref_stringify ref_configureMenu ref_buildFromTemplate ref_parseMenu
              ref_template_ok ref_roundtrip eq_refl world_one wf_world_one)
    as [Hlinux _].
  destruct (Hlinux eq_refl) as (s1 & s' & Hrun & _ & _ & Hfile & _ & _ & Hlist).
  exists s'. split; [exact Hrun|]. split; [exact Hfile | exact Hlist].
Defined.

Lemma visible_world_one : visible_ok world_one.
Proof. intros c [= <-]. cbn. lia. Qed.

Lemma visible_world_source : visible_ok world_source.
Proof. intros c [= <-]. cbn. lia. Qed.

(** C8: window 2 is created while window 1 is active with typewriter mode
    checked and source-code mode unchecked; the tree of window 2 starts with
    the same two states. *)
Lemma addEditorMenu_carries_toggles_witness :
  exists s' tree,
    ref_addEditorMenu 2 world_one = (Ok tt, s') /\
    menus s' !! 1%nat = Some tree /\
    checked <$> tree !! typewriterModeMenuItem = Some true /\
    checked <$> tree !! sourceCodeModeMenuItem = Some false.
Proof.
  destruct (addEditorMenu_carries_toggles ref_userData ref_join ref_parse
              ref_configureMenu ref_buildFromTemplate ref_parseMenu
              ref_template_ok world_one 2 visible_world_one)
    as (s' & tree & Hrun & _ & Htree & _ & _ & Hscene).
  exists s', tree. split; [exact Hrun|]. split; [exact Htree|].
  apply (Hscene (mkWindowMenu (Some (ref_parseMenu [])) (Some 0%nat)) 0%nat menu_one
           (mkItem true true) (mkItem false true)); reflexivity.
Defined.

(** C9: window 2 is created while the visible menu has source-code mode
    checked; typewriter mode and focus mode are disabled in its tree. *)
Lemma addEditorMenu_coupling_witness :
  exists s' tree,
    ref_addEditorMenu 2 world_source = (Ok tt, s') /\
    menus s' !! 1%nat = Some tree /\
    enabled <$> tree !! typewriterModeMenuItem = Some false /\
    enabled <$> tree !! focusModeMenuItem = Some false.
Proof.
  destruct (addEditorMenu_coupling ref_userData ref_join ref_parse
              ref_configureMenu ref_buildFromTemplate ref_parseMenu
              ref_template_ok world_source 2 visible_world_source)
    as (s' & tree & Hrun & Htree & _ & Hon & _).
  exists s', tree. split; [exact Hrun|]. split; [exact Htree|].
  apply Hon. reflexivity.
Defined.

(** C10: the menus are rebuilt for a new list; window 1 gets a new tree
    in which the side bar is still shown and typewriter mode still checked,
    and that tree is the visible menu. *)
Lemma updateAppMenu_keeps_toggles_witness :
  exists s' n tree,
    ref_updateAppMenu (Some ["/home/u/docs"%string]) world_one = (Ok tt, s') /\
    windowMenus s' !! 0%nat = Some (1, mkWindowMenu (Some (ref_parseMenu [])) (Some n)) /\
    n = 1%nat /\
    menus s' !! n = Some tree /\
    checked <$> tree !! sideBarMenuItem = Some true /\
    checked <$> tree !! typewriterModeMenuItem = Some true /\
    applicationMenu s' = Some n.
Proof.
  destruct (updateAppMenu_keeps_toggles "linux" ref_userData ref_join ref_parse
              ref_stringify ref_configureMenu ref_buildFromTemplate ref_parseMenu
              ref_template_ok world_one (Some ["/home/u/docs"%string]) wf_world_one)
    as (s' & Hrun & _ & Hent & _).
  destruct (Hent 0%nat 1 (mkWindowMenu (Some (ref_parseMenu [])) (Some 0%nat)) 0%nat
              menu_one eq_refl eq_refl eq_refl)
    as (n & tree & Hw & Hn & Hm & _ & Hc & _ & _ & Hact).
  exists s', n, tree. split; [exact Hrun|]. split; [exact Hw|].
  split; [exact Hn|]. split; [exact Hm|].
  split; [|split; [|apply Hact; reflexivity]].
  - rewrite Hc; [reflexivity|]. apply (bool_decide_unpack _). vm_compute. exact I.
  - rewrite Hc; [reflexivity|]. apply (bool_decide_unpack _). vm_compute. exact I.
Defined.

(** C2 as stated fails: thirteen distinct paths, none of which exists, are
    added on Linux. Every add succeeds and writes, but each load drops the
    path of the add before, so the persisted array ends with one entry and
    a load returns none. *)
Lemma recents_nonexistent_paths :
  length thirteen = 13%nat /\
  bool_decide (NoDup thirteen) = true /\
  (ref_add_all "linux" thirteen world_none).1 = Ok tt /\
  files (ref_add_all "linux" thirteen world_none).2 !! ref_recents
  = Some (File (ref_stringify ["/d/m"%string])) /\
  (ref_list (ref_add_all "linux" thirteen world_none).2).1 = Ok [].
Proof. repeat split; vm_compute; reflexivity. Qed.

(** On macOS the thirteen existing documents are registered with the
    operating system and nothing else happens: no write, no persisted file,
    and a load returns the empty list it returned before. *)
Lemma recents_macos_adds :
  (ref_add_all "darwin" thirteen world_thirteen).1 = Ok tt /\
  nativeRecentDocuments (ref_add_all "darwin" thirteen world_thirteen).2 = thirteen /\
  writes (ref_add_all "darwin" thirteen world_thirteen).2 = [] /\
  files (ref_add_all "darwin" thirteen world_thirteen).2 !! ref_recents = None /\
  (ref_list (ref_add_all "darwin" thirteen world_thirteen).2).1 = Ok [].
Proof. repeat split; vm_compute; reflexivity. Qed.

(** C6 as stated fails on macOS: the clear empties the native list only.
    The persisted file still holds the document, a load still returns it,
    nothing was written, and no window menu was rebuilt. *)
Lemma clearRecentlyUsedDocuments_macos :
  (ref_clear "darwin" world_mac).1 = Ok tt /\
  nativeRecentDocuments (ref_clear "darwin" world_mac).2 = [] /\
  files (ref_clear "darwin" world_mac).2 !! ref_recents
  = Some (File (ref_stringify ["/home/u/notes.md"%string])) /\
  writes (ref_clear "darwin" world_mac).2 = [] /\
  (ref_list (ref_clear "darwin" world_mac).2).1 = Ok ["/home/u/notes.md"%string] /\
  windowMenus (ref_clear "darwin" world_mac).2 = windowMenus world_mac /\
  length (menus (ref_clear "darwin" world_mac).2) = 1%nat.
Proof. repeat split; vm_compute; reflexivity. Qed.

(** * Further examples on the reference host *)

Lemma inv_world_one : inv world_one.
Proof. split; [exact wf_world_one | exact visible_world_one]. Qed.

(** X1: an instance is constructed in the empty world, window 7 gets a
    menu and is activated; the state reached satisfies the invariant. *)
Lemma reachable_inv_witness :
  inv (setActiveWindow 7 (ref_addEditorMenu 7 (constructor tt tt world_empty)).2).2 /\
  distinct_menus (setActiveWindow 7 (ref_addEditorMenu 7 (constructor tt tt world_empty)).2).2.
Proof.
  apply (reachable_inv "linux" ref_userData ref_join ref_parse ref_stringify
           ref_configureMenu ref_buildFromTemplate ref_parseMenu ref_template_ok).
  eapply reach_setActiveWindow; [|apply surjective_pairing].
  eapply reach_addEditorMenu; [|apply surjective_pairing].
  apply reach_constructor. intros c Hc. discriminate Hc.
Defined.

(** X3: window 2 is created while window 1 is active, then activated; its
    new menu object, the second of the store, becomes the visible menu. *)
Lemma addEditorMenu_then_setActiveWindow_witness :
  exists s1 s2,
    ref_addEditorMenu 2 world_one = (Ok tt, s1) /\
    applicationMenu s1 = Some 0%nat /\
    setActiveWindow 2 s1 = (Ok tt, s2) /\
    s2 = set_activeWindowId 2 (set_applicationMenu (Some 1%nat) s1).
Proof.
  destruct (addEditorMenu_then_setActiveWindow ref_userData ref_join ref_parse
              ref_configureMenu ref_buildFromTemplate ref_parseMenu
              ref_template_ok world_one 2 visible_world_one)
    as (s1 & s2 & Hrun & Ha & _ & _ & Hact & Hne & _).
  exists s1, s2. split; [exact Hrun|]. split; [exact Ha|]. split; [exact Hact|].
  apply Hne. vm_compute. discriminate.
Defined.

(** X4: window 1 is destroyed and then activated. *)
Lemma setActiveWindow_after_removeWindowMenu_witness :
  exists s1 : RefState,
    removeWindowMenu 1 world_one = (Ok tt, s1) /\
    getWindowMenuById 1 s1
    = (Throw (TypeError "Cannot destructure property 'menu' of undefined"), s1) /\
    setActiveWindow 1 s1
    = (Throw (TypeError "Cannot destructure property 'menu' of undefined"), s1) /\
    errorLog s1 = errorLog world_one.
Proof. apply (setActiveWindow_after_removeWindowMenu world_one 1). discriminate. Defined.

(** X7: window 1 is activated and set always on top; after a visit to
    window 2, whose indicator is still off, the indicator of window 1 is
    found on. *)
Lemma updateAlwaysOnTopMenu_per_window_witness :
  exists s1 s2 s3 s4 : RefState,
    setActiveWindow 1 world_two = (Ok tt, s1) /\
    updateAlwaysOnTopMenu true s1 = (Ok tt, s2) /\
    setActiveWindow 2 s2 = (Ok tt, s3) /\
    applicationMenu s3 = Some 1%nat /\
    item_at s3 1 alwaysOnTopMenuItem = item_at world_two 1 alwaysOnTopMenuItem /\
    setActiveWindow 1 s3 = (Ok tt, s4) /\
    applicationMenu s4 = Some 0%nat /\
    (let* item := exported_getMenuItemById alwaysOnTopMenuItem in read_checked item) s4
    = (Ok true, s4).
Proof.
  apply (updateAlwaysOnTopMenu_per_window world_two 1 2
           (mkWindowMenu (Some (ref_parseMenu [])) (Some 0%nat))
           (mkWindowMenu (Some (ref_parseMenu [])) (Some 1%nat))
           0%nat 1%nat (mkItem false true) true);
    try reflexivity; try discriminate.
Defined.

(** X8: window 1 is set always on top and the menus are rebuilt: in the
    new visible menu the indicator is off again. *)
Lemma indicators_reset_by_updateAppMenu_witness :
  item_at (updateAlwaysOnTopMenu true world_one).2 0 alwaysOnTopMenuItem
  = Some (mkItem true true) /\
  exists s2 n tree,
    ref_updateAppMenu (Some []) (updateAlwaysOnTopMenu true world_one).2 = (Ok tt, s2) /\
    applicationMenu s2 = Some n /\ menus s2 !! n = Some tree /\
    tree !! alwaysOnTopMenuItem = Some (mkItem false true).
Proof.
  split; [vm_compute; reflexivity|].
  destruct (indicators_reset_by_updateAppMenu ref_userData ref_join ref_parse
              ref_configureMenu ref_buildFromTemplate ref_parseMenu ref_template_ok
              world_one (updateAlwaysOnTopMenu true world_one).2
              (mkWindowMenu (Some (ref_parseMenu [])) (Some 0%nat)) [] true "lf"
              (updateAlwaysOnTopMenu true world_one).1
              inv_world_one eq_refl (or_introl (surjective_pairing _)))
    as (s2 & n & tree & Hrun & Ha & Hm & Hid).
  exists s2, n, tree. split; [exact Hrun|]. split; [exact Ha|]. split; [exact Hm|].
  rewrite Hid; [vm_compute; reflexivity|].
  apply (bool_decide_unpack _). vm_compute. exact I.
Defined.

(** X9: the active window 1 is destroyed and the menus are rebuilt; its
    menu object is still the visible menu. *)
Lemma removeWindowMenu_keeps_visible_menu_witness :
  exists s1 s2,
    removeWindowMenu 1 world_one = (Ok tt, s1) /\
    activeWindowId s1 = -1 /\
    ref_updateAppMenu (Some []) s1 = (Ok tt, s2) /\
    applicationMenu s2 = Some 0%nat /\
    item_at s2 0 typewriterModeMenuItem = Some (mkItem true true).
Proof.
  destruct (removeWindowMenu_keeps_visible_menu ref_userData ref_join ref_parse
              ref_configureMenu ref_buildFromTemplate ref_parseMenu ref_template_ok
              world_one [] inv_world_one eq_refl)
    as (s1 & s2 & Hrun1 & Hact & _ & Hrun2 & Ha & Hitem & _).
  exists s1, s2. split; [exact Hrun1|]. split; [exact Hact|]. split; [exact Hrun2|].
  split; [exact Ha|].
  rewrite (Hitem 0%nat typewriterModeMenuItem eq_refl). vm_compute. reflexivity.
Defined.

(** X10: a rebuild in the world of window 1 leaves the file system and
    the key handlers as they were. *)
Lemma updateAppMenu_frame_witness :
  exists s',
    ref_updateAppMenu (Some ["/home/u/docs"%string]) world_one = (Ok tt, s') /\
    files s' = files world_one /\ keyHandlers s' = keyHandlers world_one /\
    menus s' !! 0%nat = Some menu_one.
Proof.
  destruct (updateAppMenu_frame ref_userData ref_join ref_parse
              ref_configureMenu ref_buildFromTemplate ref_parseMenu ref_template_ok
              world_one ["/home/u/docs"%string] wf_world_one)
    as (s' & Hrun & Hframe & Hheap & _).
  destruct Hframe as (_ & _ & _ & _ & Hkh & Hf & _).
  exists s'. split; [exact Hrun|]. split; [exact Hf|]. split; [exact Hkh|].
  apply Hheap. reflexivity.
Defined.

(** X11: window 2 is created while window 1 is active: window 1 stays
    active with its menu visible, and its snapshot is as it was. *)
Lemma addEditorMenu_frame_witness :
  exists s',
    ref_addEditorMenu 2 world_one = (Ok tt, s') /\
    applicationMenu s' = Some 0%nat /\ activeWindowId s' = 1 /\
    Map_get 1 (windowMenus s')
    = Some (mkWindowMenu (Some (ref_parseMenu [])) (Some 0%nat)) /\
    length (menus s') = 2%nat.
Proof.
  destruct (addEditorMenu_frame ref_userData ref_join ref_parse
              ref_configureMenu ref_buildFromTemplate ref_parseMenu ref_template_ok
              world_one 2 visible_world_one)
    as (s' & tree & Hrun & Ha & Hact & _ & Hlen & Hother & _).
  exists s'. split; [exact Hrun|]. split; [exact Ha|]. split; [exact Hact|].
  split; [|exact Hlen].
  rewrite (Hother 1); [reflexivity | discriminate].
Defined.

(** X12 on Windows: the add registers the path with the operating
    system. *)
Lemma addRecentlyUsedDocument_native_witness :
  exists s',
    ref_add "win32" "/home/u/notes.md" world_one = (Ok tt, s') /\
    nativeRecentDocuments s' = ["/home/u/notes.md"%string] /\
    activeWindowId s' = 1.
Proof.
  destruct (addRecentlyUsedDocument_native "win32" ref_userData ref_join ref_parse
              ref_stringify ref_configureMenu ref_buildFromTemplate ref_parseMenu
              ref_template_ok world_one "/home/u/notes.md" wf_world_one)
    as (s' & Hrun & Hnat & Hact & _).
  exists s'. split; [exact Hrun|]. split; [exact Hnat | exact Hact].
Defined.

(** X13 on Linux: the folder [docs] is added twice; the second add writes
    nothing. *)
Lemma addRecentlyUsedDocument_twice_witness :
  exists s1 s2,
    ref_add "linux" "/home/u/docs" world_one = (Ok tt, s1) /\
    hd_error (load ref_userData ref_join ref_parse (files s1)).1 = Some "/home/u/docs"%string /\
    ref_add "linux" "/home/u/docs" s1 = (Ok tt, s2) /\
    files s2 = files s1 /\ writes s2 = writes s1.
Proof.
  apply (addRecentlyUsedDocument_twice "linux" ref_userData ref_join ref_parse
           ref_stringify ref_configureMenu ref_buildFromTemplate ref_parseMenu
           ref_template_ok ref_roundtrip world_one "/home/u/docs").
  - reflexivity.
  - exact wf_world_one.
  - discriminate.
  - vm_compute. reflexivity.
Defined.

(** X14 on Linux: the two persisted documents are distinct, and still so
    after [notes.md] is added. *)
Lemma addRecentlyUsedDocument_NoDup_witness :
  exists s',
    ref_add "linux" "/home/u/notes.md" world_one = (Ok tt, s') /\
    NoDup (load ref_userData ref_join ref_parse (files s')).1.
Proof.
  apply (addRecentlyUsedDocument_NoDup "linux" ref_userData ref_join ref_parse
           ref_stringify ref_configureMenu ref_buildFromTemplate ref_parseMenu
           ref_template_ok ref_roundtrip world_one "/home/u/notes.md").
  - reflexivity.
  - exact wf_world_one.
  - apply (bool_decide_unpack _). vm_compute. exact I.
Defined.

(** X16 on Linux: the menu of window 1 has no item; the add fails and
    nothing is persisted. *)
Lemma addRecentlyUsedDocument_rebuild_failure_witness :
  exists msg s',
    ref_add "linux" "/home/u/notes.md" world_bare = (Throw (TypeError msg), s') /\
    files s' = files world_bare /\ writes s' = [] /\
    windowMenus s' = windowMenus world_bare.
Proof.
  destruct (addRecentlyUsedDocument_rebuild_failure "linux" ref_userData ref_join
              ref_parse ref_stringify ref_configureMenu ref_buildFromTemplate
              ref_parseMenu world_bare "/home/u/notes.md" 1
              (mkWindowMenu None (Some 0%nat)) [] 0%nat ∅
              eq_refl eq_refl eq_refl eq_refl eq_refl)
    as (msg & s' & Hrun & Hf & Hw & Hwm & _).
  exists msg, s'. split; [exact Hrun|]. split; [exact Hf|]. split; [exact Hw | exact Hwm].
Defined.

(** X17: in the world of window 1 a lookup of window 1 returns its menu
    object, and activating window 5, which is not stored, fails without a
    log entry. *)
Lemma getWindowMenuById_well_formed_witness :
  getWindowMenuById 1 world_one = (Ok 0%nat, world_one) /\
  errorLog (setActiveWindow 5 world_one).2 = [].
Proof.
  destruct (getWindowMenuById_well_formed world_one 1 wf_world_one) as [Hlook _].
  destruct (getWindowMenuById_well_formed world_one 5 wf_world_one) as [_ Hact].
  split.
  - destruct Hlook as (m & Hm & _ & Hrun). injection Hm as <-. exact Hrun.
  - apply (Hact _ _ (surjective_pairing _)).
Defined.

(** X18 on Linux: the two persisted documents are cleared and the folder
    [docs] is added; a load returns that folder alone. *)
Lemma clearRecentlyUsedDocuments_then_add_witness :
  exists s1 s2,
    ref_clear "linux" world_one = (Ok tt, s1) /\
    ref_add "linux" "/home/u/docs" s1 = (Ok tt, s2) /\
    files s2 !! ref_recents = Some (File (ref_stringify ["/home/u/docs"%string])) /\
    ref_list s2 = (Ok ["/home/u/docs"%string], s2).
Proof.
  apply (clearRecentlyUsedDocuments_then_add "linux" ref_userData ref_join ref_parse
           ref_stringify ref_configureMenu ref_buildFromTemplate ref_parseMenu
           ref_template_ok ref_roundtrip world_one "/home/u/docs").
  - reflexivity.
  - exact wf_world_one.
  - discriminate.
  - vm_compute. reflexivity.
Defined.
